(** * xat-api: the chat controller

    A shallow embedding of [xat-api/src/controllers/chatController.js]
    and of the parts of the JavaScript runtime it relies on (string
    trimming, global regular-expression replacement of code fences,
    [JSON.parse], truthiness), followed by the properties of the
    conversation/prompt lifecycle, of the streaming relay and of the
    sentiment parser.  The last parts cover the rest of the controller
    (the list of models, generation from a stream, the handlers for any
    request) and the two batch scripts of [practica-codi/src].

    Conventions.
    - A JavaScript string is a [string]; each [ascii] stands for a code
      unit in the range 0..255.
    - A JavaScript number is the rational its literal denotes.  Rounding
      to binary64 is monotone and leaves 0 and 10 fixed, so it commutes
      with the clamp of the sentiment score; it is not modelled, and a
      stored score is only stated to lie in [0,10] or to be 0 or 10.
    - Handlers run in a small state-and-exception monad over a [world]:
      the store, the log of upstream calls and the HTTP response object. *)

From Stdlib Require Import Strings.String Strings.Ascii Lists.List Bool.Bool.
From Stdlib Require Import Arith.Arith ZArith.ZArith QArith.QArith Lia.
From Stdlib Require Import Sorting.Sorted Sorting.Permutation.
From Stdlib Require Import Numbers.DecimalString.
Import ListNotations.

Local Open Scope string_scope.
Local Open Scope Z_scope.

(** ** JavaScript strings *)

Module JS.

(** The double quote, written by its code. *)
Definition dq : ascii := "034"%char.

(** [json_text] lets the examples write JSON with single quotes: every
    ['] becomes a double quote. *)
Fixpoint json_text (s : string) : string :=
  match s with
  | EmptyString => EmptyString
  | String c s' =>
      String (if Ascii.eqb c "'"%char then dq else c) (json_text s')
  end.

(** WhiteSpace and LineTerminator code units below 256: TAB, LF, VT, FF,
    CR, SP and NBSP.  This is the set removed by [String.prototype.trim]
    and matched by [\s]. *)
Definition is_ws (c : ascii) : bool :=
  match nat_of_ascii c with
  | 9%nat | 10%nat | 11%nat | 12%nat | 13%nat | 32%nat | 160%nat => true
  | _ => false
  end.

Fixpoint trimStart (s : string) : string :=
  match s with
  | EmptyString => EmptyString
  | String c s' => if is_ws c then trimStart s' else s
  end.

Definition is_empty (s : string) : bool :=
  match s with EmptyString => true | _ => false end.

Fixpoint trimEnd (s : string) : string :=
  match s with
  | EmptyString => EmptyString
  | String c s' =>
      let r := trimEnd s' in
      if is_ws c && is_empty r then EmptyString else String c r
  end.

(** [s.trim()] *)
Definition trim (s : string) : string := trimEnd (trimStart s).

(** [s.startsWith(pre)] *)
Fixpoint startsWith (s pre : string) {struct pre} : bool :=
  match pre with
  | EmptyString => true
  | String p pre' =>
      match s with
      | EmptyString => false
      | String c s' => Ascii.eqb c p && startsWith s' pre'
      end
  end.

(** [s.replace(/LIT\s*/g, '')] for a non-empty literal [LIT]: a scan from
    the left that, wherever [LIT] starts, drops it together with the
    longest run of white space behind it and resumes after the match.
    [skip] counts the code units of a matched literal still to drop, [sp]
    tells that the scan is inside the [\s*] of a match. *)
Fixpoint replace_scan (lit : string) (skip : nat) (sp : bool) (s : string)
  : string :=
  match s with
  | EmptyString => EmptyString
  | String c s' =>
      match skip with
      | S k => replace_scan lit k true s'
      | O =>
          if sp && is_ws c then replace_scan lit 0 true s'
          else if startsWith s lit
               then replace_scan lit (String.length lit - 1) true s'
               else String c (replace_scan lit 0 false s')
      end
  end.

Definition replace_all_ws (lit s : string) : string :=
  replace_scan lit 0 false s.

(** Whether [lit] occurs somewhere in [s]. *)
Fixpoint occurs (lit s : string) : bool :=
  startsWith s lit ||
  match s with
  | EmptyString => false
  | String _ s' => occurs lit s'
  end.

Fixpoint all_ws (s : string) : bool :=
  match s with
  | EmptyString => true
  | String c s' => is_ws c && all_ws s'
  end.

End JS.

(** The code fence, three backticks, and the labelled one. *)
Definition fence : string := "```".
Definition fence_json : string := "```json".
Definition LF : string := String "010"%char EmptyString.

(** ** JSON

    [JSON.parse] as a scanner followed by a pushdown recogniser, both
    driven one code unit (one token) at a time, so that neither needs
    fuel.  The grammar is that of ECMA-404. *)

Module JSON.

#[warnings="-register-all"]
Inductive value : Type :=
| Null
| Bool (b : bool)
| Num (q : Q)
| Str (s : string)
| Arr (elements : list value)
| Obj (members : list (string * value)).

(** *** Numbers *)

Definition digit (c : ascii) : option Z :=
  let n := nat_of_ascii c in
  if ((48 <=? n) && (n <=? 57))%nat then Some (Z.of_nat (n - 48)) else None.

(** The longest run of decimal digits at the head of [s]: the value read
    on top of [acc], the number of digits, and what follows. *)
Fixpoint digits (s : string) (acc : Z) (n : nat) : Z * nat * string :=
  match s with
  | EmptyString => (acc, n, s)
  | String c s' =>
      match digit c with
      | Some d => digits s' (10 * acc + d) (S n)
      | None => (acc, n, s)
      end
  end.

(** [m * 10^e] as a reduced fraction. *)
Definition scale (m e : Z) : Q :=
  if 0 <=? e then Qmake (m * 10 ^ e) 1
  else Qred (Qmake m (Z.to_pos (10 ^ (- e)))).

(** A number literal: an optional minus sign; an integer part that is 0
    or starts with a digit from 1 to 9; an optional fraction of a dot and
    one or more digits; an optional exponent of e or E, an optional sign
    and one or more digits. *)
Definition number (s : string) : option Q :=
  let '(neg, s1) :=
    match s with
    | String "-"%char r => (true, r)
    | _ => (false, s)
    end in
  let '(ip, ni, s2) := digits s1 0 0 in
  let int_ok :=
    match ni with
    | O => false
    | 1%nat => true
    | _ => negb (JS.startsWith s1 "0")
    end in
  let fraction :=
    match s2 with
    | String "."%char r =>
        let '(m, nf, r') := digits r ip 0 in
        match nf with O => None | _ => Some (m, nf, r') end
    | _ => Some (ip, O, s2)
    end in
  match int_ok, fraction with
  | true, Some (m, nf, s3) =>
      let exponent :=
        match s3 with
        | String c r =>
            if Ascii.eqb c "e"%char || Ascii.eqb c "E"%char then
              let '(sg, r1) :=
                match r with
                | String "-"%char r' => (-1, r')
                | String "+"%char r' => (1, r')
                | _ => (1, r)
                end in
              let '(ev, ne, r2) := digits r1 0 0 in
              match ne with O => None | _ => Some (sg * ev, r2) end
            else Some (0, s3)
        | EmptyString => Some (0, EmptyString)
        end in
      match exponent with
      | Some (e, EmptyString) =>
          Some (scale (if neg then - m else m) (e - Z.of_nat nf))
      | _ => None
      end
  | _, _ => None
  end.

(** *** Scanner *)

Inductive token : Type :=
| TLBrace | TRBrace | TLBracket | TRBracket | TColon | TComma
| TStr (s : string)
| TNum (q : Q)
| TTrue | TFalse | TNull.

(** JSON white space: SP, TAB, LF, CR. *)
Definition is_json_ws (c : ascii) : bool :=
  match nat_of_ascii c with
  | 9%nat | 10%nat | 13%nat | 32%nat => true
  | _ => false
  end.

Definition punct (c : ascii) : option token :=
  match nat_of_ascii c with
  | 123%nat => Some TLBrace
  | 125%nat => Some TRBrace
  | 91%nat => Some TLBracket
  | 93%nat => Some TRBracket
  | 58%nat => Some TColon
  | 44%nat => Some TComma
  | _ => None
  end.

(** Code units a literal name or a number is made of. *)
Definition is_atom_char (c : ascii) : bool :=
  let n := nat_of_ascii c in
  (((48 <=? n) && (n <=? 57)) || ((97 <=? n) && (n <=? 122))
   || ((65 <=? n) && (n <=? 90))
   || (n =? 45) || (n =? 43) || (n =? 46))%nat.

Definition atom_token (a : string) : option token :=
  if String.eqb a "true" then Some TTrue
  else if String.eqb a "false" then Some TFalse
  else if String.eqb a "null" then Some TNull
  else option_map TNum (number a).

Definition hex (c : ascii) : option nat :=
  let n := nat_of_ascii c in
  (if (48 <=? n) && (n <=? 57) then Some (n - 48)
   else if (97 <=? n) && (n <=? 102) then Some (n - 87)
   else if (65 <=? n) && (n <=? 70) then Some (n - 55)
   else None)%nat.

Definition snoc (s : string) (c : ascii) : string :=
  s ++ String c EmptyString.

Inductive mode : Type :=
| MIdle
| MAtom (a : string)
| MStr (a : string)
| MEsc (a : string)
| MHex (a : string) (h : list nat).

Definition scanner : Type := list token * mode.

Definition idle_step (ts : list token) (c : ascii) : option scanner :=
  if is_json_ws c then Some (ts, MIdle)
  else match punct c with
       | Some t => Some ((ts ++ [t])%list, MIdle)
       | None =>
           if Ascii.eqb c JS.dq then Some (ts, MStr EmptyString)
           else if is_atom_char c then Some (ts, MAtom (String c EmptyString))
           else None
       end.

(** An escape [\uXXXX] denoting a code unit above 255 lies outside the
    modelled alphabet; the scanner rejects it. *)
Definition scan_step (st : scanner) (c : ascii) : option scanner :=
  let '(ts, m) := st in
  match m with
  | MIdle => idle_step ts c
  | MAtom a =>
      if is_atom_char c then Some (ts, MAtom (snoc a c))
      else match atom_token a with
           | Some t => idle_step (ts ++ [t])%list c
           | None => None
           end
  | MStr a =>
      if Ascii.eqb c JS.dq then Some ((ts ++ [TStr a])%list, MIdle)
      else if Ascii.eqb c "\"%char then Some (ts, MEsc a)
      else if (nat_of_ascii c <? 32)%nat then None
      else Some (ts, MStr (snoc a c))
  | MEsc a =>
      match nat_of_ascii c with
      | 34%nat => Some (ts, MStr (snoc a JS.dq))
      | 92%nat => Some (ts, MStr (snoc a "\"%char))
      | 47%nat => Some (ts, MStr (snoc a "/"%char))
      | 98%nat => Some (ts, MStr (snoc a "008"%char))
      | 102%nat => Some (ts, MStr (snoc a "012"%char))
      | 110%nat => Some (ts, MStr (snoc a "010"%char))
      | 114%nat => Some (ts, MStr (snoc a "013"%char))
      | 116%nat => Some (ts, MStr (snoc a "009"%char))
      | 117%nat => Some (ts, MHex a [])
      | _ => None
      end
  | MHex a h =>
      match hex c with
      | None => None
      | Some d =>
          match h with
          | [d1; d2; d3] =>
              let code := (((d1 * 16 + d2) * 16 + d3) * 16 + d)%nat in
              if (code <? 256)%nat
              then Some (ts, MStr (snoc a (ascii_of_nat code)))
              else None
          | _ => Some (ts, MHex a (h ++ [d])%list)
          end
      end
  end.

Fixpoint scan (st : option scanner) (s : string) : option scanner :=
  match s with
  | EmptyString => st
  | String c s' =>
      match st with
      | Some x => scan (scan_step x c) s'
      | None => None
      end
  end.

Definition scan_finish (st : option scanner) : option (list token) :=
  match st with
  | Some (ts, MIdle) => Some ts
  | Some (ts, MAtom a) => option_map (fun t => (ts ++ [t])%list) (atom_token a)
  | _ => None
  end.

Fixpoint all_json_ws (s : string) : bool :=
  match s with
  | EmptyString => true
  | String c s' => is_json_ws c && all_json_ws s'
  end.

Definition tokens (s : string) : option (list token) :=
  scan_finish (scan (Some ([], MIdle)) s).

(** *** Recogniser *)

Inductive frame : Type :=
| FArr (acc : list value)
| FObj (acc : list (string * value))
| FMember (acc : list (string * value)) (key : string).

Inductive expect : Type :=
| EValue (first : bool)   (* a value; right after [[] also []] *)
| EKey (first : bool)     (* a member name; right after [{] also [}] *)
| EColon
| ERest                   (* after a value inside a container *)
| EEnd (v : value).       (* the text is complete *)

Definition parser : Type := list frame * expect.

(** A finished value goes to the enclosing container, or ends the text. *)
Definition deliver (stack : list frame) (v : value) : option parser :=
  match stack with
  | [] => Some ([], EEnd v)
  | FArr acc :: st => Some (FArr (acc ++ [v])%list :: st, ERest)
  | FMember acc k :: st => Some (FObj (acc ++ [(k, v)])%list :: st, ERest)
  | FObj _ :: _ => None
  end.

Definition parse_step (p : parser) (t : token) : option parser :=
  let '(stack, e) := p in
  match e with
  | EValue first =>
      match t with
      | TNull => deliver stack Null
      | TTrue => deliver stack (Bool true)
      | TFalse => deliver stack (Bool false)
      | TNum q => deliver stack (Num q)
      | TStr s => deliver stack (Str s)
      | TLBracket => Some (FArr [] :: stack, EValue true)
      | TLBrace => Some (FObj [] :: stack, EKey true)
      | TRBracket =>
          match first, stack with
          | true, FArr acc :: st => deliver st (Arr acc)
          | _, _ => None
          end
      | _ => None
      end
  | EKey first =>
      match t, stack with
      | TStr k, FObj acc :: st => Some (FMember acc k :: st, EColon)
      | TRBrace, FObj acc :: st => if first then deliver st (Obj acc) else None
      | _, _ => None
      end
  | EColon =>
      match t with
      | TColon => Some (stack, EValue false)
      | _ => None
      end
  | ERest =>
      match t, stack with
      | TComma, FArr _ :: _ => Some (stack, EValue false)
      | TComma, FObj _ :: _ => Some (stack, EKey false)
      | TRBracket, FArr acc :: st => deliver st (Arr acc)
      | TRBrace, FObj acc :: st => deliver st (Obj acc)
      | _, _ => None
      end
  | EEnd _ => None
  end.

Fixpoint run (p : option parser) (ts : list token) : option parser :=
  match ts with
  | [] => p
  | t :: ts' =>
      match p with
      | Some x => run (parse_step x t) ts'
      | None => None
      end
  end.

Definition build (ts : list token) : option value :=
  match run (Some ([], EValue false)) ts with
  | Some ([], EEnd v) => Some v
  | _ => None
  end.

(** [JSON.parse(s)]; [None] stands for the SyntaxError. *)
Definition parse (s : string) : option value :=
  match tokens s with
  | Some ts => build ts
  | None => None
  end.

(** *** Reading parsed values *)

(** An own property of a parsed object: the last member of that name. *)
Fixpoint lookup (members : list (string * value)) (k : string)
  : option value :=
  match members with
  | [] => None
  | (k', v) :: r =>
      match lookup r k with
      | Some w => Some w
      | None => if String.eqb k' k then Some v else None
      end
  end.

(** Truthiness; [None] is [undefined]. *)
Definition truthy (v : option value) : bool :=
  match v with
  | None => false
  | Some Null => false
  | Some (Bool b) => b
  | Some (Num q) => negb (Qeq_bool q 0)
  | Some (Str s) => negb (JS.is_empty s)
  | Some (Arr _) => true
  | Some (Obj _) => true
  end.

(** ToString of a parsed value, as [+=] on a string applies it.  The
    printing of a number is left to [num]. *)
Fixpoint ToString (num : Q -> string) (v : value) : string :=
  match v with
  | Null => "null"
  | Bool true => "true"
  | Bool false => "false"
  | Num q => num q
  | Str s => s
  | Arr l =>
      (fix join (l : list value) : string :=
         match l with
         | [] => EmptyString
         | x :: r =>
             let e := match x with
                      | Null => EmptyString
                      | _ => ToString num x
                      end in
             match r with
             | [] => e
             | _ => e ++ "," ++ join r
             end
         end) l
  | Obj _ => "[object Object]"
  end.

End JSON.

(** ** The store and the world a handler runs in *)

(** Modelled from the spec: the Conversation model ([../models]) is not
    among the sources; a row has the identifier, client-supplied or
    generated, and the creation timestamp of section 3. *)
Record ConversationRow : Type := {
  c_id : string;
  c_createdAt : Z
}.

(** Modelled from the spec: the Prompt model is not among the sources; a
    row has the fields of section 3, under the names the controller gives
    them.  Its key is handed out by the store. *)
Record PromptRow : Type := {
  p_id : nat;
  p_prompt : string;
  p_response : string;
  p_model : string;
  p_stream : bool;
  p_ConversationId : string;
  p_createdAt : Z
}.

(** A row of [SentimentAnalysis]; the score is the number handed to the
    column, the sentiment the value handed to it. *)
Record SentimentRow : Type := {
  s_id : string;
  s_text : string;
  s_score : Q;
  s_sentiment : JSON.value;
  s_model : string;
  s_resposta_completa : string;
  s_createdAt : Z
}.

(** The tables in storage order, and the number of UUIDs drawn so far. *)
Record database : Type := {
  conversations : list ConversationRow;
  prompts : list PromptRow;
  sentiments : list SentimentRow;
  seed : nat
}.

(** The body of a POST to the upstream [/generate] endpoint. *)
Record generate_request : Type := {
  g_model : string;
  g_prompt : string;
  g_stream : bool
}.

(** What the upstream response stream emits. *)
Inductive stream_event : Type :=
| Data (chunk : string)
| Error (e : string).

(** The promise returned by [axios.post]: rejected on a connection
    error, a timeout or a non-success status. *)
Inductive reply (A : Type) : Type :=
| Rejected (e : string)
| Resolved (response_data : A).

Arguments Rejected {A} e.
Arguments Resolved {A} response_data.

(** The objects written to the client as server-sent events. *)
Inductive sse_event : Type :=
| EvStart (conversationId : string) (promptId : nat) (prompt : string)
| EvChunk (conversationId : string) (promptId : nat) (chunk : JSON.value)
| EvEnd (conversationId : string) (promptId : nat) (fullResponse : string)
| EvError (msg : string).

(** The attributes of a prompt a conversation is returned with. *)
Record PromptView : Type := {
  v_id : nat;
  v_prompt : string;
  v_response : string;
  v_createdAt : Z
}.

(** The objects passed to [res.json]. *)
Inductive body : Type :=
| BMessage (message : string)
| BError (err : string) (details : option string)
| BPrompt (conversationId : string) (promptId : nat)
    (prompt response message : string)
| BConversation (conversation : ConversationRow) (Prompts : list PromptView)
| BSentiment (id text : string) (score : Q) (sentiment : JSON.value)
    (model : string) (createdAt : Z).

Record response : Type := {
  statusCode : nat;
  headers : list (string * string);
  sent : option body;
  written : list sse_event;
  ended : bool
}.

(** The listeners [processStreamingResponse] registers close over the
    conversation and the prompt; [sub_events] is what the stream they are
    attached to will emit. *)
Record subscription : Type := {
  sub_conversation : ConversationRow;
  sub_prompt : PromptRow;
  sub_events : list stream_event
}.

Record world : Type := {
  db : database;
  now : Z;                                           (* the clock *)
  uuidv4 : nat -> string;                            (* the n-th UUID drawn *)
  ollama_json : generate_request -> reply JSON.value;
  ollama_stream : generate_request -> reply (list stream_event);
  calls : list generate_request;                     (* upstream calls made *)
  res : response;
  forwarded : option string;                         (* [next(error)] *)
  subscribed : option subscription;
  uncaught : list string                 (* exceptions no handler caught *)
}.

Definition fresh_response : response :=
  {| statusCode := 200; headers := []; sent := None; written := [];
     ended := false |}.

Definition set_db (d : database) (w : world) : world :=
  {| db := d; now := now w; uuidv4 := uuidv4 w; ollama_json := ollama_json w;
     ollama_stream := ollama_stream w; calls := calls w; res := res w;
     forwarded := forwarded w; subscribed := subscribed w;
     uncaught := uncaught w |}.

Definition set_calls (c : list generate_request) (w : world) : world :=
  {| db := db w; now := now w; uuidv4 := uuidv4 w;
     ollama_json := ollama_json w; ollama_stream := ollama_stream w;
     calls := c; res := res w; forwarded := forwarded w;
     subscribed := subscribed w; uncaught := uncaught w |}.

Definition set_res (r : response) (w : world) : world :=
  {| db := db w; now := now w; uuidv4 := uuidv4 w;
     ollama_json := ollama_json w; ollama_stream := ollama_stream w;
     calls := calls w; res := r; forwarded := forwarded w;
     subscribed := subscribed w; uncaught := uncaught w |}.

Definition set_forwarded (e : string) (w : world) : world :=
  {| db := db w; now := now w; uuidv4 := uuidv4 w;
     ollama_json := ollama_json w; ollama_stream := ollama_stream w;
     calls := calls w; res := res w; forwarded := Some e;
     subscribed := subscribed w; uncaught := uncaught w |}.

Definition set_subscribed (s : option subscription) (w : world) : world :=
  {| db := db w; now := now w; uuidv4 := uuidv4 w;
     ollama_json := ollama_json w; ollama_stream := ollama_stream w;
     calls := calls w; res := res w; forwarded := forwarded w;
     subscribed := s; uncaught := uncaught w |}.

Definition add_uncaught (e : string) (w : world) : world :=
  {| db := db w; now := now w; uuidv4 := uuidv4 w;
     ollama_json := ollama_json w; ollama_stream := ollama_stream w;
     calls := calls w; res := res w; forwarded := forwarded w;
     subscribed := subscribed w; uncaught := (uncaught w ++ [e])%list |}.

(** *** The monad of handlers: state and exceptions *)

Inductive outcome (A : Type) : Type :=
| Return (a : A)
| Raise (e : string).

Arguments Return {A} a.
Arguments Raise {A} e.

Definition M (A : Type) : Type := world -> outcome A * world.

Definition ret {A : Type} (a : A) : M A := fun w => (Return a, w).

Definition raise {A : Type} (e : string) : M A := fun w => (Raise e, w).

Definition bind {A B : Type} (m : M A) (k : A -> M B) : M B :=
  fun w =>
    match m w with
    | (Return a, w') => k a w'
    | (Raise e, w') => (Raise e, w')
    end.

(** [try { m } catch (e) { h e }]; what [m] did before raising stays. *)
Definition try_catch {A : Type} (m : M A) (h : string -> M A) : M A :=
  fun w =>
    match m w with
    | (Return a, w') => (Return a, w')
    | (Raise e, w') => h e w'
    end.

Definition get {A : Type} (f : world -> A) : M A := fun w => (Return (f w), w).

Definition modify (f : world -> world) : M unit := fun w => (Return tt, f w).

(** A pure step that may throw. *)
Definition lift {A : Type} (x : option A) (e : string) : M A :=
  match x with
  | Some a => ret a
  | None => raise e
  end.

Declare Scope js_scope.
Delimit Scope js_scope with js.

Notation "x <- m ;; k" := (bind m (fun x => k))
  (at level 61, m at next level, right associativity) : js_scope.
Notation "m ;; k" := (bind m (fun _ => k))
  (at level 61, right associativity) : js_scope.

Local Open Scope js_scope.

(** *** The response object *)

(** The events the client has received grow by [evs]. *)
Definition push_written (evs : list sse_event) (w : world) : world :=
  let r := res w in
  set_res {| statusCode := statusCode r; headers := headers r;
             sent := sent r; written := (written r ++ evs)%list;
             ended := ended r |} w.

Module Res.

Definition setHeader (k v : string) : M unit :=
  modify (fun w =>
    let r := res w in
    set_res {| statusCode := statusCode r;
               headers := (headers r ++ [(k, v)])%list;
               sent := sent r; written := written r; ended := ended r |} w).

Definition status (n : nat) : M unit :=
  modify (fun w =>
    let r := res w in
    set_res {| statusCode := n; headers := headers r; sent := sent r;
               written := written r; ended := ended r |} w).

(** [res.json(b)] sends the body and finishes the response. *)
Definition json (b : body) : M unit :=
  modify (fun w =>
    let r := res w in
    set_res {| statusCode := statusCode r; headers := headers r;
               sent := Some b; written := written r; ended := true |} w).

(** [res.write] of one event.  On a finished response nothing reaches the
    client, and the handler is not thrown at. *)
Definition write (ev : sse_event) : M unit :=
  modify (fun w =>
    if ended (res w) then w
    else push_written [ev] w).

Definition end_ : M unit :=
  modify (fun w =>
    let r := res w in
    set_res {| statusCode := statusCode r; headers := headers r;
               sent := sent r; written := written r; ended := true |} w).

End Res.

(** [next(error)] *)
Definition next (e : string) : M unit := modify (set_forwarded e).

(** ** The models

    The model definitions of [../models] are not among the sources.  The
    store is the capability the controller uses it as: rows are created,
    found and updated by key, a key is unique in its table, and a key
    that is not supplied is drawn by the store. *)

(** The default of a UUID key ([DataTypes.UUIDV4]): the next UUID of the
    world. *)
Definition draw_uuid : M string :=
  fun w =>
    let d := db w in
    (Return (uuidv4 w (seed d)),
     set_db {| conversations := conversations d; prompts := prompts d;
               sentiments := sentiments d; seed := S (seed d) |} w).

Module Conversation.

(** [Conversation.findByPk(id)] *)
Definition findByPk (id : string) : M (option ConversationRow) :=
  get (fun w => find (fun c => String.eqb (c_id c) id) (conversations (db w))).

(** A row enters the table unless its key is taken. *)
Definition insert (row : ConversationRow) : M ConversationRow :=
  found <- findByPk (c_id row) ;;
  match found with
  | Some _ => raise "SequelizeUniqueConstraintError"
  | None =>
      modify (fun w =>
        let d := db w in
        set_db {| conversations := (conversations d ++ [row])%list;
                  prompts := prompts d; sentiments := sentiments d;
                  seed := seed d |} w) ;;
      ret row
  end.

(** [Conversation.create({ id })], and [Conversation.create()] where the
    key defaults to a fresh version-4 UUID. *)
Definition create (id : option string) : M ConversationRow :=
  key <- match id with
         | Some i => ret i
         | None => draw_uuid
         end ;;
  t <- get now ;;
  insert {| c_id := key; c_createdAt := t |}.

Definition view (p : PromptRow) : PromptView :=
  {| v_id := p_id p; v_prompt := p_prompt p; v_response := p_response p;
     v_createdAt := p_createdAt p |}.

(** [ORDER BY createdAt ASC]: an insertion sort on the creation time. *)
Fixpoint place (x : PromptView) (l : list PromptView) : list PromptView :=
  match l with
  | [] => [x]
  | y :: r =>
      if v_createdAt x <=? v_createdAt y then x :: l else y :: place x r
  end.

Fixpoint order_by_createdAt (l : list PromptView) : list PromptView :=
  match l with
  | [] => []
  | x :: r => place x (order_by_createdAt r)
  end.

(** The prompts of a conversation as the storage layer hands them out. *)
Definition stored_prompts (d : database) (id : string) : list PromptView :=
  map view
    (filter (fun p => String.eqb (p_ConversationId p) id) (prompts d)).

(** [Conversation.findByPk(id, { include: { model: Prompt, attributes },
    order })]; [order] tells whether the order clause
    [[Prompt, 'createdAt', 'ASC']] is given. *)
Definition findByPk_include (id : string) (order : bool)
  : M (option (ConversationRow * list PromptView)) :=
  found <- findByPk id ;;
  match found with
  | None => ret None
  | Some c =>
      ps <- get (fun w => stored_prompts (db w) id) ;;
      ret (Some (c, if order then order_by_createdAt ps else ps))
  end.

End Conversation.

(** The fields the controller passes to [Prompt.create]. *)
Record prompt_fields : Type := {
  f_prompt : string;
  f_response : string;
  f_model : string;
  f_stream : bool;
  f_ConversationId : string
}.

Module Prompt.

(** A key no stored prompt has. *)
Definition fresh_id (d : database) : nat :=
  S (fold_right Nat.max O (map p_id (prompts d))).

(** [Prompt.create({ ... })] *)
Definition create (f : prompt_fields) : M PromptRow :=
  fun w =>
    let d := db w in
    let row := {| p_id := fresh_id d; p_prompt := f_prompt f;
                  p_response := f_response f; p_model := f_model f;
                  p_stream := f_stream f;
                  p_ConversationId := f_ConversationId f;
                  p_createdAt := now w |} in
    (Return row,
     set_db {| conversations := conversations d;
               prompts := (prompts d ++ [row])%list;
               sentiments := sentiments d; seed := seed d |} w).

Definition with_response (r : string) (p : PromptRow) : PromptRow :=
  {| p_id := p_id p; p_prompt := p_prompt p; p_response := r;
     p_model := p_model p; p_stream := p_stream p;
     p_ConversationId := p_ConversationId p; p_createdAt := p_createdAt p |}.

(** [prompt.update({ response })]: the row of that key is rewritten. *)
Definition update (p : PromptRow) (r : string) : M unit :=
  modify (fun w =>
    let d := db w in
    set_db {| conversations := conversations d;
              prompts := map (fun x => if Nat.eqb (p_id x) (p_id p)
                                       then with_response r x else x)
                           (prompts d);
              sentiments := sentiments d; seed := seed d |} w).

End Prompt.

(** The fields the controller passes to [SentimentAnalysis.create]. *)
Record sentiment_fields : Type := {
  sf_text : string;
  sf_score : Q;
  sf_sentiment : JSON.value;
  sf_model : string;
  sf_resposta_completa : string
}.

Module SentimentAnalysis.

(** Whether the validation of the model accepts a value for a string
    column: an array or an object is refused ([sentiment] is declared
    [STRING(20)]). *)
Definition string_column (v : JSON.value) : bool :=
  match v with
  | JSON.Arr _ | JSON.Obj _ => false
  | _ => true
  end.

(** The key defaults to a version-4 UUID, drawn when the instance is
    built, and is the primary key; the instance is validated before it
    is inserted.  The bounds on the lengths of [sentiment] and [model],
    and the two decimals of [score], are the database's to enforce and
    are not modelled: no property relies on a longer text being stored
    or on the decimals of a stored score. *)
Definition create (f : sentiment_fields) : M SentimentRow :=
  key <- draw_uuid ;;
  (if string_column (sf_sentiment f) then ret tt
   else raise "SequelizeValidationError") ;;
  taken <- get (fun w =>
             existsb (fun s => String.eqb (s_id s) key) (sentiments (db w))) ;;
  if (taken : bool) then raise "SequelizeUniqueConstraintError"
  else
    t <- get now ;;
    let row := {| s_id := key; s_text := sf_text f; s_score := sf_score f;
                  s_sentiment := sf_sentiment f; s_model := sf_model f;
                  s_resposta_completa := sf_resposta_completa f;
                  s_createdAt := t |} in
    modify (fun w =>
      let d := db w in
      set_db {| conversations := conversations d; prompts := prompts d;
                sentiments := (sentiments d ++ [row])%list;
                seed := seed d |} w) ;;
    ret row.

End SentimentAnalysis.

(** ** The controller *)

(** Request bodies whose [conversationId], [prompt] and [model] are
    strings or absent, an absent field being [None]; [b_stream] is the
    truthiness of the [stream] field, [false] when it is absent.  Bodies
    with a field of another type are not covered. *)
Record prompt_body : Type := {
  b_conversationId : option string;
  b_prompt : option string;
  b_model : option string;
  b_stream : bool
}.

(** The fixed texts of the controller.  Accented letters are written by
    their code. *)
Definition e_acute : string := String "233"%char EmptyString.
Definition a_grave : string := String "224"%char EmptyString.

Definition apology : string :=
  "Ho sento, no he pogut generar una resposta en aquest moment.".
Definition msg_prompt_required : string :=
  "El prompt " ++ e_acute ++ "s obligatori".
Definition msg_invalid_id : string :=
  "ID de conversa inv" ++ a_grave ++ "lid".
Definition msg_registered : string := "Prompt registrat correctament".
Definition msg_stream_error : string :=
  "Error en el proc" ++ e_acute ++ "s de streaming".
Definition msg_chunk_error : string :=
  "Error processant la resposta en streaming".
Definition msg_not_found : string := "Conversa no trobada".
Definition msg_text_required : string :=
  "El camp text " ++ e_acute ++ "s obligatori i ha de contenir text valid".
Definition msg_not_analysed : string := "No s'ha pogut analitzar el text".
Definition msg_bad_format : string :=
  "El model no ha retornat un format v" ++ a_grave ++ "lid".

(** The prompt sent upstream for a sentiment analysis (lines 410-421). *)
Definition sentiment_prompt (text : string) : string :=
  let pad := "        " in
  "Analitza el sentiment del seguent text i respon amb un JSON amb aquesta estructura exacta:"
  ++ LF ++ pad ++ "{"
  ++ LF ++ pad ++ JS.json_text "    'score': X.X,"
  ++ LF ++ pad ++ JS.json_text "    'sentiment': 'positiu/negatiu/neutral'"
  ++ LF ++ pad ++ "}"
  ++ LF
  ++ LF ++ pad ++ JS.json_text "'score' es un n" ++ String "250"%char
       "mero del 0 al 10 (0 = molt negatiu, 5 = neutral, 10 = molt positiu)."
  ++ LF ++ pad
  ++ JS.json_text "El sentiment ha de ser: 'positiu' (score > 6), 'neutral' (score 4-6) o 'negatiu' (score < 4)."
  ++ LF
  ++ LF ++ pad ++ "Text a analitzar: " ++ String JS.dq text
  ++ String JS.dq EmptyString
  ++ LF
  ++ LF ++ pad ++ "Respon NOM" ++ String "201"%char "S amb el JSON, sense cap text m"
  ++ e_acute ++ "s.".

(** [v.k] on a parsed value: a TypeError ([None]) on [null], [undefined]
    on a value that has no such own property.  The names read by the
    controller ([response], [done], [score], [sentiment]) are inherited by
    no parsed value. *)
Definition member (v : JSON.value) (k : string)
  : option (option JSON.value) :=
  match v with
  | JSON.Null => None
  | JSON.Obj ms => Some (JSON.lookup ms k)
  | _ => Some None
  end.

(** [Math.min] and [Math.max] on two numbers. *)
Definition Math_min (a b : Q) : Q := if Qle_bool a b then a else b.
Definition Math_max (a b : Q) : Q := if Qle_bool a b then b else a.

(** Lines 437-442: the code fences are taken off the trimmed answer. *)
Definition strip_fences (response : string) : string :=
  let jsonText := JS.trim response in
  if JS.startsWith jsonText fence_json then
    JS.replace_all_ws fence (JS.replace_all_ws fence_json jsonText)
  else if JS.startsWith jsonText fence then
    JS.replace_all_ws fence jsonText
  else jsonText.

(** Lines 437-452, the body of the inner [try]: the parsed answer with
    its score clamped, or [None] when the block throws. *)
Definition parse_analysis (response : string) : option (Q * JSON.value) :=
  match JSON.parse (strip_fences response) with
  | None => None
  | Some analysisResult =>
      match member analysisResult "score",
            member analysisResult "sentiment" with
      | Some (Some (JSON.Num score)), Some (Some sentiment) =>
          if JSON.truthy (Some sentiment)
          then Some (Math_max 0 (Math_min 10 score), sentiment)
          else None
      | _, _ => None
      end
  end.

Section chatController.

(** [validateUUID] of [../middleware/validators], which is not among the
    sources, and the model name taken from the environment. *)
Variable validateUUID : string -> bool.
Variable DEFAULT_OLLAMA_MODEL : string.

(** [Number.prototype.toString]. *)
Variable Number_toString : Q -> string.

(** [axios.post] to the [/generate] endpoint, with [responseType] json or
    stream. *)
Definition axios_post_json (body : generate_request) : M JSON.value :=
  modify (fun w => set_calls (calls w ++ [body])%list w) ;;
  r <- get (fun w => ollama_json w body) ;;
  match r with
  | Rejected e => raise e
  | Resolved d => ret d
  end.

Definition axios_post_stream (body : generate_request)
  : M (list stream_event) :=
  modify (fun w => set_calls (calls w ++ [body])%list w) ;;
  r <- get (fun w => ollama_stream w body) ;;
  match r with
  | Rejected e => raise e
  | Resolved d => ret d
  end.

(** [generateResponse(prompt, { model })].  Both callers leave [stream]
    false, so the branch of lines 91-122 is never taken and is left out.
    [response.data.response.length] and [.trim()] throw a TypeError
    unless [response.data.response] is a string; every exception ends in
    the apology. *)
Definition generateResponse (prompt model : string) : M string :=
  try_catch
    (response_data <- axios_post_json
        {| g_model := model; g_prompt := prompt; g_stream := false |} ;;
     match member response_data "response" with
     | Some (Some (JSON.Str r)) => ret (JS.trim r)
     | _ => raise "TypeError"
     end)
    (fun _ => ret apology).

(** The listener of ['data'] (lines 308-338), given the accumulator
    [fullResponse] it closes over; it returns the accumulator.  The
    [await] of the update is taken to finish before the next event. *)
Definition on_data (conversation : ConversationRow) (prompt : PromptRow)
    (fullResponse : string) (chunk : string) : M string :=
  try_catch
    (parsedChunk <- lift (JSON.parse chunk) "SyntaxError" ;;
     chunk_response <- lift (member parsedChunk "response") "TypeError" ;;
     fullResponse <-
       (match chunk_response with
        | Some r =>
            if JSON.truthy chunk_response then
              Res.write (EvChunk (c_id conversation) (p_id prompt) r) ;;
              ret (fullResponse ++ JSON.ToString Number_toString r)
            else ret fullResponse
        | None => ret fullResponse
        end) ;;
     chunk_done <- lift (member parsedChunk "done") "TypeError" ;;
     (if JSON.truthy chunk_done then
        Prompt.update prompt fullResponse ;;
        Res.write (EvEnd (c_id conversation) (p_id prompt) fullResponse) ;;
        Res.end_
      else ret tt) ;;
     ret fullResponse)
    (fun _ => raise msg_chunk_error).

(** The listener of ['error'] (lines 340-342). *)
Definition on_error (e : string) : M unit := raise e.

(** [processStreamingResponse]: once the upstream has answered, the two
    listeners are registered and the function returns. *)
Definition processStreamingResponse (conversation : ConversationRow)
    (prompt : PromptRow) (promptText model : string) : M unit :=
  ollamaResponse_data <- axios_post_stream
      {| g_model := model; g_prompt := promptText; g_stream := true |} ;;
  modify (set_subscribed
            (Some {| sub_conversation := conversation; sub_prompt := prompt;
                     sub_events := ollamaResponse_data |})).

Definition handleStreamingResponse (conversation : ConversationRow)
    (prompt model : string) : M unit :=
  Res.setHeader "Content-Type" "text/event-stream" ;;
  Res.setHeader "Cache-Control" "no-cache" ;;
  Res.setHeader "Connection" "keep-alive" ;;
  newPrompt <- Prompt.create
      {| f_prompt := JS.trim prompt; f_response := EmptyString;
         f_model := model; f_stream := true;
         f_ConversationId := c_id conversation |} ;;
  Res.write (EvStart (c_id conversation) (p_id newPrompt) (JS.trim prompt)) ;;
  try_catch
    (processStreamingResponse conversation newPrompt prompt model)
    (fun _ => Res.write (EvError msg_stream_error) ;; Res.end_).

(** [handleNormalResponse].  Its [catch] calls [next], which is not bound
    in this function, so the handler itself throws a ReferenceError. *)
Definition handleNormalResponse (conversation : ConversationRow)
    (prompt model : string) : M unit :=
  try_catch
    (ollamaResponse <- generateResponse prompt model ;;
     newPrompt <- Prompt.create
         {| f_prompt := JS.trim prompt; f_response := ollamaResponse;
            f_model := model; f_stream := false;
            f_ConversationId := c_id conversation |} ;;
     Res.status 201 ;;
     Res.json (BPrompt (c_id conversation) (p_id newPrompt)
                 (p_prompt newPrompt) (p_response newPrompt) msg_registered))
    (fun _ => raise "ReferenceError: next is not defined").

(** Truthiness of an optional string field. *)
Definition given (s : option string) : bool :=
  match s with
  | Some x => negb (JS.is_empty x)
  | None => false
  end.

Definition registerPrompt (body : prompt_body) : M unit :=
  try_catch
    (let model := match b_model body with
                  | Some m => m
                  | None => DEFAULT_OLLAMA_MODEL
                  end in
     match b_prompt body with
     | None =>
         Res.status 400 ;; Res.json (BMessage msg_prompt_required)
     | Some prompt =>
         if JS.is_empty (JS.trim prompt) then
           Res.status 400 ;; Res.json (BMessage msg_prompt_required)
         else
           let respond conversation :=
             if b_stream body
             then handleStreamingResponse conversation prompt model
             else handleNormalResponse conversation prompt model in
           match b_conversationId body with
           | Some conversationId =>
               if negb (JS.is_empty conversationId) then
                 if negb (validateUUID conversationId) then
                   Res.status 400 ;; Res.json (BMessage msg_invalid_id)
                 else
                   found <- Conversation.findByPk conversationId ;;
                   conversation <-
                     match found with
                     | Some c => ret c
                     | None => Conversation.create (Some conversationId)
                     end ;;
                   respond conversation
               else
                 conversation <- Conversation.create None ;;
                 respond conversation
           | None =>
               conversation <- Conversation.create None ;;
               respond conversation
           end
     end)
    (fun e => next e).

Definition getConversation (id : string) : M unit :=
  try_catch
    (if negb (validateUUID id) then
       Res.status 400 ;; Res.json (BMessage msg_invalid_id)
     else
       conversation <- Conversation.findByPk id ;;
       match conversation with
       | None => Res.status 404 ;; Res.json (BMessage msg_not_found)
       | Some _ =>
           conversationWithPrompts <- Conversation.findByPk_include id true ;;
           match conversationWithPrompts with
           | Some (c, ps) => Res.json (BConversation c ps)
           | None => raise "TypeError"
           end
       end)
    (fun e => next e).

Definition analyzeSentiment (text : option string) : M unit :=
  try_catch
    (match text with
     | None =>
         Res.status 400 ;; Res.json (BError msg_text_required None)
     | Some text =>
         if JS.is_empty text || JS.is_empty (JS.trim text) then
           Res.status 400 ;; Res.json (BError msg_text_required None)
         else
           response <- generateResponse (sentiment_prompt text)
                         DEFAULT_OLLAMA_MODEL ;;
           match parse_analysis response with
           | None =>
               Res.status 500 ;;
               Res.json (BError msg_not_analysed (Some msg_bad_format))
           | Some (score, sentiment) =>
               sentimentAnalysis <- SentimentAnalysis.create
                   {| sf_text := text; sf_score := score;
                      sf_sentiment := sentiment;
                      sf_model := DEFAULT_OLLAMA_MODEL;
                      sf_resposta_completa := response |} ;;
               Res.status 201 ;;
               Res.json (BSentiment (s_id sentimentAnalysis)
                           (s_text sentimentAnalysis)
                           (s_score sentimentAnalysis)
                           (s_sentiment sentimentAnalysis)
                           (s_model sentimentAnalysis)
                           (s_createdAt sentimentAnalysis))
           end
     end)
    (fun e => next e).

(** *** The event loop

    After the handler has returned, the events of the subscribed stream
    reach the listeners one at a time.  An exception thrown by a listener
    has no enclosing [try] any more: it is an uncaught exception (an
    unhandled rejection for the asynchronous ['data'] listener) and the
    delivery stops. *)
Fixpoint deliver_events (conversation : ConversationRow) (prompt : PromptRow)
    (fullResponse : string) (events : list stream_event) (w : world) : world :=
  match events with
  | [] => w
  | Data chunk :: rest =>
      match on_data conversation prompt fullResponse chunk w with
      | (Return full, w') => deliver_events conversation prompt full rest w'
      | (Raise e, w') => add_uncaught e w'
      end
  | Error e :: _ =>
      match on_error e w with
      | (Return _, w') => w'
      | (Raise e', w') => add_uncaught e' w'
      end
  end.

(** A request from start to finish: the handler, then the events of the
    stream it subscribed to, if any. *)
Definition serve (handler : M unit) (w : world) : world :=
  let w1 := match handler w with
            | (Return _, w') => w'
            | (Raise e, w') => add_uncaught e w'
            end in
  match subscribed w1 with
  | None => w1
  | Some s =>
      deliver_events (sub_conversation s) (sub_prompt s) EmptyString
        (sub_events s) (set_subscribed None w1)
  end.

End chatController.

(** A world in which a request arrives: nothing written, no call made. *)
Definition arrival (d : database) (t : Z) (uuids : nat -> string)
    (upstream_json : generate_request -> reply JSON.value)
    (upstream_stream : generate_request -> reply (list stream_event))
  : world :=
  {| db := d; now := t; uuidv4 := uuids; ollama_json := upstream_json;
     ollama_stream := upstream_stream; calls := []; res := fresh_response;
     forwarded := None; subscribed := None; uncaught := [] |}.

(** ** Notions the properties are stated with *)

(** What sets a fence apart from the text: line breaks or other JSON
    white space, at least one. *)
Definition separator (w : string) : bool :=
  negb (JS.is_empty w) && JSON.all_json_ws w.

(** A text between code fences, labelled ([label] is [json]) or not
    ([label] is empty), set apart from them by [w1] and [w2]. *)
Definition fenced (label w1 t w2 : string) : string :=
  fence ++ label ++ w1 ++ t ++ w2 ++ fence.

(** The [response] and [done] properties of a chunk that parses to a
    value other than [null]. *)
Definition chunk_fields (chunk : string)
  : option (option JSON.value * option JSON.value) :=
  match JSON.parse chunk with
  | Some v =>
      match member v "response", member v "done" with
      | Some r, Some d => Some (r, d)
      | _, _ => None
      end
  | None => None
  end.

(** The fragment a chunk carries: its [response], when truthy. *)
Definition carried (chunk : string) : option JSON.value :=
  match chunk_fields chunk with
  | Some (Some r, _) => if JSON.truthy (Some r) then Some r else None
  | _ => None
  end.

(** A readable chunk that does not signal completion, and one that does. *)
Definition is_fragment_chunk (chunk : string) : bool :=
  match chunk_fields chunk with
  | Some (_, d) => negb (JSON.truthy d)
  | None => false
  end.



Definition fragment_text (num : Q -> string) (chunk : string) : string :=
  match carried chunk with
  | Some r => JSON.ToString num r
  | None => EmptyString
  end.

(** The fragments of a run of chunks, concatenated in order. *)
Fixpoint relay_text (num : Q -> string) (chunks : list string) : string :=
  match chunks with
  | [] => EmptyString
  | ch :: r => fragment_text num ch ++ relay_text num r
  end.

(** One chunk event for each chunk that carries a fragment, in order. *)
Fixpoint chunk_events (cid : string) (pid : nat) (chunks : list string)
  : list sse_event :=
  match chunks with
  | [] => []
  | ch :: r =>
      match carried ch with
      | Some v => EvChunk cid pid v :: chunk_events cid pid r
      | None => chunk_events cid pid r
      end
  end.

Definition is_chunk_event (ev : sse_event) : bool :=
  match ev with EvChunk _ _ _ => true | _ => false end.

Definition is_end_event (ev : sse_event) : bool :=
  match ev with EvEnd _ _ _ => true | _ => false end.

Definition is_error_event (ev : sse_event) : bool :=
  match ev with EvError _ => true | _ => false end.

(** The prompt row [handleStreamingResponse] creates. *)
Definition streaming_row (d : database) (t : Z) (conversation : ConversationRow)
    (prompt model response : string) : PromptRow :=
  {| p_id := Prompt.fresh_id d; p_prompt := JS.trim prompt;
     p_response := response; p_model := model; p_stream := true;
     p_ConversationId := c_id conversation; p_createdAt := t |}.

(** Creation times in ascending order. *)
Fixpoint place_time (x : Z) (l : list Z) : list Z :=
  match l with
  | [] => [x]
  | y :: r => if (x <=? y)%Z then x :: l else y :: place_time x r
  end.

Fixpoint sort_times (l : list Z) : list Z :=
  match l with
  | [] => []
  | x :: r => place_time x (sort_times r)
  end.

Definition ascending (l : list PromptView) : Prop :=
  Sorted (fun a b => (v_createdAt a <= v_createdAt b)%Z) l.

(** Whether a conversation of that key is stored, and how many are. *)
Definition known (d : database) (id : string) : bool :=
  existsb (fun c => String.eqb (c_id c) id) (conversations d).

Definition count_conversations (d : database) (id : string) : nat :=
  List.length (filter (fun c => String.eqb (c_id c) id) (conversations d)).

(** A prompt text that is only white space. *)
Definition blank (prompt : option string) : bool :=
  match prompt with
  | None => true
  | Some s => JS.all_ws s
  end.

(** ** Instances for the examples *)

(** Modelled from the spec: [validateUUID] is not among the sources and
    the spec only calls an identifier well-formed; the examples take the
    canonical form of a UUID, groups of 8, 4, 4, 4 and 12 hexadecimal
    digits separated by hyphens. *)
Fixpoint hex_run (n : nat) (s : string) : option string :=
  match n with
  | O => Some s
  | S k =>
      match s with
      | String c r =>
          match JSON.hex c with
          | Some _ => hex_run k r
          | None => None
          end
      | EmptyString => None
      end
  end.

Fixpoint uuid_groups (gs : list nat) (s : string) : bool :=
  match gs with
  | [] => JS.is_empty s
  | g :: gs' =>
      match hex_run g s, gs' with
      | Some r, [] => JS.is_empty r
      | Some (String "-"%char r), _ => uuid_groups gs' r
      | _, _ => false
      end
  end.

Definition uuid_shape (s : string) : bool :=
  uuid_groups [8; 4; 4; 4; 12]%nat s.

(** The printing of an integral number; the examples print no other. *)
Definition integer_toString (q : Q) : string :=
  NilZero.string_of_int (Z.to_int (Qnum q)).

(** UUIDs as the store draws them in the examples. *)
Definition drawn (n : nat) : string :=
  match n with
  | O => "7c9e6679-7425-40de-944b-e07fc1f90ae7"
  | 1%nat => "0b3f6a52-91c4-4d7e-8a1f-5e2d9c4b7a10"
  | _ => "f47ac10b-58cc-4372-a567-0e02b2c3d479"
  end.

Definition id_A : string := "123e4567-e89b-42d3-a456-426614174000".

Definition empty_db : database :=
  {| conversations := []; prompts := []; sentiments := []; seed := 0 |}.

(** An upstream that is down, and upstreams with a fixed answer. *)
Definition down {A : Type} : generate_request -> reply A :=
  fun _ => Rejected "ECONNREFUSED".

Definition answers (text : string) : generate_request -> reply JSON.value :=
  fun _ => Resolved (JSON.Obj [("response", JSON.Str text)]).

Definition streams (events : list stream_event)
  : generate_request -> reply (list stream_event) :=
  fun _ => Resolved events.

(** ** What the handlers are compared with *)

(** The requests the controller sends upstream. *)
Definition normal_request (prompt model : string) : generate_request :=
  {| g_model := model; g_prompt := prompt; g_stream := false |}.

Definition stream_request (prompt model : string) : generate_request :=
  {| g_model := model; g_prompt := prompt; g_stream := true |}.

(** The text [generateResponse] ends with, given the upstream's reply. *)
Definition generated (r : reply JSON.value) : string :=
  match r with
  | Resolved d =>
      match member d "response" with
      | Some (Some (JSON.Str s)) => JS.trim s
      | _ => apology
      end
  | Rejected _ => apology
  end.

(** The prompt row [handleNormalResponse] creates. *)
Definition normal_row (d : database) (t : Z) (conversation : ConversationRow)
    (prompt model response : string) : PromptRow :=
  {| p_id := Prompt.fresh_id d; p_prompt := JS.trim prompt;
     p_response := response; p_model := model; p_stream := false;
     p_ConversationId := c_id conversation; p_createdAt := t |}.

Definition model_of (DEFAULT_OLLAMA_MODEL : string) (body : prompt_body)
  : string :=
  match b_model body with
  | Some m => m
  | None => DEFAULT_OLLAMA_MODEL
  end.

(** The identifier of the request passes: a supplied one is well formed,
    and when none is supplied the UUID about to be drawn is not taken. *)
Definition identifier_accepted (validateUUID : string -> bool) (d : database)
    (uuids : nat -> string) (cid : option string) : bool :=
  if given cid
  then match cid with Some id => validateUUID id | None => false end
  else negb (known d (uuids (seed d))).

(** The conversation an accepted request proceeds with, and the store
    once it is resolved. *)
Definition resolved (d : database) (t : Z) (uuids : nat -> string)
    (cid : option string) : ConversationRow * database :=
  match (if given cid then cid else None) with
  | Some id =>
      match find (fun c => String.eqb (c_id c) id) (conversations d) with
      | Some c => (c, d)
      | None =>
          let row := {| c_id := id; c_createdAt := t |} in
          (row, {| conversations := (conversations d ++ [row])%list;
                   prompts := prompts d; sentiments := sentiments d;
                   seed := seed d |})
      end
  | None =>
      let row := {| c_id := uuids (seed d); c_createdAt := t |} in
      (row, {| conversations := (conversations d ++ [row])%list;
               prompts := prompts d; sentiments := sentiments d;
               seed := S (seed d) |})
  end.

(** The world once a stream has signalled completion: the prompt is
    updated, the end event written, the response finished. *)
Definition finalized (c : ConversationRow) (p : PromptRow) (full : string)
    (w : world) : world :=
  snd ((Prompt.update p full ;;
        Res.write (EvEnd (c_id c) (p_id p) full) ;;
        Res.end_) w).



(** A handler leaves an observation of the world as it was. *)
Definition preserves {A B : Type} (f : world -> A) (m : M B) : Prop :=
  forall w, f (snd (m w)) = f w.

(** The conversations table, which the response handlers leave alone. *)
Definition conversations_of (w : world) : list ConversationRow :=
  conversations (db w).

(** A text that [trimEnd] leaves alone and that is not empty. *)
Definition settled (b : string) : Prop :=
  JS.trimEnd b = b /\ b <> EmptyString.

(** *** Worlds and requests of the examples *)

Definition chunk_Hi : string := JS.json_text "{'response':'Hi','done':false}".
Definition chunk_there : string :=
  JS.json_text "{'response':' there','done':false}".
Definition chunk_done : string := JS.json_text "{'response':'','done':true}".

Definition conversation_A : ConversationRow :=
  {| c_id := id_A; c_createdAt := 500 |}.

Definition db_A : database :=
  {| conversations := [conversation_A]; prompts := []; sentiments := [];
     seed := 0 |}.

Definition body_blank : prompt_body :=
  {| b_conversationId := Some id_A; b_prompt := Some "   ";
     b_model := None; b_stream := false |}.

Definition body_hello (cid : option string) (stream : bool) : prompt_body :=
  {| b_conversationId := cid; b_prompt := Some " hello ";
     b_model := None; b_stream := stream |}.

(** Prompts stored out of chronological order. *)
Definition db_shuffled : database :=
  {| conversations := [conversation_A];
     prompts :=
       [ {| p_id := 3; p_prompt := "c"; p_response := "C"; p_model := "m";
            p_stream := false; p_ConversationId := id_A; p_createdAt := 930 |};
         {| p_id := 1; p_prompt := "a"; p_response := "A"; p_model := "m";
            p_stream := false; p_ConversationId := id_A; p_createdAt := 910 |};
         {| p_id := 2; p_prompt := "b"; p_response := "B"; p_model := "m";
            p_stream := true; p_ConversationId := id_A; p_createdAt := 920 |} ];
     sentiments := []; seed := 0 |}.

Definition answer_15 : string :=
  JS.json_text "{'score': 15, 'sentiment': 'positiu'}".

Definition answer_7 : string :=
  JS.json_text "{'score':7,'sentiment':'positiu'}".

(** A JSON object text with a code fence inside a string. *)
Definition answer_ticks : string :=
  JS.json_text "{'score':7,'sentiment':'a```b'}".

(** ** The rest of the controller *)

(** *** The list of models (lines 17-58) *)

(** An element of the list answered: the four properties copied from an
    upstream model, each [undefined] ([None]) when the model lacks it. *)
Record model_entry : Type := {
  m_name : option JSON.value;
  m_modified_at : option JSON.value;
  m_size : option JSON.value;
  m_digest : option JSON.value
}.

(** The promise of [axios.get] on [/tags]: rejected, with
    [error.response] (its status and data) when the upstream answered, or
    resolved with [response.data]. *)
Inductive tags_reply : Type :=
| TagsRejected (e : string) (error_response : option (nat * JSON.value))
| TagsResolved (response_data : JSON.value).

(** What the handler does with the response: [res.json] of the list,
    [res.status(..).json] of the failure, or [next(error)]. *)
Inductive models_answer : Type :=
| ModelsJson (total_models : nat) (models : list model_entry)
| ModelsFailed (status : nat) (message : string) (error : JSON.value)
| ModelsNext (e : string).

Definition msg_models_failed : string :=
  "No s'han pogut recuperar els models".

(** The callback of [map] (lines 22-27); reading a property of [null]
    throws, and no parsed value inherits one of the four names. *)
Definition entry_of (model : JSON.value) : option model_entry :=
  match member model "name", member model "modified_at",
        member model "size", member model "digest" with
  | Some n, Some m, Some s, Some d =>
      Some {| m_name := n; m_modified_at := m; m_size := s; m_digest := d |}
  | _, _, _, _ => None
  end.

Fixpoint map_entries (l : list JSON.value) : option (list model_entry) :=
  match l with
  | [] => Some []
  | x :: r =>
      match entry_of x, map_entries r with
      | Some e, Some es => Some (e :: es)
      | _, _ => None
      end
  end.

(** [m.name === DEFAULT_OLLAMA_MODEL] *)
Definition is_default (DEFAULT_OLLAMA_MODEL : string) (m : model_entry)
  : bool :=
  match m_name m with
  | Some (JSON.Str s) => String.eqb s DEFAULT_OLLAMA_MODEL
  | _ => false
  end.

(** [listOllamaModels], given what [axios.get] settles with; the model
    name of the environment is taken to be set.  A [response.data.models]
    that is no array has no [map]: a TypeError, which carries no
    [response] and so goes to [next]. *)
Definition listOllamaModels (DEFAULT_OLLAMA_MODEL : string)
    (reply : tags_reply) : models_answer :=
  match reply with
  | TagsRejected e (Some (status, error_data)) =>
      ModelsFailed status msg_models_failed error_data
  | TagsRejected e None => ModelsNext e
  | TagsResolved response_data =>
      match member response_data "models" with
      | Some (Some (JSON.Arr l)) =>
          match map_entries l with
          | Some models =>
              let filteredModels :=
                match find (is_default DEFAULT_OLLAMA_MODEL) models with
                | Some defaultModel => [defaultModel]
                | None => []
                end in
              ModelsJson (List.length filteredModels) filteredModels
          | None => ModelsNext "TypeError"
          end
      | _ => ModelsNext "TypeError"
      end
  end.

(** Whether an upstream model carries the default name. *)
Definition has_default_name (DEFAULT_OLLAMA_MODEL : string)
    (model : JSON.value) : bool :=
  match member model "name" with
  | Some (Some (JSON.Str s)) => String.eqb s DEFAULT_OLLAMA_MODEL
  | _ => false
  end.

(** *** [generateResponse] with [stream] true (lines 91-122) *)

Section generateResponse_streaming.

Variable Number_toString : Q -> string.

(** The ['data'] listener (lines 95-108): what does not parse, or parses
    to [null], is logged and skipped. *)
Definition collect_chunk (fullResponse chunk : string) : string :=
  match JSON.parse chunk with
  | Some parsedChunk =>
      match member parsedChunk "response" with
      | Some (Some r) =>
          if JSON.truthy (Some r)
          then fullResponse ++ JSON.ToString Number_toString r
          else fullResponse
      | _ => fullResponse
      end
  | None => fullResponse
  end.

(** How the promise of lines 92-121 settles.  The stream ends once its
    events are through, which resolves the promise with the trimmed
    text; an ['error'] rejects it. *)
Fixpoint settle (fullResponse : string) (events : list stream_event)
  : outcome string :=
  match events with
  | [] => Return (JS.trim fullResponse)
  | Data chunk :: rest => settle (collect_chunk fullResponse chunk) rest
  | Error e :: _ => Raise e
  end.

(** [generateResponse(prompt, { model, stream: true })].  The promise is
    returned, not awaited, inside the [try]: a failure of [axios.post]
    ends in the apology, a rejection of the promise reaches the caller. *)
Definition generateResponse_stream (prompt model : string) : M string :=
  started <- try_catch
      (response_data <- axios_post_stream
          {| g_model := model; g_prompt := prompt; g_stream := true |} ;;
       ret (Some response_data))
      (fun _ => ret None) ;;
  match started with
  | Some events => fun w => (settle EmptyString events, w)
  | None => ret apology
  end.

End generateResponse_streaming.

(** *** Notions for the properties of the rest *)

(** The request an accepted prompt request sends upstream. *)
Definition upstream_request (DEFAULT_OLLAMA_MODEL : string)
    (body : prompt_body) (prompt : string) : generate_request :=
  {| g_model := model_of DEFAULT_OLLAMA_MODEL body; g_prompt := prompt;
     g_stream := b_stream body |}.

(** The prompt row an accepted request creates, with the response it
    ends up with. *)
Definition request_row (DEFAULT_OLLAMA_MODEL : string) (d : database) (t : Z)
    (uuids : nat -> string) (body : prompt_body) (prompt response : string)
  : PromptRow :=
  {| p_id := Prompt.fresh_id d; p_prompt := JS.trim prompt;
     p_response := response;
     p_model := model_of DEFAULT_OLLAMA_MODEL body;
     p_stream := b_stream body;
     p_ConversationId :=
       c_id (fst (resolved d t uuids (b_conversationId body)));
     p_createdAt := t |}.

(** The keys of the conversations. *)
Definition conversation_keys (d : database) : list string :=
  map c_id (conversations d).

(** Every stored sentiment score lies in [0,10]. *)
Definition scores_in_range (d : database) : Prop :=
  Forall (fun s => (0 <= s_score s)%Q /\ (s_score s <= 10)%Q) (sentiments d).

Definition stream_headers : list (string * string) :=
  [("Content-Type", "text/event-stream"); ("Cache-Control", "no-cache");
   ("Connection", "keep-alive")].

(** The world of a streaming session once [handleStreamingResponse] has
    returned and before a listener is called: the client has received
    the start event and [more], and the response is [finished] or not. *)
Definition stream_started (d : database) (t : Z) (uuids : nat -> string)
    (uj : generate_request -> reply JSON.value)
    (us : generate_request -> reply (list stream_event))
    (conversation : ConversationRow) (prompt model : string)
    (more : list sse_event) (finished : bool) : world :=
  {| db := {| conversations := conversations d;
              prompts := (prompts d
                            ++ [streaming_row d t conversation prompt model
                                  EmptyString])%list;
              sentiments := sentiments d; seed := seed d |};
     now := t; uuidv4 := uuids; ollama_json := uj; ollama_stream := us;
     calls := [stream_request prompt model];
     res := {| statusCode := 200; headers := stream_headers; sent := None;
               written := EvStart (c_id conversation) (Prompt.fresh_id d)
                            (JS.trim prompt) :: more;
               ended := finished |};
     forwarded := None; subscribed := None; uncaught := [] |}.

(** Texts and chunks that the model reads as the code does.  Every [\u]
    of the text is followed by [00], so that no escape denotes a code
    unit above 255, which the scanner would refuse where [JSON.parse]
    accepts it. *)
Fixpoint escapes_in_alphabet (s : string) : bool :=
  match s with
  | EmptyString => true
  | String _ r =>
      (negb (JS.startsWith s "\u") || JS.startsWith s "\u00")
      && escapes_in_alphabet r
  end.

Definition no_number (v : option JSON.value) : bool :=
  match v with
  | Some (JSON.Num _) => false
  | _ => true
  end.

(** A chunk whose escapes lie in the alphabet and whose [response] and
    [done], when it parses, are no numbers: a number is read as the exact
    rational of its literal, so that one which underflows to zero would
    be truthy here and falsy in the code. *)
Definition plain_chunk (chunk : string) : bool :=
  escapes_in_alphabet chunk
  && match chunk_fields chunk with
     | Some (r, dn) => no_number r && no_number dn
     | None => true
     end.

(** A score that is the clamp of the raw score [raw]: within [0,10],
    0 when [raw] is below 0 and 10 when it is above 10. *)
Definition clamp_of (raw sc : Q) : Prop :=
  (0 <= sc)%Q /\ (sc <= 10)%Q
  /\ ((raw < 0)%Q -> sc = 0%Q) /\ ((10 < raw)%Q -> sc = 10%Q).

(** The chunks of a stream up to its first error. *)
Fixpoint data_chunks (events : list stream_event) : list string :=
  match events with
  | Data chunk :: rest => chunk :: data_chunks rest
  | _ => []
  end.

(** The prompts table with, at most, the response of [p] rewritten. *)
Definition rewritten (p : PromptRow) (before after : list PromptRow) : Prop :=
  after = before
  \/ exists r, after = map (fun x => if Nat.eqb (p_id x) (p_id p)
                                      then Prompt.with_response r x else x)
                         before.

(** What the listeners of a stream leave alone. *)
Definition untouched (w w1 : world) : Prop :=
  calls w1 = calls w
  /\ conversations (db w1) = conversations (db w)
  /\ sentiments (db w1) = sentiments (db w)
  /\ sent (res w1) = sent (res w)
  /\ statusCode (res w1) = statusCode (res w)
  /\ forwarded w1 = forwarded w.

(** *** More worlds and requests for the examples *)

(** A stream that signals completion and then delivers one more chunk. *)
Definition events_late : list stream_event :=
  [Data chunk_Hi; Data chunk_done; Data chunk_there].


(** The models an upstream lists. *)
Definition tags_models : list JSON.value :=
  [ JSON.Obj [("name", JSON.Str "phi3"); ("size", JSON.Num 3)];
    JSON.Obj [("name", JSON.Str "llama3"); ("size", JSON.Num 5);
              ("family", JSON.Str "llama")];
    JSON.Obj [("name", JSON.Str "llama3"); ("size", JSON.Num 7)] ].

Definition tags_data : JSON.value :=
  JSON.Obj [("models", JSON.Arr tags_models)].

(** ** The batch scripts *)

(** How a [fetch] of the [/generate] endpoint settles: rejected, or
    resolved with a response whose [ok] flag is given and whose body is
    JSON ([Some]) or not, in which case [response.json()] rejects. *)
Inductive fetched : Type :=
| Unreachable (e : string)
| Answered (ok : bool) (json : option JSON.value).

(** [String.prototype.toLowerCase] on code units below 256: the letters
    A-Z and the capital letters of Latin-1, which lie 32 below their
    small forms. *)
Definition lower (c : ascii) : ascii :=
  let n := nat_of_ascii c in
  if ((65 <=? n) && (n <=? 90)
      || (192 <=? n) && (n <=? 222) && negb (n =? 215))%nat
  then ascii_of_nat (n + 32)
  else c.

Fixpoint toLowerCase (s : string) : string :=
  match s with
  | EmptyString => EmptyString
  | String c s' => String (lower c) (toLowerCase s')
  end.

(** [a === b] on values that are strings or [undefined]. *)
Definition strict_eq (a b : option string) : bool :=
  match a, b with
  | None, None => true
  | Some x, Some y => String.eqb x y
  | _, _ => false
  end.

(** *** The reviews ([exercici2.js]) *)

Module Exercici2.

(** The rows [csv-parser] hands out: objects whose properties are strings,
    a column the row lacks being [undefined]. *)
Record Game : Type := { g_appid : option string; g_name : option string }.

Record Review : Type := {
  r_id : option string;
  r_app_id : option string;
  r_content : option string
}.

(** A CSV file: absent, unreadable, or read as rows. *)
Inductive csv (A : Type) : Type :=
| Missing
| Unreadable (e : string)
| Rows (rows : list A).

Arguments Missing {A}.
Arguments Unreadable {A} e.
Arguments Rows {A} rows.

Record statistics : Type := {
  positive : nat;
  negative : nat;
  neutral : nat;
  error : nat
}.

Record game_result : Type := {
  gr_appid : option string;
  gr_name : option string;
  gr_statistics : statistics
}.

Record results : Type := { timestamp : string; games : list game_result }.

Record environment : Type := {
  DATA_PATH : option string;
  CHAT_API_OLLAMA_URL : option string;
  CHAT_API_OLLAMA_MODEL_TEXT : option string
}.

(** Lines 57-62: the word the answer is reduced to. *)
Definition label (response : string) : string :=
  let sentiment := toLowerCase (JS.trim response) in
  if JS.occurs "positive" sentiment then "positive"
  else if JS.occurs "negative" sentiment then "negative"
  else if JS.occurs "neutral" sentiment then "neutral"
  else sentiment.

(** [analyzeSentiment(text)], given what the [fetch] settles with.  A
    truthy [data.response] that is no string has no [trim]; every
    exception ends in ['error']. *)
Definition analyzeSentiment (reply : fetched) : string :=
  match reply with
  | Answered true (Some data) =>
      if JSON.truthy (Some data) then
        match member data "response" with
        | Some (Some (JSON.Str r)) =>
            if JS.is_empty r then "error" else label r
        | _ => "error"
        end
      else "error"
  | _ => "error"
  end.

(** Lines 145-153 *)
Definition tally (st : statistics) (sentiment : string) : statistics :=
  if String.eqb sentiment "positive" then
    {| positive := S (positive st); negative := negative st;
       neutral := neutral st; error := error st |}
  else if String.eqb sentiment "negative" then
    {| positive := positive st; negative := S (negative st);
       neutral := neutral st; error := error st |}
  else if String.eqb sentiment "neutral" then
    {| positive := positive st; negative := negative st;
       neutral := S (neutral st); error := error st |}
  else
    {| positive := positive st; negative := negative st;
       neutral := neutral st; error := S (error st) |}.

Definition no_statistics : statistics :=
  {| positive := 0; negative := 0; neutral := 0; error := 0 |}.

Section script.

(** The upstream: what the [n]-th [fetch] of the run, for that text,
    settles with. *)
Variable ollama : nat -> string -> fetched.

(** The loop of lines 137-156, from the [n]-th [fetch] on.
    [review.content.substring] throws on a review without content, which
    ends the run ([None]). *)
Fixpoint analyse (n : nat) (reviewsToAnalyze : list Review) (st : statistics)
  : option (statistics * nat) :=
  match reviewsToAnalyze with
  | [] => Some (st, n)
  | review :: rest =>
      match r_content review with
      | None => None
      | Some text =>
          analyse (S n) rest (tally st (analyzeSentiment (ollama n text)))
      end
  end.

(** Lines 119-127 *)
Definition reviewsToAnalyze (reviews : list Review) (game : Game)
  : list Review :=
  firstn 2 (filter (fun r => strict_eq (r_app_id r) (g_appid game)) reviews).

(** The loop of lines 115-167 *)
Fixpoint process (n : nat) (reviews : list Review) (gs : list Game)
  : option (list game_result) :=
  match gs with
  | [] => Some []
  | game :: rest =>
      match analyse n (reviewsToAnalyze reviews game) no_statistics with
      | None => None
      | Some (st, n') =>
          match process n' reviews rest with
          | None => None
          | Some out =>
              Some ({| gr_appid := g_appid game; gr_name := g_name game;
                       gr_statistics := st |} :: out)
          end
      end
  end.

(** [main]: what is written to [exercici2_resposta.json], or [None] when
    an exception reaches the [catch] and nothing is written.  [now] is
    the time of the run in ISO form; writing the file is taken to
    succeed. *)
Definition main (env : environment) (games_csv : csv Game)
    (reviews_csv : csv Review) (now : string) : option results :=
  if given (DATA_PATH env) && given (CHAT_API_OLLAMA_URL env)
     && given (CHAT_API_OLLAMA_MODEL_TEXT env)
  then
    match games_csv, reviews_csv with
    | Missing, _ | _, Missing => None
    | Unreadable _, _ | _, Unreadable _ => None
    | Rows games_rows, Rows reviews =>
        match process 0 reviews (firstn 2 games_rows) with
        | Some out => Some {| timestamp := now; games := out |}
        | None => None
        end
    end
  else None.

End script.

(** The reviews counted for a game, and the sum of its counters. *)
Definition analysed (reviews : list Review) (game : Game) : nat :=
  Nat.min 2
    (List.length
       (filter (fun r => strict_eq (r_app_id r) (g_appid game)) reviews)).

Definition total (st : statistics) : nat :=
  (positive st + negative st + neutral st + error st)%nat.

(** Examples *)
Definition env_set : environment :=
  {| DATA_PATH := Some "../data"; CHAT_API_OLLAMA_URL := Some "http://o/api";
     CHAT_API_OLLAMA_MODEL_TEXT := Some "m" |}.

Definition games_ex : list Game :=
  [ {| g_appid := Some "10"; g_name := Some "A" |};
    {| g_appid := Some "20"; g_name := Some "B" |};
    {| g_appid := Some "30"; g_name := Some "C" |} ].

Definition review_ex (app text : string) : Review :=
  {| r_id := Some "1"; r_app_id := Some app; r_content := Some text |}.

Definition reviews_ex : list Review :=
  [ review_ex "10" "great"; review_ex "20" "meh"; review_ex "10" "bad";
    review_ex "10" "fine"; review_ex "30" "ok" ].

(** An upstream that answers every review with a sentence. *)
Definition verbose : nat -> string -> fetched :=
  fun n _ =>
    Answered true
      (Some (JSON.Obj
               [("response",
                 JSON.Str (match n with
                           | O => " Positive."
                           | 1%nat => "NEGATIVE, not positive"
                           | _ => "mixed"
                           end))])).

Definition offline : nat -> string -> fetched :=
  fun _ _ => Unreachable "ECONNREFUSED".

(** What the run of the examples writes, with either upstream. *)
Definition results_ex : results :=
  {| timestamp := "2025-01-01T00:00:00.000Z";
     games :=
       [ {| gr_appid := Some "10"; gr_name := Some "A";
            gr_statistics := {| positive := 2; negative := 0; neutral := 0;
                                error := 0 |} |};
         {| gr_appid := Some "20"; gr_name := Some "B";
            gr_statistics := {| positive := 0; negative := 0; neutral := 0;
                                error := 1 |} |} ] |}.

Definition results_offline : results :=
  {| timestamp := "2025-01-01T00:00:00.000Z";
     games :=
       [ {| gr_appid := Some "10"; gr_name := Some "A";
            gr_statistics := {| positive := 0; negative := 0; neutral := 0;
                                error := 2 |} |};
         {| gr_appid := Some "20"; gr_name := Some "B";
            gr_statistics := {| positive := 0; negative := 0; neutral := 0;
                                error := 1 |} |} ] |}.

End Exercici2.

(** *** The images ([exercici3.js]) *)

Module Exercici3.

(** The file system as the script reads it, by path: whether [fs.access]
    succeeds, [fs.stat] and whether the path is a directory, the names
    [fs.readdir] lists, and the content [fs.readFile] reads, in base 64;
    [None] where the call rejects. *)
Record filesystem : Type := {
  access : string -> bool;
  stat : string -> option bool;
  readdir : string -> option (list string);
  readFile : string -> option string
}.

Record environment : Type := {
  DATA_PATH : option string;
  CHAT_API_OLLAMA_URL : option string;
  CHAT_API_OLLAMA_MODEL_VISION : option string
}.

(** The [analisi] of an entry: the parsed answer, the answer that could
    not be parsed, or the note that there was none. *)
Inductive analisi : Type :=
| Parsed (v : JSON.value)
| Unparsed (resposta_original : JSON.value)
| NoResponse.

Record entry : Type := { nom_fitxer : string; e_analisi : analisi }.

Definition IMAGE_TYPES : list string := [".jpg"; ".jpeg"; ".png"; ".gif"].

(** [IMAGE_TYPES.includes(ext)] *)
Definition includes (l : list string) (x : string) : bool :=
  existsb (String.eqb x) l.

(** [imageToBase64(imagePath)]: the content in base 64, [null] when the
    file cannot be read. *)
Definition imageToBase64 (fs : filesystem) (imagePath : string)
  : option string :=
  readFile fs imagePath.

(** [queryOllama(base64Image, prompt)], given what the [fetch] settles
    with: [data.response] when it is truthy, [null] otherwise. *)
Definition queryOllama (reply : fetched) : option JSON.value :=
  match reply with
  | Answered true (Some data) =>
      if JSON.truthy (Some data) then
        match member data "response" with
        | Some (Some r) => if JSON.truthy (Some r) then Some r else None
        | _ => None
        end
      else None
  | _ => None
  end.

(** Lines 185-234: the entry made of the answer.  An answer that is no
    string has no [trim], which the inner [catch] treats like an answer
    that does not parse. *)
Definition analysis_of (response : option JSON.value) : analisi :=
  match response with
  | None => NoResponse
  | Some (JSON.Str s) =>
      match JSON.parse (strip_fences s) with
      | Some v => Parsed v
      | None => Unparsed (JSON.Str s)
      end
  | Some r => Unparsed r
  end.

Section script.

(** [path.join] on two parts and [path.extname], of Node's [path]. *)
Variable path_join : string -> string -> string.
Variable path_extname : string -> string.

(** The upstream: what the [n]-th [fetch] of the run, for that image,
    settles with. *)
Variable ollama : nat -> string -> fetched.

Variable fs : filesystem.

(** Whether a file of the directory is taken for an image (lines
    124-132), and whether it yields a non-empty base 64 text (lines
    135-138). *)
Definition is_image (animalDirPath imageFile : string) : bool :=
  includes IMAGE_TYPES
    (toLowerCase (path_extname (path_join animalDirPath imageFile))).

Definition readable (animalDirPath imageFile : string) : bool :=
  given (imageToBase64 fs (path_join animalDirPath imageFile)).

(** The loop of lines 122-238, from the [n]-th [fetch] on. *)
Fixpoint images (animalDirPath : string) (n : nat) (imageFiles : list string)
  : list entry * nat :=
  match imageFiles with
  | [] => ([], n)
  | imageFile :: rest =>
      let imagePath := path_join animalDirPath imageFile in
      let ext := toLowerCase (path_extname imagePath) in
      if negb (includes IMAGE_TYPES ext) then images animalDirPath n rest
      else
        match imageToBase64 fs imagePath with
        | Some base64String =>
            if JS.is_empty base64String then images animalDirPath n rest
            else
              let response := queryOllama (ollama n base64String) in
              let (more, n') := images animalDirPath (S n) rest in
              ({| nom_fitxer := imageFile;
                  e_analisi := analysis_of response |} :: more, n')
        | None => images animalDirPath n rest
        end
  end.

(** The loop of lines 99-241: elements that are no directories are
    passed over, and the loop is left after the first directory. *)
Fixpoint directories (imagesFolderPath : string)
    (animalDirectories : list string) : option (list entry) :=
  match animalDirectories with
  | [] => Some []
  | animalDir :: rest =>
      let animalDirPath := path_join imagesFolderPath animalDir in
      match stat fs animalDirPath with
      | Some true =>
          match readdir fs animalDirPath with
          | Some imageFiles => Some (fst (images animalDirPath 0 imageFiles))
          | None => None
          end
      | _ => directories imagesFolderPath rest
      end
  end.

(** [main]: the [analisis] written to [exercici3_resposta.json], or
    [None] when an exception reaches the outer [catch] and nothing is
    written.  [imagesFolderPath] is what the three parts of line 86 join
    to; writing the file is taken to succeed. *)
Definition main (env : environment) (imagesFolderPath : string)
  : option (list entry) :=
  if given (DATA_PATH env) && given (CHAT_API_OLLAMA_URL env)
     && given (CHAT_API_OLLAMA_MODEL_VISION env)
  then
    if access fs imagesFolderPath then
      match readdir fs imagesFolderPath with
      | Some animalDirectories =>
          directories imagesFolderPath animalDirectories
      | None => None
      end
    else None
  else None.

End script.

(** Instances for the examples only: paths joined with a slash, and the
    extension taken from the last dot of the path, which is what
    [path.extname] gives on the paths of the examples (a dot after the
    first character of the file name, none in the directories). *)
Definition join_slash (a b : string) : string := a ++ "/" ++ b.

Fixpoint last_dot (s : string) : option string :=
  match s with
  | EmptyString => None
  | String c r =>
      match last_dot r with
      | Some e => Some e
      | None => if Ascii.eqb c "."%char then Some s else None
      end
  end.

Definition ext_of (p : string) : string :=
  match last_dot p with Some e => e | None => EmptyString end.

Definition env_set : environment :=
  {| DATA_PATH := Some "../data"; CHAT_API_OLLAMA_URL := Some "http://o/api";
     CHAT_API_OLLAMA_MODEL_VISION := Some "v" |}.

(** A folder with a stray file and two directories. *)
Definition fs_ex : filesystem :=
  {| access := fun p => String.eqb p "img";
     stat := fun p =>
       if String.eqb p "img/README" then Some false
       else if String.eqb p "img/cat" then Some true
       else if String.eqb p "img/dog" then Some true
       else None;
     readdir := fun p =>
       if String.eqb p "img" then Some ["README"; "cat"; "dog"]
       else if String.eqb p "img/cat"
       then Some ["a.JPG"; "notes.txt"; "empty.png"; "b.png"]
       else if String.eqb p "img/dog" then Some ["c.gif"]
       else None;
     readFile := fun p =>
       if String.eqb p "img/cat/a.JPG" then Some "QUJD"
       else if String.eqb p "img/cat/empty.png" then Some EmptyString
       else if String.eqb p "img/cat/b.png" then Some "REVG"
       else if String.eqb p "img/dog/c.gif" then Some "R0hJ"
       else None |}.

Definition describes : nat -> string -> fetched :=
  fun n _ =>
    match n with
    | O => Answered true
             (Some (JSON.Obj
                      [("response",
                        JSON.Str (JS.json_text "{'nom_comu':'gat'}"))]))
    | _ => Unreachable "ECONNRESET"
    end.

End Exercici3.

(** * Properties *)

(** ** Strings and JSON texts *)

Example trim_both_ends : JS.trim (" a b " ++ LF) = "a b".
Proof. reflexivity. Qed.

Example replace_every_fence :
  JS.replace_all_ws fence ("```" ++ LF ++ "x``` y```") = "xy".
Proof. reflexivity. Qed.

Example parse_answer :
  JSON.parse answer_7
  = Some (JSON.Obj [("score", JSON.Num 7); ("sentiment", JSON.Str "positiu")]).
Proof. reflexivity. Qed.

Example parse_nested :
  JSON.parse (JS.json_text " [1, -2.5e1, {'a': [true, null]}, 'x\ny'] ")
  = Some (JSON.Arr [JSON.Num 1; JSON.Num (-25);
                    JSON.Obj [("a", JSON.Arr [JSON.Bool true; JSON.Null])];
                    JSON.Str ("x" ++ LF ++ "y")]).
Proof. reflexivity. Qed.

Example parse_refuses :
  map JSON.parse
    [EmptyString; "[1,]"; JS.json_text "{'a':1,}"; "01"; "1."; "tru";
     JS.json_text "{'a' 1}"; "1 2"; JS.json_text "'open"]
  = [None; None; None; None; None; None; None; None; None].
Proof. reflexivity. Qed.

Example last_member_wins :
  option_map (fun v => member v "score")
    (JSON.parse (JS.json_text "{'score':1,'score':2}"))
  = Some (Some (Some (JSON.Num 2))).
Proof. reflexivity. Qed.

(** A case analysis over the 256 code units. *)
Ltac each_code_unit c :=
  let b0 := fresh "b" in let b1 := fresh "b" in let b2 := fresh "b" in
  let b3 := fresh "b" in let b4 := fresh "b" in let b5 := fresh "b" in
  let b6 := fresh "b" in let b7 := fresh "b" in
  destruct c as [b0 b1 b2 b3 b4 b5 b6 b7];
  destruct b0, b1, b2, b3, b4, b5, b6, b7.

Lemma ws_idle (ts : list JSON.token) (c : ascii) :
  JS.is_ws c = true ->
  JSON.idle_step ts c = Some (ts, JSON.MIdle) \/ JSON.idle_step ts c = None.
Proof.
  intro H. each_code_unit c; try discriminate H; cbv; auto.
Qed.

Lemma scan_app (s1 s2 : string) (st : option JSON.scanner) :
  JSON.scan st (s1 ++ s2) = JSON.scan (JSON.scan st s1) s2.
Proof.
  revert st. induction s1 as [|c s1 IH]; intro st; simpl.
  - reflexivity.
  - destruct st as [x|].
    + apply IH.
    + clear IH. induction s2; simpl; auto. 
Qed.

Lemma scan_none (s : string) : JSON.scan None s = None.
Proof. destruct s; reflexivity. Qed.

Lemma ws_step_finish (c : ascii) (st : option JSON.scanner) (ts : list JSON.token) :
  JS.is_ws c = true ->
  JSON.scan_finish (JSON.scan st (String c EmptyString)) = Some ts ->
  JSON.scan_finish st = Some ts.
Proof.
  intros H. destruct st as [[ts0 m]|]; simpl; [|discriminate].
  each_code_unit c; try discriminate H; clear H;
  destruct m as [|a|a|a|a h]; simpl; try discriminate; auto;
  try (destruct (JSON.atom_token a); simpl; try discriminate; auto).
Qed.

Lemma ws_tail_finish (w : string) (st : option JSON.scanner) (ts : list JSON.token) :
  JS.all_ws w = true ->
  JSON.scan_finish (JSON.scan st w) = Some ts ->
  JSON.scan_finish st = Some ts.
Proof.
  revert st. induction w as [|c w IH]; intros st Hw H; simpl in *.
  - exact H.
  - apply andb_true_iff in Hw as [Hc Hw].
    apply (ws_step_finish c); [exact Hc|].
    simpl. destruct st as [x|].
    + apply IH; assumption.
    + discriminate H.
Qed.

Lemma trimEnd_split (s : string) :
  exists w, s = JS.trimEnd s ++ w /\ JS.all_ws w = true.
Proof.
  induction s as [|c s [w [E W]]]; simpl.
  - exists EmptyString. auto.
  - destruct (JS.is_ws c) eqn:Hc; simpl.
    + destruct (JS.trimEnd s) eqn:Hr; simpl in *.
      * exists (String c w). subst s. simpl. rewrite Hc. auto.
      * exists w. split; [congruence | exact W].
    + exists w. split; [congruence | exact W].
Qed.

Lemma tokens_trimStart (s : string) (ts : list JSON.token) :
  JSON.tokens s = Some ts -> JSON.tokens (JS.trimStart s) = Some ts.
Proof.
  induction s as [|c s IH]; simpl; intro H.
  - exact H.
  - destruct (JS.is_ws c) eqn:Hc; [|exact H].
    apply IH. unfold JSON.tokens in *. simpl in H.
    destruct (ws_idle [] c Hc) as [E|E]; rewrite E in H.
    + exact H.
    + rewrite scan_none in H. discriminate.
Qed.

Lemma tokens_trimEnd (s : string) (ts : list JSON.token) :
  JSON.tokens s = Some ts -> JSON.tokens (JS.trimEnd s) = Some ts.
Proof.
  intro H. destruct (trimEnd_split s) as [w [E W]].
  unfold JSON.tokens in *. rewrite E, scan_app in H.
  exact (ws_tail_finish w _ ts W H).
Qed.

Lemma json_ws_is_ws (c : ascii) :
  JSON.is_json_ws c = true -> JS.is_ws c = true.
Proof. intro H. each_code_unit c; try discriminate H; reflexivity. Qed.

Lemma json_ws_not_tick (c : ascii) :
  JSON.is_json_ws c = true ->
  Ascii.eqb c "`" = false /\ Ascii.eqb c "j" = false.
Proof. intro H. each_code_unit c; try discriminate H; auto. Qed.

Lemma json_ws_step (c : ascii) (st : option JSON.scanner) :
  JSON.is_json_ws c = true ->
  JSON.scan_finish (JSON.scan st (String c EmptyString)) = JSON.scan_finish st.
Proof.
  intro H. destruct st as [[ts m]|]; [|reflexivity].
  each_code_unit c; try discriminate H; clear H;
    destruct m as [|a|a|a|a h]; simpl; try reflexivity;
    destruct (JSON.atom_token a); reflexivity.
Qed.

Lemma tokens_ws_tail (w s : string) :
  JSON.all_json_ws w = true -> JSON.tokens (s ++ w) = JSON.tokens s.
Proof.
  unfold JSON.tokens. rewrite scan_app.
  generalize (JSON.scan (Some ([], JSON.MIdle)) s). clear s.
  induction w as [|c w IH]; intros st H; simpl in *; [reflexivity|].
  apply andb_true_iff in H as [Hc Hw].
  destruct st as [x|].
  - rewrite (IH _ Hw). apply (json_ws_step c (Some x) Hc).
  - reflexivity.
Qed.

Lemma parse_trim (t : string) (v : JSON.value) :
  JSON.parse t = Some v -> JSON.parse (JS.trim t) = Some v.
Proof.
  unfold JSON.parse. destruct (JSON.tokens t) as [ts|] eqn:E; [|discriminate].
  intro H. unfold JS.trim.
  rewrite (tokens_trimEnd _ ts (tokens_trimStart _ ts E)). exact H.
Qed.

Lemma parse_trimStart_tail (t w : string) (v : JSON.value) :
  JSON.all_json_ws w = true ->
  JSON.parse t = Some v -> JSON.parse (JS.trimStart t ++ w) = Some v.
Proof.
  intro W. unfold JSON.parse.
  destruct (JSON.tokens t) as [ts|] eqn:E; [|discriminate].
  intro H. rewrite (tokens_ws_tail _ _ W), (tokens_trimStart _ ts E). exact H.
Qed.

Lemma trimStart_head (s : string) (c : ascii) (r : string) :
  JS.trimStart s = String c r -> JS.is_ws c = false.
Proof.
  induction s as [|x s IH]; simpl; [discriminate|].
  destruct (JS.is_ws x) eqn:Hx; [exact IH|].
  intro E. injection E as -> _. exact Hx.
Qed.

Lemma parse_nonblank (t : string) (v : JSON.value) :
  JSON.parse t = Some v -> JS.trimStart t <> EmptyString.
Proof.
  intros H E. apply (parse_trimStart_tail t EmptyString v eq_refl) in H.
  rewrite E in H. vm_compute in H. discriminate H.
Qed.

Lemma startsWith_app (s x lit : string) :
  JS.startsWith s lit = true -> JS.startsWith (s ++ x) lit = true.
Proof.
  revert s. induction lit as [|p lit IH]; intros s; simpl; [auto|].
  destruct s as [|c s]; simpl; [intro; discriminate|].
  intro H. apply andb_true_iff in H as [H1 H2]. rewrite H1. simpl. auto.
Qed.

Lemma startsWith_prefix (s a b : string) :
  JS.startsWith s (a ++ b) = true -> JS.startsWith s a = true.
Proof.
  revert s. induction a as [|p a IH]; intros s; simpl; [auto|].
  destruct s as [|c s]; [intro; discriminate|].
  intro H. apply andb_true_iff in H as [H1 H2]. rewrite H1. simpl. auto.
Qed.

Lemma startsWith_trimEnd (s lit : string) :
  JS.startsWith (JS.trimEnd s) lit = true -> JS.startsWith s lit = true.
Proof.
  destruct (trimEnd_split s) as [w [E _]]. intro H.
  rewrite E. apply startsWith_app. exact H.
Qed.

Lemma occurs_head (lit s : string) :
  JS.occurs lit s = false -> JS.startsWith s lit = false.
Proof.
  destruct s; simpl; intro H; apply orb_false_iff in H; tauto.
Qed.

Lemma occurs_trimStart (lit s : string) :
  JS.occurs lit s = false -> JS.occurs lit (JS.trimStart s) = false.
Proof.
  induction s as [|c s IH]; simpl; [auto|].
  intro H. destruct (JS.is_ws c); [|exact H].
  apply orb_false_iff in H as [_ H]. auto.
Qed.

Lemma tick_boundary (u x : string) (c : ascii) :
  Ascii.eqb c "`" = false ->
  JS.startsWith (u ++ String c x) fence = JS.startsWith u fence.
Proof.
  intro H. destruct u as [|a [|b [|d u]]]; simpl; rewrite ?H;
    rewrite ?andb_false_r; reflexivity.
Qed.

(** A scan for a fence, labelled or not, runs through a text that holds
    no fence up to the white space behind it. *)
Lemma scan_through (suffix u x : string) (c : ascii) :
  Ascii.eqb c "`" = false ->
  JS.occurs fence u = false ->
  JS.replace_scan (fence ++ suffix) 0 false (u ++ String c x)
  = u ++ JS.replace_scan (fence ++ suffix) 0 false (String c x).
Proof.
  intros Hc. induction u as [|a u IH]; intro H; [reflexivity|].
  pose proof (occurs_head _ _ H) as Hh.
  simpl in H. apply orb_false_iff in H as [_ H].
  change ((String a u) ++ String c x) with (String a (u ++ String c x)).
  cbn [JS.replace_scan andb].
  destruct (JS.startsWith (String a (u ++ String c x)) (fence ++ suffix))
    eqn:E.
  - apply startsWith_prefix in E.
    change (String a (u ++ String c x)) with ((String a u) ++ String c x) in E.
    rewrite (tick_boundary _ _ _ Hc) in E. congruence.
  - rewrite (IH H). reflexivity.
Qed.

Lemma scan_tail_json (w : string) :
  JSON.all_json_ws w = true ->
  JS.replace_scan fence_json 0 false (w ++ fence) = w ++ fence.
Proof.
  induction w as [|c w IH]; intro H; [reflexivity|].
  simpl in H. apply andb_true_iff in H as [Hc Hw].
  destruct (json_ws_not_tick c Hc) as [T _].
  simpl. rewrite T. simpl. rewrite (IH Hw). reflexivity.
Qed.

Lemma scan_tail_fence (w : string) :
  JSON.all_json_ws w = true ->
  JS.replace_scan fence 0 false (w ++ fence) = w.
Proof.
  induction w as [|c w IH]; intro H; [reflexivity|].
  simpl in H. apply andb_true_iff in H as [Hc Hw].
  destruct (json_ws_not_tick c Hc) as [T _].
  simpl. rewrite T. simpl. rewrite (IH Hw). reflexivity.
Qed.

Lemma all_json_ws_trimStart (w : string) :
  JSON.all_json_ws w = true -> JS.trimStart w = EmptyString.
Proof.
  induction w as [|c w IH]; simpl; [reflexivity|].
  intro H. apply andb_true_iff in H as [Hc Hw].
  rewrite (json_ws_is_ws c Hc). auto.
Qed.

Lemma scan_ws_run (lit t x : string) :
  JS.replace_scan lit 0 true (t ++ x)
  = JS.replace_scan lit 0 true (JS.trimStart t ++ x).
Proof.
  induction t as [|c t IH]; simpl; [reflexivity|].
  destruct (JS.is_ws c) eqn:Hc; simpl.
  - exact IH.
  - rewrite Hc. reflexivity.
Qed.

Lemma scan_sp_irrelevant (lit : string) (c : ascii) (r : string) :
  JS.is_ws c = false ->
  JS.replace_scan lit 0 true (String c r) = JS.replace_scan lit 0 false (String c r).
Proof. intro H. simpl. rewrite H. reflexivity. Qed.

Lemma settled_app (a b : string) : settled b -> settled (a ++ b).
Proof.
  intros [E N]. induction a as [|c a [IH1 IH2]].
  - split; assumption.
  - split; [|discriminate].
    change (String c a ++ b) with (String c (a ++ b)).
    change (JS.trimEnd (String c (a ++ b)))
      with (if JS.is_ws c && JS.is_empty (JS.trimEnd (a ++ b))
            then EmptyString else String c (JS.trimEnd (a ++ b))).
    rewrite IH1. destruct (a ++ b); [contradiction|].
    simpl. rewrite andb_false_r. reflexivity.
Qed.

Lemma trim_fenced (label w1 t w2 : string) :
  JS.trim (fenced label w1 t w2) = fenced label w1 t w2.
Proof.
  unfold JS.trim, fenced.
  change (JS.trimStart (fence ++ label ++ w1 ++ t ++ w2 ++ fence))
    with (fence ++ label ++ w1 ++ t ++ w2 ++ fence).
  apply settled_app, settled_app, settled_app, settled_app, settled_app.
  split; [reflexivity | discriminate].
Qed.

Lemma strip_fences_plain (t : string) :
  JS.occurs fence t = false -> strip_fences t = JS.trim t.
Proof.
  intro H. unfold strip_fences.
  assert (F : JS.startsWith (JS.trim t) fence = false).
  { destruct (JS.startsWith (JS.trim t) fence) eqn:E; [|reflexivity].
    apply startsWith_trimEnd in E.
    rewrite (occurs_head _ _ (occurs_trimStart _ _ H)) in E. discriminate. }
  destruct (JS.startsWith (JS.trim t) fence_json) eqn:E.
  - apply (startsWith_prefix _ fence "json") in E. congruence.
  - rewrite F. reflexivity.
Qed.

Lemma separator_head (w : string) :
  separator w = true ->
  exists c w', w = String c w' /\ JSON.is_json_ws c = true
               /\ JSON.all_json_ws w = true.
Proof.
  unfold separator. destruct w as [|c w']; [discriminate|].
  cbn [JS.is_empty negb andb]. intro H. exists c, w'.
  split; [reflexivity|]. split; [|exact H].
  simpl in H. apply andb_true_iff in H. tauto.
Qed.

(** What is left of a fenced text once the fences are taken off. *)
Lemma strip_fences_fenced (label w1 t w2 : string) (c : ascii) (r : string) :
  label = "json" \/ label = EmptyString ->
  separator w1 = true -> separator w2 = true ->
  JS.occurs fence t = false ->
  JS.trimStart t = String c r ->
  strip_fences (fenced label w1 t w2) = JS.trimStart t ++ w2.
Proof.
  intros L S1 S2 H T. unfold strip_fences. rewrite trim_fenced.
  pose proof (occurs_trimStart _ _ H) as H'.
  pose proof (trimStart_head _ _ _ T) as Hc.
  destruct (separator_head _ S1) as (c1 & w1' & E1 & J1 & A1).
  destruct (separator_head _ S2) as (c2 & w2' & E2 & J2 & A2).
  destruct (json_ws_not_tick c2 J2) as [T2 _].
  assert (Run : forall suffix,
             JS.replace_scan (fence ++ suffix) 0 true (w1 ++ t ++ w2 ++ fence)
             = JS.trimStart t
                 ++ JS.replace_scan (fence ++ suffix) 0 false (w2 ++ fence)).
  { intro suffix.
    rewrite scan_ws_run, (all_json_ws_trimStart _ A1).
    change (EmptyString ++ t ++ w2 ++ fence) with (t ++ w2 ++ fence).
    rewrite scan_ws_run, T.
    change ((String c r) ++ w2 ++ fence) with (String c (r ++ w2 ++ fence)).
    rewrite scan_sp_irrelevant by exact Hc.
    change (String c (r ++ w2 ++ fence)) with ((String c r) ++ w2 ++ fence).
    rewrite <- T, E2.
    change ((String c2 w2') ++ fence) with (String c2 (w2' ++ fence)).
    apply (scan_through suffix _ _ _ T2 H'). }
  assert (Second : JS.replace_scan fence 0 false
                     (JS.trimStart t ++ w2 ++ fence)
                   = JS.trimStart t ++ w2).
  { rewrite E2.
    change ((String c2 w2') ++ fence) with (String c2 (w2' ++ fence)).
    pose proof (scan_through EmptyString _ (w2' ++ fence) _ T2 H') as Q.
    change (fence ++ EmptyString) with fence in Q. rewrite Q.
    change (String c2 (w2' ++ fence)) with ((String c2 w2') ++ fence).
    rewrite <- E2, (scan_tail_fence _ A2). reflexivity. }
  destruct L as [-> | ->].
  - change (JS.startsWith (fenced "json" w1 t w2) fence_json) with true.
    cbv iota.
    change (JS.replace_all_ws fence_json (fenced "json" w1 t w2))
      with (JS.replace_scan fence_json 0 true (w1 ++ t ++ w2 ++ fence)).
    pose proof (Run "json") as R0.
    change (fence ++ "json") with fence_json in R0.
    rewrite R0, (scan_tail_json _ A2). exact Second.
  - assert (N : JS.startsWith (fenced EmptyString w1 t w2) fence_json = false).
    { rewrite E1. destruct (json_ws_not_tick c1 J1) as [_ Nj].
      cbn. rewrite Nj. reflexivity. }
    rewrite N.
    change (JS.startsWith (fenced EmptyString w1 t w2) fence) with true.
    cbv iota.
    change (JS.replace_all_ws fence (fenced EmptyString w1 t w2))
      with (JS.replace_scan fence 0 true (w1 ++ t ++ w2 ++ fence)).
    pose proof (Run EmptyString) as R0.
    change (fence ++ EmptyString) with fence in R0.
    rewrite R0, (scan_tail_fence _ A2). reflexivity.
Qed.

(** C6 (amended): for every JSON text that parses and holds no run of
    three backticks, the sentiment parser gives the same result on the
    text between code fences, labelled json or not and set apart from the
    text by line breaks or other JSON white space, as on the bare text. *)
Theorem fenced_parses_alike (t w1 w2 : string) (v : JSON.value) :
  JSON.parse t = Some v ->
  JS.occurs fence t = false ->
  separator w1 = true ->
  separator w2 = true ->
  parse_analysis (fenced "json" w1 t w2) = parse_analysis t /\
  parse_analysis (fenced EmptyString w1 t w2) = parse_analysis t.
Proof.
  intros P H S1 S2.
  destruct (JS.trimStart t) as [|c r] eqn:T.
  { elim (parse_nonblank _ _ P T). }
  destruct (separator_head _ S2) as (_ & _ & _ & _ & A2).
  unfold parse_analysis.
  rewrite (strip_fences_fenced "json" w1 t w2 c r),
    (strip_fences_fenced EmptyString w1 t w2 c r),
    (strip_fences_plain t) by auto.
  rewrite (parse_trimStart_tail _ _ _ A2 P), (parse_trim _ _ P). auto.
Qed.

Lemma fenced_parses_alike_witness :
  JSON.parse answer_7
  = Some (JSON.Obj [("score", JSON.Num 7); ("sentiment", JSON.Str "positiu")])
  /\ JS.occurs fence answer_7 = false
  /\ separator LF = true
  /\ parse_analysis (fenced "json" LF answer_7 LF) = parse_analysis answer_7
  /\ parse_analysis (fenced EmptyString LF answer_7 LF)
     = parse_analysis answer_7.
Proof.
  split; [reflexivity|]. split; [reflexivity|]. split; [reflexivity|].
  apply (fenced_parses_alike answer_7 LF LF
           (JSON.Obj [("score", JSON.Num 7);
                      ("sentiment", JSON.Str "positiu")])); reflexivity.
Defined.

(** C6 as stated fails: a JSON object text whose sentiment string holds
    three backticks loses them between fences, so the fenced text and the
    bare text parse to different results. *)
Lemma fence_inside_string_differs :
  JSON.parse answer_ticks
  = Some (JSON.Obj [("score", JSON.Num 7); ("sentiment", JSON.Str "a```b")])
  /\ parse_analysis answer_ticks = Some (7%Q, JSON.Str "a```b")
  /\ parse_analysis (fenced "json" LF answer_ticks LF) = Some (7%Q, JSON.Str "ab")
  /\ parse_analysis (fenced "json" LF answer_ticks LF) <> parse_analysis answer_ticks.
Proof.
  repeat split; try reflexivity.
  vm_compute. discriminate.
Qed.

(** ** The clamp *)

Lemma clamp_range (raw : Q) :
  (0 <= Math_max 0 (Math_min 10 raw) /\ Math_max 0 (Math_min 10 raw) <= 10)%Q.
Proof.
  unfold Math_max, Math_min.
  destruct (Qle_bool 10 raw) eqn:A.
  - change (Qle_bool 0 10) with true. cbv iota. split; discriminate.
  - destruct (Qle_bool 0 raw) eqn:B.
    + apply Qle_bool_iff in B. split; [exact B|].
      apply Qnot_lt_le. intro L. apply Qlt_le_weak, Qle_bool_iff in L. congruence.
    + split; discriminate.
Qed.

Lemma clamp_below (raw : Q) :
  (raw < 0)%Q -> Math_max 0 (Math_min 10 raw) = 0%Q.
Proof.
  intro L. unfold Math_max, Math_min.
  assert (A : Qle_bool 10 raw = false).
  { destruct (Qle_bool 10 raw) eqn:A; [|reflexivity].
    apply Qle_bool_iff in A. exfalso.
    apply (Qlt_irrefl 0), (Qlt_trans _ 10); [reflexivity|].
    apply (Qle_lt_trans _ raw); assumption. }
  rewrite A.
  destruct (Qle_bool 0 raw) eqn:B; [|reflexivity].
  apply Qle_bool_iff in B. exfalso. apply (Qlt_irrefl raw).
  apply (Qlt_le_trans _ 0); assumption.
Qed.

Lemma clamp_above (raw : Q) :
  (10 < raw)%Q -> Math_max 0 (Math_min 10 raw) = 10%Q.
Proof.
  intro L. unfold Math_max, Math_min.
  assert (A : Qle_bool 10 raw = true) by (apply Qle_bool_iff, Qlt_le_weak, L).
  rewrite A. reflexivity.
Qed.

(** ** Worlds, tables and the monad *)

Lemma append_nil_r (s : string) : s ++ EmptyString = s.
Proof. induction s; simpl; congruence. Qed.

Lemma append_assoc (a b c : string) : (a ++ b) ++ c = a ++ (b ++ c).
Proof. induction a; simpl; congruence. Qed.

Lemma all_ws_trim (s : string) :
  JS.all_ws s = true -> JS.trim s = EmptyString.
Proof.
  unfold JS.trim. induction s as [|c s IH]; simpl; [reflexivity|].
  intro H. apply andb_true_iff in H as [Hc Hs]. rewrite Hc. auto.
Qed.

Lemma trim_nonempty (s : string) :
  JS.is_empty (JS.trim s) = false -> JS.is_empty s = false.
Proof. destruct s; [discriminate | reflexivity]. Qed.

Lemma push_written_nil (w : world) : push_written [] w = w.
Proof.
  destruct w as [d t u oj os c [sc h s wr e] f sb un].
  unfold push_written, set_res. cbn. rewrite app_nil_r. reflexivity.
Qed.

Lemma push_written_app (a b : list sse_event) (w : world) :
  push_written (a ++ b) w = push_written b (push_written a w).
Proof.
  unfold push_written, set_res. cbn. rewrite app_assoc. reflexivity.
Qed.

Lemma find_unknown (d : database) (id : string) :
  known d id = false ->
  find (fun c => String.eqb (c_id c) id) (conversations d) = None.
Proof.
  unfold known. induction (conversations d) as [|c l IH]; simpl; [reflexivity|].
  destruct (String.eqb (c_id c) id); simpl; [discriminate | exact IH].
Qed.

Lemma count_unknown (d : database) (id : string) :
  known d id = false -> count_conversations d id = O.
Proof.
  unfold known, count_conversations.
  induction (conversations d) as [|c l IH]; simpl; [reflexivity|].
  destruct (String.eqb (c_id c) id); simpl; [discriminate | exact IH].
Qed.

Lemma fresh_id_unused (l : list PromptRow) (n : nat) (f : PromptRow -> PromptRow) :
  (fold_right Nat.max O (map p_id l) < n)%nat ->
  map (fun x => if Nat.eqb (p_id x) n then f x else x) l = l.
Proof.
  induction l as [|x l IH]; simpl; intro H; [reflexivity|].
  rewrite IH by lia.
  destruct (Nat.eqb_spec (p_id x) n); [lia | reflexivity].
Qed.

Section preservation.

Context {A : Type} (f : world -> A).

Lemma preserves_ret {B : Type} (b : B) : preserves f (ret b).
Proof. intro w. reflexivity. Qed.

Lemma preserves_raise {B : Type} (e : string) : preserves f (@raise B e).
Proof. intro w. reflexivity. Qed.

Lemma preserves_lift {B : Type} (x : option B) (e : string) :
  preserves f (lift x e).
Proof. destruct x; intro w; reflexivity. Qed.

Lemma preserves_get {B : Type} (g : world -> B) : preserves f (get g).
Proof. intro w. reflexivity. Qed.

Lemma preserves_modify (g : world -> world) :
  (forall w, f (g w) = f w) -> preserves f (modify g).
Proof. intros H w. apply H. Qed.

Lemma preserves_bind {B C : Type} (m : M B) (k : B -> M C) :
  preserves f m -> (forall b, preserves f (k b)) -> preserves f (bind m k).
Proof.
  intros Hm Hk w. unfold bind. specialize (Hm w).
  destruct (m w) as [[b|e] w1]; cbn in *.
  - rewrite (Hk b w1). exact Hm.
  - exact Hm.
Qed.

Lemma preserves_try {B : Type} (m : M B) (h : string -> M B) :
  preserves f m -> (forall e, preserves f (h e)) -> preserves f (try_catch m h).
Proof.
  intros Hm Hh w. unfold try_catch. specialize (Hm w).
  destruct (m w) as [[b|e] w1]; cbn in *.
  - exact Hm.
  - rewrite (Hh e w1). exact Hm.
Qed.

End preservation.

Lemma write_keeps (ev : sse_event) :
  preserves conversations_of (Res.write ev).
Proof.
  apply preserves_modify. intro w. destruct (ended (res w)); reflexivity.
Qed.

Ltac keeps :=
  repeat
    match goal with
    | |- preserves _ (bind _ _) => apply preserves_bind
    | |- preserves _ (try_catch _ _) => apply preserves_try
    | |- preserves _ (ret _) => apply preserves_ret
    | |- preserves _ (raise _) => apply preserves_raise
    | |- preserves _ (lift _ _) => apply preserves_lift
    | |- preserves _ (get _) => apply preserves_get
    | |- preserves _ (Res.write _) => apply write_keeps
    | |- preserves _ (modify _) =>
        apply preserves_modify; intro; reflexivity
    | |- preserves _ (if ?x then _ else _) => destruct x
    | |- preserves _ (match ?x with Some _ => _ | None => _ end) =>
        destruct x
    | |- preserves _ (match ?x with Rejected _ => _ | Resolved _ => _ end) =>
        destruct x
    | |- preserves _ (match ?x with
                      | JSON.Null => _ | JSON.Bool _ => _ | JSON.Num _ => _
                      | JSON.Str _ => _ | JSON.Arr _ => _ | JSON.Obj _ => _
                      end) => destruct x
    | |- forall _, _ => intro
    | |- preserves _ _ => intro; reflexivity
    end.

(** ** The handlers *)

Section handlers.

Variable validateUUID : string -> bool.
Variable DEFAULT_OLLAMA_MODEL : string.
Variable Number_toString : Q -> string.

(** *** Without streaming *)

Lemma generateResponse_run (prompt model : string) (w : world) :
  generateResponse prompt model w
  = (Return (generated (ollama_json w (normal_request prompt model))),
     set_calls (calls w ++ [normal_request prompt model]) w).
Proof.
  unfold generateResponse, try_catch, axios_post_json, bind, modify, get,
    generated.
  cbn. fold (normal_request prompt model).
  destruct (ollama_json w (normal_request prompt model)) as [e|d]; cbn;
    [reflexivity|].
  destruct (member d "response") as [[[]|]|]; reflexivity.
Qed.

Lemma handleNormalResponse_run (conversation : ConversationRow)
    (prompt model : string) (w : world) :
  let answer := generated (ollama_json w (normal_request prompt model)) in
  let w' := snd (handleNormalResponse conversation prompt model w) in
  fst (handleNormalResponse conversation prompt model w) = Return tt /\
  statusCode (res w') = 201%nat /\
  sent (res w') = Some (BPrompt (c_id conversation) (Prompt.fresh_id (db w))
                          (JS.trim prompt) answer msg_registered) /\
  prompts (db w') = (prompts (db w) ++
     [normal_row (db w) (now w) conversation prompt model answer])%list /\
  conversations (db w') = conversations (db w) /\
  calls w' = (calls w ++ [normal_request prompt model])%list /\
  forwarded w' = forwarded w /\ uncaught w' = uncaught w /\
  subscribed w' = subscribed w.
Proof.
  unfold handleNormalResponse, try_catch, bind.
  rewrite generateResponse_run. cbn. repeat split; reflexivity.
Qed.

Lemma registerPrompt_proceeds d t uuids uj us (body : prompt_body)
    (prompt : string) :
  b_prompt body = Some prompt ->
  JS.is_empty (JS.trim prompt) = false ->
  identifier_accepted validateUUID d uuids (b_conversationId body) = true ->
  registerPrompt validateUUID DEFAULT_OLLAMA_MODEL body
    (arrival d t uuids uj us)
  = try_catch
      (if b_stream body
       then handleStreamingResponse
              (fst (resolved d t uuids (b_conversationId body))) prompt
              (model_of DEFAULT_OLLAMA_MODEL body)
       else handleNormalResponse
              (fst (resolved d t uuids (b_conversationId body))) prompt
              (model_of DEFAULT_OLLAMA_MODEL body))
      next
      (arrival (snd (resolved d t uuids (b_conversationId body))) t uuids
         uj us).
Proof.
  intros P N A. destruct body as [cid p m st]. cbn in P. subst p.
  unfold registerPrompt, identifier_accepted, resolved, model_of in *.
  cbn [b_prompt b_model b_stream b_conversationId] in *.
  unfold try_catch. rewrite N.
  destruct cid as [id|]; cbn [given] in *.
  - destruct (JS.is_empty id) eqn:E; cbn [negb] in *.
    + apply negb_true_iff in A. apply find_unknown in A.
      unfold bind, Conversation.create, Conversation.insert,
        Conversation.findByPk, draw_uuid, get, modify, ret.
      cbn. rewrite A. cbn. reflexivity.
    + rewrite A. cbn [negb].
      unfold bind, Conversation.create, Conversation.insert,
        Conversation.findByPk, draw_uuid, get, modify, ret. cbn.
      destruct (find (fun c => String.eqb (c_id c) id) (conversations d))
        eqn:F; cbn.
      * destruct d; reflexivity.
      * rewrite F. cbn. reflexivity.
  - apply negb_true_iff in A. apply find_unknown in A.
    unfold bind, Conversation.create, Conversation.insert,
      Conversation.findByPk, draw_uuid, get, modify, ret.
    cbn. rewrite A. cbn. reflexivity.
Qed.

Lemma resolved_prompts d t uuids cid :
  prompts (snd (resolved d t uuids cid)) = prompts d.
Proof.
  unfold resolved. destruct (if given cid then cid else None); [|reflexivity].
  destruct (find _ _); reflexivity.
Qed.

(** *** The relay *)

Lemma on_data_run c p full chunk r dn w :
  chunk_fields chunk = Some (r, dn) ->
  ended (res w) = false ->
  on_data Number_toString c p full chunk w
  = (Return (full ++ fragment_text Number_toString chunk),
     let w1 := push_written (chunk_events (c_id c) (p_id p) [chunk]) w in
     if JSON.truthy dn
     then finalized c p (full ++ fragment_text Number_toString chunk) w1
     else w1).
Proof.
  intros H E. unfold fragment_text, carried. cbn [chunk_events].
  unfold carried. rewrite H. unfold chunk_fields in H.
  destruct (JSON.parse chunk) as [v|] eqn:P; [|discriminate H].
  destruct (member v "response") as [r'|] eqn:R; [|discriminate H].
  destruct (member v "done") as [dn'|] eqn:D; [|discriminate H].
  injection H as -> ->.
  unfold on_data, try_catch, bind, lift.
  rewrite P. cbn [ret]. rewrite R. cbn [ret].
  unfold finalized, Res.write, Res.end_, Prompt.update, modify, bind, ret.
  destruct r as [r|]; [destruct (JSON.truthy (Some r)) eqn:T|];
    rewrite ?push_written_nil, ?append_nil_r, ?D;
    destruct (JSON.truthy dn) eqn:T';
    unfold push_written, set_res, set_db, add_uncaught;
    cbn -[JSON.ToString JSON.truthy append]; rewrite ?T', ?E;
    cbn -[JSON.ToString JSON.truthy append]; rewrite ?E; reflexivity.
Qed.

Lemma chunk_events_app cid pid (a b : list string) :
  chunk_events cid pid (a ++ b)
  = (chunk_events cid pid a ++ chunk_events cid pid b)%list.
Proof.
  induction a as [|ch a IH]; simpl; [reflexivity|].
  destruct (carried ch); simpl; congruence.
Qed.



Lemma chunk_events_only_chunks cid pid (chunks : list string) :
  filter is_chunk_event (chunk_events cid pid chunks)
  = chunk_events cid pid chunks
  /\ filter is_end_event (chunk_events cid pid chunks) = []
  /\ filter is_error_event (chunk_events cid pid chunks) = [].
Proof.
  induction chunks as [|ch chunks (A & B & C)]; simpl; [auto|].
  destruct (carried ch); simpl; rewrite ?A; auto.
Qed.



Lemma fragment_fields (chunk : string) :
  is_fragment_chunk chunk = true ->
  exists r dn, chunk_fields chunk = Some (r, dn) /\ JSON.truthy dn = false.
Proof.
  unfold is_fragment_chunk.
  destruct (chunk_fields chunk) as [[r dn]|]; [|discriminate].
  intro H. exists r, dn. split; [reflexivity|]. now apply negb_true_iff.
Qed.


(** A run of chunks none of which signals completion: each fragment is
    forwarded and appended, in order, and nothing else changes. *)
Lemma fragments_run c p (chunks : list string) :
  forall full rest w,
  ended (res w) = false ->
  forallb is_fragment_chunk chunks = true ->
  deliver_events Number_toString c p full (map Data chunks ++ rest)%list w
  = deliver_events Number_toString c p
      (full ++ relay_text Number_toString chunks) rest
      (push_written (chunk_events (c_id c) (p_id p) chunks) w).
Proof.
  induction chunks as [|ch chunks IH]; intros full rest w E F.
  - cbn. rewrite push_written_nil, append_nil_r. reflexivity.
  - cbn [forallb] in F. apply andb_true_iff in F as [F1 F2].
    destruct (fragment_fields _ F1) as (r & dn & H & T).
    cbn [map app deliver_events].
    rewrite (on_data_run c p full ch r dn w H E). rewrite T. cbv zeta.
    rewrite IH by assumption.
    cbn [relay_text]. rewrite append_assoc.
    rewrite <- push_written_app.
    change (ch :: chunks) with ([ch] ++ chunks)%list.
    rewrite chunk_events_app. reflexivity.
Qed.


(** When the connection cannot be established, the [catch] of
    [handleStreamingResponse] reports it: an error event, then the end. *)
Lemma connection_failure_reported d t uuids uj us conversation prompt model
    (e : string) :
  us (stream_request prompt model) = Rejected e ->
  let w' := serve Number_toString
              (handleStreamingResponse conversation prompt model)
              (arrival d t uuids uj us) in
  written (res w')
  = [EvStart (c_id conversation) (Prompt.fresh_id d) (JS.trim prompt);
     EvError msg_stream_error]
  /\ ended (res w') = true
  /\ prompts (db w')
     = (prompts d
          ++ [streaming_row d t conversation prompt model EmptyString])%list
  /\ uncaught w' = [].
Proof.
  intros U.
  unfold serve, handleStreamingResponse, processStreamingResponse, try_catch,
    bind, axios_post_stream, Prompt.create, Res.setHeader, Res.write,
    Res.end_, modify, get, ret.
  cbn -[JS.trim Prompt.fresh_id]. fold (stream_request prompt model).
  rewrite U. cbn -[JS.trim Prompt.fresh_id]. auto.
Qed.

(** An ['error'] of the stream after some chunks: the listener throws
    with no [try] around it. *)
Lemma stream_error_run d t uuids uj us conversation prompt model
    (chunks : list string) (e : string) :
  us (stream_request prompt model)
  = Resolved (map Data chunks ++ [Error e])%list ->
  forallb is_fragment_chunk chunks = true ->
  let w' := serve Number_toString
              (handleStreamingResponse conversation prompt model)
              (arrival d t uuids uj us) in
  written (res w')
  = (EvStart (c_id conversation) (Prompt.fresh_id d) (JS.trim prompt)
       :: chunk_events (c_id conversation) (Prompt.fresh_id d) chunks)%list
  /\ ended (res w') = false
  /\ prompts (db w')
     = (prompts d
          ++ [streaming_row d t conversation prompt model EmptyString])%list
  /\ uncaught w' = [e].
Proof.
  intros U F.
  unfold serve, handleStreamingResponse, processStreamingResponse, try_catch,
    bind, axios_post_stream, Prompt.create, Res.setHeader, Res.write, modify,
    get, ret.
  cbn -[deliver_events relay_text chunk_events JS.trim Prompt.fresh_id append].
  fold (stream_request prompt model). rewrite U.
  cbn -[deliver_events relay_text chunk_events JS.trim Prompt.fresh_id append].
  rewrite fragments_run by (reflexivity || assumption).
  cbn -[relay_text chunk_events JS.trim Prompt.fresh_id append].
  auto.
Qed.

(** *** The conversations table under the response handlers *)

Lemma on_data_keeps c p full chunk :
  preserves conversations_of (on_data Number_toString c p full chunk).
Proof. unfold on_data, Res.end_, Prompt.update. keeps. Qed.

Lemma deliver_events_keeps c p (events : list stream_event) :
  forall full w,
  conversations_of (deliver_events Number_toString c p full events w)
  = conversations_of w.
Proof.
  induction events as [|[chunk|e] events IH]; intros full w; cbn.
  - reflexivity.
  - pose proof (on_data_keeps c p full chunk w) as K.
    destruct (on_data Number_toString c p full chunk w) as [[full'|e] w1];
      cbn in K.
    + rewrite IH. exact K.
    + exact K.
  - reflexivity.
Qed.

Lemma handleNormalResponse_keeps conversation prompt model :
  preserves conversations_of (handleNormalResponse conversation prompt model).
Proof.
  unfold handleNormalResponse, generateResponse, axios_post_json, Res.status,
    Res.json.
  keeps.
Qed.

Lemma handleStreamingResponse_keeps conversation prompt model :
  preserves conversations_of
    (handleStreamingResponse conversation prompt model).
Proof.
  unfold handleStreamingResponse, processStreamingResponse, axios_post_stream,
    Res.setHeader, Res.end_.
  keeps.
Qed.

Lemma serve_keeps (handler : M unit) (w : world) :
  preserves conversations_of handler ->
  conversations_of (serve Number_toString handler w) = conversations_of w.
Proof.
  intro K. specialize (K w). unfold serve.
  destruct (handler w) as [[[]|e] w1]; cbn in K.
  - destruct (subscribed w1) as [s|]; [|exact K].
    rewrite deliver_events_keeps. exact K.
  - destruct (subscribed (add_uncaught e w1)) as [s|]; [|exact K].
    rewrite deliver_events_keeps. exact K.
Qed.

(** *** Retrieval in order of creation *)

Lemma place_perm (x : PromptView) (l : list PromptView) :
  Permutation (Conversation.place x l) (x :: l).
Proof.
  induction l as [|y l IH]; simpl; [apply Permutation_refl|].
  destruct (v_createdAt x <=? v_createdAt y)%Z; [apply Permutation_refl|].
  apply (perm_trans (perm_skip y IH)), perm_swap.
Qed.

Lemma order_perm (l : list PromptView) :
  Permutation (Conversation.order_by_createdAt l) l.
Proof.
  induction l as [|x l IH]; simpl; [apply perm_nil|].
  apply (perm_trans (place_perm x _)), perm_skip, IH.
Qed.

Lemma place_ascending (x : PromptView) (l : list PromptView) :
  ascending l -> ascending (Conversation.place x l).
Proof.
  unfold ascending. induction l as [|y l IH]; simpl; intro S.
  - repeat constructor.
  - destruct (Z.leb_spec (v_createdAt x) (v_createdAt y)).
    + constructor; [exact S | constructor; assumption].
    + inversion S as [|? ? S' Hd]; subst. constructor; [apply IH, S'|].
      destruct l as [|z l]; simpl.
      * constructor. cbn beta. lia.
      * destruct (v_createdAt x <=? v_createdAt z)%Z; constructor; cbn beta;
          [lia | inversion Hd; assumption].
Qed.

Lemma order_ascending (l : list PromptView) :
  ascending (Conversation.order_by_createdAt l).
Proof.
  induction l as [|x l IH]; simpl; [constructor | apply place_ascending, IH].
Qed.

Lemma place_times (x : PromptView) (l : list PromptView) :
  map v_createdAt (Conversation.place x l)
  = place_time (v_createdAt x) (map v_createdAt l).
Proof.
  induction l as [|y l IH]; simpl; [reflexivity|].
  destruct (v_createdAt x <=? v_createdAt y)%Z; simpl; congruence.
Qed.

Lemma order_times (l : list PromptView) :
  map v_createdAt (Conversation.order_by_createdAt l)
  = sort_times (map v_createdAt l).
Proof.
  induction l as [|x l IH]; simpl; [reflexivity|].
  rewrite place_times, IH. reflexivity.
Qed.

Lemma place_time_swap (x y : Z) (l : list Z) :
  place_time x (place_time y l) = place_time y (place_time x l).
Proof.
  induction l as [|z l IH]; simpl;
    repeat (match goal with
            | |- context [(?a <=? ?b)%Z] => destruct (Z.leb_spec a b)
            end; simpl);
    try reflexivity; try lia;
    try (assert (x = y) by lia; subst; reflexivity).
  rewrite IH. reflexivity.
Qed.

Lemma sort_times_perm (l l' : list Z) :
  Permutation l l' -> sort_times l = sort_times l'.
Proof.
  induction 1; simpl.
  - reflexivity.
  - congruence.
  - apply place_time_swap.
  - congruence.
Qed.

Lemma filter_perm {A : Type} (f : A -> bool) (l l' : list A) :
  Permutation l l' -> Permutation (filter f l) (filter f l').
Proof.
  induction 1; simpl.
  - apply perm_nil.
  - destruct (f x); [apply perm_skip|]; assumption.
  - destruct (f x), (f y); try apply Permutation_refl. apply perm_swap.
  - eapply perm_trans; eassumption.
Qed.

Lemma getConversation_run d t uuids uj us (id : string)
    (c : ConversationRow) :
  validateUUID id = true ->
  find (fun x => String.eqb (c_id x) id) (conversations d) = Some c ->
  let w' := serve Number_toString (getConversation validateUUID id)
              (arrival d t uuids uj us) in
  statusCode (res w') = 200%nat /\
  sent (res w')
  = Some (BConversation c
            (Conversation.order_by_createdAt
               (Conversation.stored_prompts d id))) /\
  db w' = d.
Proof.
  intros V F.
  unfold serve, getConversation, try_catch, bind, Conversation.findByPk_include,
    Conversation.findByPk, get, ret, Res.json, modify.
  rewrite V. cbn. rewrite F. cbn. rewrite F. cbn. auto.
Qed.

(** ** Properties of the controller *)


(** C2: when the upstream call of a non-streaming request fails, exactly
    one Prompt row is still persisted, its response the apology text, and
    the caller gets the 201 answer carrying that text; nothing is thrown
    or handed to the error middleware. *)
Theorem upstream_failure_still_recorded d t uuids uj us conversation
    prompt model (e : string) :
  uj (normal_request prompt model) = Rejected e ->
  let w' := serve Number_toString
              (handleNormalResponse conversation prompt model)
              (arrival d t uuids uj us) in
  prompts (db w')
  = (prompts d ++ [normal_row d t conversation prompt model apology])%list
  /\ statusCode (res w') = 201%nat
  /\ sent (res w')
     = Some (BPrompt (c_id conversation) (Prompt.fresh_id d)
               (JS.trim prompt) apology msg_registered)
  /\ forwarded w' = None /\ uncaught w' = [].
Proof.
  intros H w'.
  destruct (handleNormalResponse_run conversation prompt model
              (arrival d t uuids uj us))
    as (R & S1 & S2 & P & _ & _ & F & U & Sub).
  cbn [ollama_json arrival db now] in *. rewrite H in *.
  cbn [generated] in *.
  subst w'. unfold serve.
  destruct (handleNormalResponse conversation prompt model
              (arrival d t uuids uj us)) as [o w1].
  cbn [fst snd] in *. subst o. rewrite Sub. cbn.
  repeat split; assumption.
Qed.

(** C3 (divergence): when the upstream stream emits an error after the
    start event and some chunks, the listener's exception is caught by
    nothing: no error event is written and the response is not ended.
    The Prompt's response stays empty, as specified. *)
Theorem stream_error_not_reported d t uuids uj us conversation prompt model
    (chunks : list string) (e : string) :
  us (stream_request prompt model)
  = Resolved (map Data chunks ++ [Error e])%list ->
  forallb is_fragment_chunk chunks = true ->
  let w' := serve Number_toString
              (handleStreamingResponse conversation prompt model)
              (arrival d t uuids uj us) in
  filter is_error_event (written (res w')) = []
  /\ ended (res w') = false
  /\ uncaught w' = [e]
  /\ prompts (db w')
     = (prompts d
          ++ [streaming_row d t conversation prompt model EmptyString])%list.
Proof.
  intros U F w'.
  destruct (stream_error_run d t uuids uj us conversation prompt model
              chunks e U F) as (W & E & P & X).
  fold w' in W, E, P, X. repeat split; try assumption.
  rewrite W. cbn [filter is_error_event].
  apply (chunk_events_only_chunks (c_id conversation) (Prompt.fresh_id d)).
Qed.

(** C4: in a sentiment analysis whose upstream output parses to an object
    with a numeric score and a truthy sentiment, every score the request
    stores and the score it returns is the raw score clamped: it lies in
    [0,10], is 0 for a raw score below 0 and 10 for one above 10.  The
    record is stored and the request answered 201 when the sentiment
    and the model name are texts the columns of the model take (at most
    20 and 100 code units) and the UUID the store draws for the record
    is not already a key. *)
Theorem sentiment_score_clamped d t uuids uj us (text : string)
    (result : JSON.value) (raw : Q) (sentiment : JSON.value) :
  let response :=
    generated (uj (normal_request (sentiment_prompt text)
                     DEFAULT_OLLAMA_MODEL)) in
  JS.is_empty (JS.trim text) = false ->
  JSON.parse (strip_fences response) = Some result ->
  member result "score" = Some (Some (JSON.Num raw)) ->
  member result "sentiment" = Some (Some sentiment) ->
  JSON.truthy (Some sentiment) = true ->
  let w' := serve Number_toString
              (analyzeSentiment DEFAULT_OLLAMA_MODEL (Some text))
              (arrival d t uuids uj us) in
  (forall row, In row (sentiments (db w')) ->
     In row (sentiments d) \/ clamp_of raw (s_score row))
  /\ (forall i tx sc se m c,
        sent (res w') = Some (BSentiment i tx sc se m c) -> clamp_of raw sc)
  /\ (forall s,
        sentiment = JSON.Str s ->
        (String.length s <= 20)%nat ->
        (String.length DEFAULT_OLLAMA_MODEL <= 100)%nat ->
        existsb (fun r => String.eqb (s_id r) (uuids (seed d))) (sentiments d)
        = false ->
        statusCode (res w') = 201%nat
        /\ exists returned stored,
             sent (res w')
             = Some (BSentiment (uuids (seed d)) text returned sentiment
                       DEFAULT_OLLAMA_MODEL t)
             /\ sentiments (db w')
                = (sentiments d
                     ++ [{| s_id := uuids (seed d); s_text := text;
                            s_score := stored; s_sentiment := sentiment;
                            s_model := DEFAULT_OLLAMA_MODEL;
                            s_resposta_completa := response;
                            s_createdAt := t |}])%list).
Proof.
  intros response N P S1 S2 T w'.
  set (score := Math_max 0 (Math_min 10 raw)).
  assert (C : clamp_of raw score).
  { unfold clamp_of, score. split; [apply clamp_range|].
    split; [apply clamp_range|].
    split; [apply clamp_below | apply clamp_above]. }
  assert (A : parse_analysis response = Some (score, sentiment)).
  { unfold parse_analysis. rewrite P, S1, S2, T. reflexivity. }
  subst w'.
  unfold serve, analyzeSentiment, try_catch, bind.
  rewrite (trim_nonempty _ N), N. cbn [orb].
  rewrite generateResponse_run. cbn [ollama_json arrival set_calls].
  fold response. rewrite A.
  unfold SentimentAnalysis.create, draw_uuid, bind, get, modify, ret,
    raise, next, Res.status, Res.json.
  cbn -[response score SentimentAnalysis.string_column].
  destruct (SentimentAnalysis.string_column sentiment) eqn:V;
    cbn -[response score].
  2:{ split; [auto|]. split; [discriminate|].
      intros s ->. discriminate V. }
  destruct (existsb (fun s => String.eqb (s_id s) (uuids (seed d)))
              (sentiments d)) eqn:U;
    cbn -[response score].
  - split; [auto|]. split; [discriminate|]. discriminate.
  - split.
    { intros row I. apply in_app_or in I as [I | [<- | []]]; auto. }
    split.
    { intros i tx sc se m c E. injection E as _ _ <- _ _ _. exact C. }
    intros s _ _ _ _. split; [reflexivity|]. exists score, score.
    split; reflexivity.
Qed.

Lemma serve_congr (h h' : M unit) (w w' : world) :
  h w = h' w' -> serve Number_toString h w = serve Number_toString h' w'.
Proof. unfold serve. intros ->. reflexivity. Qed.

Lemma find_last (l : list ConversationRow) (row : ConversationRow) :
  find (fun c => String.eqb (c_id c) (c_id row)) l = None ->
  find (fun c => String.eqb (c_id c) (c_id row)) (l ++ [row]) = Some row.
Proof.
  induction l as [|x l IH]; simpl.
  - rewrite String.eqb_refl. reflexivity.
  - destruct (String.eqb (c_id x) (c_id row)); [discriminate | exact IH].
Qed.

Lemma respond_keeps (stream : bool) conversation prompt model :
  preserves conversations_of
    (try_catch
       (if stream then handleStreamingResponse conversation prompt model
        else handleNormalResponse conversation prompt model)
       next).
Proof.
  apply preserves_try.
  - destruct stream;
      [apply handleStreamingResponse_keeps | apply handleNormalResponse_keeps].
  - intro e. apply preserves_modify. reflexivity.
Qed.

(** C5 (amended): a prompt request that supplies a non-empty identifier.
    When the identifier is well formed and not yet stored, and the prompt
    text is not blank, exactly one Conversation of that identifier is
    created, and a later lookup and a later retrieval return it.  When
    the identifier is malformed the request is answered 400, nothing is
    created and the upstream is not called. *)
Theorem unknown_identifier_creates_conversation d t uuids uj us
    (body : prompt_body) (id : string) :
  b_conversationId body = Some id ->
  JS.is_empty id = false ->
  let w' := serve Number_toString
              (registerPrompt validateUUID DEFAULT_OLLAMA_MODEL body)
              (arrival d t uuids uj us) in
  let row := {| c_id := id; c_createdAt := t |} in
  (validateUUID id = true -> known d id = false ->
   forall prompt, b_prompt body = Some prompt ->
   JS.is_empty (JS.trim prompt) = false ->
   conversations (db w') = (conversations d ++ [row])%list
   /\ count_conversations (db w') id = 1%nat
   /\ fst (Conversation.findByPk id w') = Return (Some row)
   /\ forall t2 uuids2 uj2 us2,
        let w2 := serve Number_toString (getConversation validateUUID id)
                    (arrival (db w') t2 uuids2 uj2 us2) in
        statusCode (res w2) = 200%nat
        /\ exists ps, sent (res w2) = Some (BConversation row ps))
  /\ (validateUUID id = false ->
      statusCode (res w') = 400%nat /\ db w' = d /\ calls w' = []).
Proof.
  intros C E w' row. split.
  - intros V K prompt P N.
    assert (A : identifier_accepted validateUUID d uuids
                  (b_conversationId body) = true).
    { unfold identifier_accepted. rewrite C. cbn. rewrite E. exact V. }
    assert (R : resolved d t uuids (b_conversationId body)
                = (row, {| conversations := (conversations d ++ [row])%list;
                           prompts := prompts d; sentiments := sentiments d;
                           seed := seed d |})).
    { unfold resolved. rewrite C. cbn. rewrite E. cbn.
      rewrite (find_unknown _ _ K). reflexivity. }
    assert (W : conversations (db w') = (conversations d ++ [row])%list).
    { subst w'.
      rewrite (serve_congr _ _ _ _
                 (registerPrompt_proceeds d t uuids uj us body prompt P N A)).
      rewrite R. cbn [fst snd].
      match goal with
      | |- conversations (db (serve _ ?h ?w0)) = _ =>
          pose proof (serve_keeps h w0 (respond_keeps _ _ _ _)) as Q
      end.
      exact Q. }
    assert (F : find (fun c => String.eqb (c_id c) id) (conversations (db w'))
                = Some row).
    { rewrite W. apply (find_last _ row), find_unknown, K. }
    repeat split.
    + exact W.
    + unfold count_conversations. rewrite W, filter_app, length_app.
      fold (count_conversations d id). rewrite (count_unknown _ _ K).
      cbn. rewrite String.eqb_refl. reflexivity.
    + unfold Conversation.findByPk, get. cbn. rewrite F. reflexivity.
    + apply (getConversation_run _ t2 uuids2 uj2 us2 id row V F).
    + exists (Conversation.order_by_createdAt
                (Conversation.stored_prompts (db w') id)).
      apply (getConversation_run _ t2 uuids2 uj2 us2 id row V F).
  - intro V. subst w'. destruct body as [cid [p|] m st]; cbn in C; subst cid.
    + unfold serve, registerPrompt, try_catch. cbn [b_prompt].
      destruct (JS.is_empty (JS.trim p)); cbn; rewrite ?E; cbn;
        rewrite ?V; cbn; auto.
    + cbn. auto.
Qed.

(** C7: a prompt request whose prompt text is absent, empty or only white
    space is answered 400; the store is as it was (no Conversation, no
    Prompt) and no upstream call has been made. *)
Theorem blank_prompt_rejected d t uuids uj us (body : prompt_body) :
  blank (b_prompt body) = true ->
  let w' := serve Number_toString
              (registerPrompt validateUUID DEFAULT_OLLAMA_MODEL body)
              (arrival d t uuids uj us) in
  statusCode (res w') = 400%nat
  /\ sent (res w') = Some (BMessage msg_prompt_required)
  /\ db w' = d
  /\ calls w' = [].
Proof.
  intros H. destruct body as [cid [p|] m st]; simpl in H.
  - unfold serve, registerPrompt, try_catch. cbn [b_prompt].
    rewrite (all_ws_trim _ H). cbn. auto.
  - cbn. auto.
Qed.

(** C8: retrieving a conversation by a well-formed, known identifier
    answers 200 with its Prompts in ascending order of creation time: the
    list returned is sorted, holds exactly the stored prompts of the
    conversation, and its sequence of creation times is the same
    whatever order the storage layer keeps the prompts in. *)
Theorem prompts_returned_in_creation_order d t uuids uj us (id : string)
    (c : ConversationRow) :
  validateUUID id = true ->
  find (fun x => String.eqb (c_id x) id) (conversations d) = Some c ->
  let w' := serve Number_toString (getConversation validateUUID id)
              (arrival d t uuids uj us) in
  statusCode (res w') = 200%nat
  /\ exists ps,
       sent (res w') = Some (BConversation c ps)
       /\ ascending ps
       /\ Permutation ps (Conversation.stored_prompts d id)
       /\ forall d2, Permutation (prompts d) (prompts d2) ->
            map v_createdAt
              (Conversation.order_by_createdAt
                 (Conversation.stored_prompts d2 id))
            = map v_createdAt ps.
Proof.
  intros V F w'.
  destruct (getConversation_run d t uuids uj us id c V F) as (S1 & S2 & _).
  fold w' in S1, S2. split; [exact S1|].
  exists (Conversation.order_by_createdAt (Conversation.stored_prompts d id)).
  split; [exact S2|]. split; [apply order_ascending|].
  split; [apply order_perm|].
  intros d2 P. rewrite !order_times. apply sort_times_perm.
  unfold Conversation.stored_prompts.
  apply Permutation_map, Permutation_map, filter_perm, Permutation_sym, P.
Qed.

Lemma fresh_id_prompts (d1 d2 : database) :
  prompts d1 = prompts d2 -> Prompt.fresh_id d1 = Prompt.fresh_id d2.
Proof. unfold Prompt.fresh_id. intros ->. reflexivity. Qed.

(** C9: a non-streaming prompt request with a non-blank prompt and an
    accepted identifier (a supplied one is well formed; when none is
    supplied the UUID the store draws is not already a key) is answered
    201 whatever the upstream does; when the upstream call fails, the
    apology text is the response persisted with the Prompt and the
    response returned. *)
Theorem outage_still_201 d t uuids uj us (body : prompt_body)
    (prompt : string) :
  b_stream body = false ->
  b_prompt body = Some prompt ->
  JS.is_empty (JS.trim prompt) = false ->
  identifier_accepted validateUUID d uuids (b_conversationId body) = true ->
  let w' := serve Number_toString
              (registerPrompt validateUUID DEFAULT_OLLAMA_MODEL body)
              (arrival d t uuids uj us) in
  let conversation := fst (resolved d t uuids (b_conversationId body)) in
  let model := model_of DEFAULT_OLLAMA_MODEL body in
  statusCode (res w') = 201%nat
  /\ forall e, uj (normal_request prompt model) = Rejected e ->
       sent (res w')
       = Some (BPrompt (c_id conversation) (Prompt.fresh_id d)
                 (JS.trim prompt) apology msg_registered)
       /\ prompts (db w')
          = (prompts d
               ++ [normal_row d t conversation prompt model apology])%list.
Proof.
  intros St P N A w' conversation model. subst w'.
  rewrite (serve_congr _ _ _ _
             (registerPrompt_proceeds d t uuids uj us body prompt P N A)).
  rewrite St. fold conversation model.
  pose proof (resolved_prompts d t uuids (b_conversationId body)) as RP.
  set (d1 := snd (resolved d t uuids (b_conversationId body))) in *.
  destruct (handleNormalResponse_run conversation prompt model
              (arrival d1 t uuids uj us))
    as (R & S1 & S2 & Pr & _ & _ & _ & _ & Sub).
  unfold serve, try_catch.
  destruct (handleNormalResponse conversation prompt model
              (arrival d1 t uuids uj us)) as [o w1].
  cbn [fst snd] in *. subst o. rewrite Sub. cbn [subscribed arrival].
  split; [exact S1|].
  intros e H. cbn [ollama_json arrival db now] in *. rewrite H in *.
  cbn [generated] in *.
  unfold normal_row in *. rewrite (fresh_id_prompts d1 d RP), RP in *.
  split; assumption.
Qed.



End handlers.

(** ** The properties at concrete requests *)



Lemma upstream_failure_still_recorded_witness :
  @down JSON.value (normal_request " hello " "m") = Rejected "ECONNREFUSED"
  /\ (let w' := serve integer_toString
                  (handleNormalResponse conversation_A " hello " "m")
                  (arrival db_A 0 drawn down down) in
      prompts (db w')
      = [normal_row db_A 0 conversation_A " hello " "m" apology]
      /\ statusCode (res w') = 201%nat
      /\ sent (res w')
         = Some (BPrompt id_A 1 "hello" apology msg_registered)
      /\ forwarded w' = None /\ uncaught w' = []).
Proof.
  split; [reflexivity|].
  apply (upstream_failure_still_recorded integer_toString db_A 0 drawn down
           down conversation_A " hello " "m" "ECONNREFUSED").
  reflexivity.
Defined.

Lemma stream_error_not_reported_witness :
  streams [Data chunk_Hi; Error "ECONNRESET"] (stream_request " hello " "m")
  = Resolved (map Data [chunk_Hi] ++ [Error "ECONNRESET"])%list
  /\ forallb is_fragment_chunk [chunk_Hi] = true
  /\ (let w' := serve integer_toString
                  (handleStreamingResponse conversation_A " hello " "m")
                  (arrival db_A 0 drawn down
                     (streams [Data chunk_Hi; Error "ECONNRESET"])) in
      filter is_error_event (written (res w')) = []
      /\ ended (res w') = false
      /\ uncaught w' = ["ECONNRESET"]
      /\ prompts (db w')
         = [streaming_row db_A 0 conversation_A " hello " "m" EmptyString]).
Proof.
  split; [reflexivity|]. split; [reflexivity|].
  apply (stream_error_not_reported integer_toString db_A 0 drawn down
           (streams [Data chunk_Hi; Error "ECONNRESET"]) conversation_A
           " hello " "m" [chunk_Hi] "ECONNRESET"); reflexivity.
Defined.

Lemma sentiment_score_clamped_witness :
  let result := JSON.Obj [("score", JSON.Num 15);
                          ("sentiment", JSON.Str "positiu")] in
  let response :=
    generated (answers (fenced "json" LF answer_15 LF)
                 (normal_request (sentiment_prompt "Que be!") "m")) in
  JS.is_empty (JS.trim "Que be!") = false
  /\ JSON.parse (strip_fences response) = Some result
  /\ member result "score" = Some (Some (JSON.Num 15))
  /\ member result "sentiment" = Some (Some (JSON.Str "positiu"))
  /\ JSON.truthy (Some (JSON.Str "positiu")) = true
  /\ (let w' := serve integer_toString (analyzeSentiment "m" (Some "Que be!"))
                  (arrival empty_db 0 drawn
                     (answers (fenced "json" LF answer_15 LF)) down) in
      statusCode (res w') = 201%nat
      /\ sent (res w')
         = Some (BSentiment (drawn 0) "Que be!" 10 (JSON.Str "positiu")
                   "m" 0)
      /\ map s_score (sentiments (db w')) = [10%Q]).
Proof.
  cbv zeta. do 5 (split; [reflexivity|]).
  destruct (sentiment_score_clamped "m" integer_toString empty_db 0 drawn
              (answers (fenced "json" LF answer_15 LF)) down "Que be!"
              (JSON.Obj [("score", JSON.Num 15);
                         ("sentiment", JSON.Str "positiu")])
              15 (JSON.Str "positiu")
              eq_refl eq_refl eq_refl eq_refl eq_refl)
    as (Rows & Returned & Stored).
  destruct (Stored "positiu" eq_refl (proj1 (Nat.leb_le 7 20) eq_refl)
              (proj1 (Nat.leb_le 1 100) eq_refl) eq_refl)
    as (S1 & returned & stored & S2 & S3).
  destruct (Returned _ _ _ _ _ _ S2) as (_ & _ & _ & Hi).
  assert (E : returned = 10%Q) by (apply Hi; reflexivity).
  destruct (Rows {| s_id := drawn 0; s_text := "Que be!"; s_score := stored;
                    s_sentiment := JSON.Str "positiu"; s_model := "m";
                    s_resposta_completa :=
                      generated (answers (fenced "json" LF answer_15 LF)
                                   (normal_request (sentiment_prompt "Que be!")
                                      "m"));
                    s_createdAt := 0 |})
    as [[] | (_ & _ & _ & Hi')];
    [rewrite S3; left; reflexivity|].
  assert (E' : stored = 10%Q) by (apply Hi'; reflexivity).
  rewrite E in S2. rewrite E' in S3.
  split; [exact S1|]. split; [exact S2|]. rewrite S3. reflexivity.
Defined.

Lemma unknown_identifier_creates_conversation_witness :
  b_conversationId (body_hello (Some id_A) false) = Some id_A
  /\ JS.is_empty id_A = false
  /\ uuid_shape id_A = true
  /\ known empty_db id_A = false
  /\ b_prompt (body_hello (Some id_A) false) = Some " hello "
  /\ JS.is_empty (JS.trim " hello ") = false
  /\ (let w' := serve integer_toString
                  (registerPrompt uuid_shape "m" (body_hello (Some id_A) false))
                  (arrival empty_db 0 drawn down down) in
      conversations (db w') = [{| c_id := id_A; c_createdAt := 0 |}]
      /\ count_conversations (db w') id_A = 1%nat)
  /\ uuid_shape "not-a-uuid" = false
  /\ (let w' := serve integer_toString
                  (registerPrompt uuid_shape "m"
                     (body_hello (Some "not-a-uuid") false))
                  (arrival empty_db 0 drawn down down) in
      statusCode (res w') = 400%nat /\ db w' = empty_db /\ calls w' = []).
Proof.
  do 6 (split; [reflexivity|]).
  split.
  - destruct (unknown_identifier_creates_conversation uuid_shape "m"
                integer_toString empty_db 0 drawn down down
                (body_hello (Some id_A) false) id_A eq_refl eq_refl)
      as (Created & _).
    destruct (Created eq_refl eq_refl " hello " eq_refl eq_refl)
      as (W & C & _).
    split; [exact W | exact C].
  - split; [reflexivity|].
    destruct (unknown_identifier_creates_conversation uuid_shape "m"
                integer_toString empty_db 0 drawn down down
                (body_hello (Some "not-a-uuid") false) "not-a-uuid"
                eq_refl eq_refl)
      as (_ & Refused).
    exact (Refused eq_refl).
Defined.

(** C5 as stated fails twice.  A request with a well-formed, unknown
    identifier and a blank prompt is answered 400 and creates no
    Conversation.  A request whose identifier is the empty string, which
    is malformed, is not refused: it is answered 201 and a Conversation
    under a generated identifier is created. *)
Lemma identifier_requests_not_covered :
  (uuid_shape id_A = true
   /\ known empty_db id_A = false
   /\ let w' := serve integer_toString
                  (registerPrompt uuid_shape "m" body_blank)
                  (arrival empty_db 0 drawn down down) in
      statusCode (res w') = 400%nat
      /\ known (db w') id_A = false
      /\ conversations (db w') = [])
  /\ (uuid_shape EmptyString = false
      /\ let w' := serve integer_toString
                     (registerPrompt uuid_shape "m"
                        (body_hello (Some EmptyString) false))
                     (arrival empty_db 0 drawn down down) in
         statusCode (res w') = 201%nat
         /\ conversations (db w')
            = [{| c_id := drawn 0; c_createdAt := 0 |}]).
Proof.
  cbv zeta. repeat split; reflexivity.
Qed.

Lemma blank_prompt_rejected_witness :
  blank (b_prompt body_blank) = true
  /\ (let w' := serve integer_toString
                  (registerPrompt uuid_shape "m" body_blank)
                  (arrival db_A 0 drawn down down) in
      statusCode (res w') = 400%nat
      /\ sent (res w') = Some (BMessage msg_prompt_required)
      /\ db w' = db_A
      /\ calls w' = []).
Proof.
  split; [reflexivity|].
  apply (blank_prompt_rejected uuid_shape "m" integer_toString db_A 0 drawn
           down down body_blank).
  reflexivity.
Defined.

Lemma prompts_returned_in_creation_order_witness :
  uuid_shape id_A = true
  /\ find (fun x => String.eqb (c_id x) id_A) (conversations db_shuffled)
     = Some conversation_A
  /\ (let w' := serve integer_toString (getConversation uuid_shape id_A)
                  (arrival db_shuffled 0 drawn down down) in
      statusCode (res w') = 200%nat
      /\ exists ps,
           sent (res w') = Some (BConversation conversation_A ps)
           /\ ascending ps
           /\ map v_createdAt ps = [910; 920; 930]%Z
           /\ map v_id ps = [1; 2; 3]%nat).
Proof.
  split; [reflexivity|]. split; [reflexivity|].
  destruct (prompts_returned_in_creation_order uuid_shape integer_toString
              db_shuffled 0 drawn down down id_A conversation_A
              eq_refl eq_refl)
    as (S1 & ps & S2 & Asc & _ & Inv).
  split; [exact S1|]. exists ps.
  split; [exact S2|]. split; [exact Asc|].
  split.
  - rewrite <- (Inv db_shuffled (Permutation_refl _)). reflexivity.
  - injection S2 as <-. reflexivity.
Defined.

Lemma outage_still_201_witness :
  b_stream (body_hello None false) = false
  /\ b_prompt (body_hello None false) = Some " hello "
  /\ JS.is_empty (JS.trim " hello ") = false
  /\ identifier_accepted uuid_shape empty_db drawn
       (b_conversationId (body_hello None false)) = true
  /\ @down JSON.value (normal_request " hello " "m") = Rejected "ECONNREFUSED"
  /\ (let w' := serve integer_toString
                  (registerPrompt uuid_shape "m" (body_hello None false))
                  (arrival empty_db 0 drawn down down) in
      statusCode (res w') = 201%nat
      /\ sent (res w')
         = Some (BPrompt (drawn 0) 1 "hello" apology msg_registered)
      /\ map p_response (prompts (db w')) = [apology]).
Proof.
  do 5 (split; [reflexivity|]).
  destruct (outage_still_201 uuid_shape "m" integer_toString empty_db 0 drawn
              down down (body_hello None false) " hello "
              eq_refl eq_refl eq_refl eq_refl)
    as (S1 & Out).
  destruct (Out "ECONNREFUSED" eq_refl) as (S2 & P).
  split; [exact S1|]. split; [exact S2|]. rewrite P. reflexivity.
Defined.


(** * The rest of the controller *)

(** ** The list of models *)

Lemma entry_default (D : string) (v : JSON.value) (e : model_entry) :
  entry_of v = Some e -> is_default D e = has_default_name D v.
Proof.
  unfold entry_of, is_default, has_default_name.
  destruct (member v "name") as [n|]; [|discriminate].
  destruct (member v "modified_at"); [|discriminate].
  destruct (member v "size"); [|discriminate].
  destruct (member v "digest"); [|discriminate].
  intro H. injection H as <-. reflexivity.
Qed.

Lemma map_entries_total (l : list JSON.value) :
  Forall (fun v => v <> JSON.Null) l ->
  exists models, map_entries l = Some models.
Proof.
  induction 1 as [|v l N _ [ms IH]]; simpl; [eauto|].
  rewrite IH. destruct v; try (now elim N); cbn; eauto.
Qed.

Lemma map_entries_find (D : string) (l : list JSON.value) :
  forall models, map_entries l = Some models ->
  match find (has_default_name D) l with
  | Some v => exists e, entry_of v = Some e
                /\ find (is_default D) models = Some e
  | None => find (is_default D) models = None
  end.
Proof.
  induction l as [|v l IH]; simpl; intros models H.
  - injection H as <-. reflexivity.
  - destruct (entry_of v) as [e|] eqn:E; [|discriminate].
    destruct (map_entries l) as [ms|]; [|discriminate].
    injection H as <-. simpl. rewrite (entry_default D v e E).
    destruct (has_default_name D v); [eauto|]. apply IH. reflexivity.
Qed.

Lemma find_default_named (D : string) (models : list model_entry) (e : model_entry) :
  find (is_default D) models = Some e -> m_name e = Some (JSON.Str D).
Proof.
  intro H. apply find_some in H as [_ H]. unfold is_default in H.
  destruct (m_name e) as [[]|]; try discriminate.
  apply String.eqb_eq in H. congruence.
Qed.

(** X1: the list of models answers at most one model.  Whenever the
    handler answers a list, the upstream had answered, [total_models] is
    the length of the list, which is at most one, and every model in it
    carries the default name.  When the upstream lists an array of models
    none of which is [null], the answer is the first of them that carries
    the default name, reduced to its four fields, or the empty list with
    [total_models] 0 when there is none. *)
Theorem only_default_model_listed (D : string) (reply : tags_reply) :
  (forall n ms, listOllamaModels D reply = ModelsJson n ms ->
     (exists response_data, reply = TagsResolved response_data)
     /\ n = List.length ms /\ (n <= 1)%nat
     /\ Forall (fun m => m_name m = Some (JSON.Str D)) ms)
  /\ (forall response_data l,
        reply = TagsResolved response_data ->
        member response_data "models" = Some (Some (JSON.Arr l)) ->
        Forall (fun v => v <> JSON.Null) l ->
        match find (has_default_name D) l with
        | Some v => exists e, entry_of v = Some e
                      /\ listOllamaModels D reply = ModelsJson 1 [e]
        | None => listOllamaModels D reply = ModelsJson 0 []
        end).
Proof.
  split.
  - intros n ms H. destruct reply as [e [[st dt]|]|data]; try discriminate H.
    split; [eauto|]. cbn in H.
    destruct (member data "models") as [[[| | | |l|]|]|]; try discriminate H.
    destruct (map_entries l) as [models|]; try discriminate H.
    destruct (find (is_default D) models) as [m|] eqn:F;
      injection H as <- <-; cbn; repeat split; auto.
    constructor; [|constructor]. apply (find_default_named D models), F.
  - intros data l -> M N. cbn. rewrite M.
    destruct (map_entries_total l N) as [models E]. rewrite E.
    pose proof (map_entries_find D l models E) as F.
    destruct (find (has_default_name D) l) as [v|].
    + destruct F as (e & E1 & E2). exists e. rewrite E2. auto.
    + rewrite F. reflexivity.
Qed.

(** ** [generateResponse] on a stream *)

Section streamed_generation.

Variable Number_toString : Q -> string.

Lemma chunk_members (v : JSON.value) (k1 k2 : string) :
  member v k1 = None <-> member v k2 = None.
Proof. destruct v; cbn; split; intro; congruence. Qed.

Lemma collect_chunk_fragment (full chunk : string) :
  collect_chunk Number_toString full chunk = full ++ fragment_text Number_toString chunk.
Proof.
  unfold collect_chunk, fragment_text, carried, chunk_fields.
  destruct (JSON.parse chunk) as [v|]; [|now rewrite append_nil_r].
  destruct v; cbn -[JSON.truthy JSON.ToString];
    try now rewrite append_nil_r.
  destruct (JSON.lookup members "response") as [r|]; [|now rewrite append_nil_r].
  destruct (JSON.truthy (Some r)); [reflexivity | now rewrite append_nil_r].
Qed.

Lemma settle_data (chunks : list string) :
  forall full rest,
  settle Number_toString full (map Data chunks ++ rest)%list
  = settle Number_toString (full ++ relay_text Number_toString chunks) rest.
Proof.
  induction chunks as [|ch chunks IH]; intros full rest; cbn [map app settle].
  - cbn. now rewrite append_nil_r.
  - rewrite IH, collect_chunk_fragment. cbn [relay_text].
    now rewrite append_assoc.
Qed.



(** X3: when the stream fails after the connection was made,
    [generateResponse] with [stream] true rejects with the error of the
    stream: the promise is returned from inside the [try] without being
    awaited, so the [catch] that would answer the apology does not see
    the rejection. *)
Theorem stream_failure_escapes (prompt model : string) (w : world)
    (chunks : list string) (e : string) (rest : list stream_event) :
  ollama_stream w (stream_request prompt model)
  = Resolved (map Data chunks ++ Error e :: rest)%list ->
  fst (generateResponse_stream Number_toString prompt model w) = Raise e
  /\ fst (generateResponse_stream Number_toString prompt model w) <> Return apology.
Proof.
  intro U.
  assert (H : fst (generateResponse_stream Number_toString prompt model w) = Raise e).
  { unfold generateResponse_stream, try_catch, axios_post_stream, bind, modify,
      get, ret. cbn. unfold stream_request in U. rewrite U. cbn.
    rewrite settle_data. reflexivity. }
  split; [exact H|]. rewrite H. discriminate.
Qed.
End streamed_generation.

(** ** The handlers, whatever the request and the upstream *)

Section coverage.

Variable validateUUID : string -> bool.
Variable DEFAULT_OLLAMA_MODEL : string.
Variable Number_toString : Q -> string.

(** *** The listeners on any stream *)

(** The ['data'] listener on any chunk, in any world: it throws on a
    chunk without fields and otherwise forwards the fragment, if any, and
    finalizes on completion. *)
Lemma on_data_any c p full chunk w :
  on_data Number_toString c p full chunk w
  = match chunk_fields chunk with
    | None => (Raise msg_chunk_error, w)
    | Some (_, dn) =>
        let full' := full ++ fragment_text Number_toString chunk in
        let w1 := match carried chunk with
                  | Some v => snd (Res.write (EvChunk (c_id c) (p_id p) v) w)
                  | None => w
                  end in
        (Return full', if JSON.truthy dn then finalized c p full' w1 else w1)
    end.
Proof.
  unfold fragment_text, carried, chunk_fields.
  destruct (JSON.parse chunk) as [v|] eqn:P.
  2:{ unfold on_data, try_catch, bind, lift. rewrite P. reflexivity. }
  destruct (member v "response") as [r|] eqn:R.
  2:{ unfold on_data, try_catch, bind, lift. rewrite P. cbn [ret].
      rewrite R. reflexivity. }
  destruct (member v "done") as [dn|] eqn:D.
  2:{ destruct v; discriminate. }
  unfold on_data, try_catch, bind, lift.
  rewrite P. cbn [ret]. rewrite R. cbn [ret].
  unfold finalized, Res.write, Res.end_, Prompt.update, modify, bind, ret.
  destruct r as [r|]; [destruct (JSON.truthy (Some r)) eqn:T|];
    rewrite ?append_nil_r, ?D; destruct (JSON.truthy dn) eqn:T';
    cbn -[JSON.ToString JSON.truthy append]; rewrite ?T';
    destruct (ended (res w)) eqn:E;
    unfold push_written, set_res, set_db, add_uncaught;
    cbn -[JSON.ToString JSON.truthy append]; rewrite ?T', ?E;
    cbn -[JSON.ToString JSON.truthy append]; rewrite ?E; reflexivity.
Qed.


Lemma untouched_refl (w : world) : untouched w w.
Proof. repeat split. Qed.

Lemma untouched_trans (w1 w2 w3 : world) :
  untouched w1 w2 -> untouched w2 w3 -> untouched w1 w3.
Proof.
  unfold untouched. intros (A1 & A2 & A3 & A4 & A5 & A6)
    (B1 & B2 & B3 & B4 & B5 & B6).
  repeat split; congruence.
Qed.

Lemma rewritten_refl (p : PromptRow) (l : list PromptRow) : rewritten p l l.
Proof. left. reflexivity. Qed.

Lemma rewritten_trans (p : PromptRow) (a b c : list PromptRow) :
  rewritten p a b -> rewritten p b c -> rewritten p a c.
Proof.
  intros [->|[r ->]] [->|[r' ->]]; try (left; reflexivity);
    try (right; eexists; reflexivity).
  right. exists r'. rewrite map_map. apply map_ext. intro x.
  destruct (Nat.eqb (p_id x) (p_id p)) eqn:E; cbn; rewrite E; reflexivity.
Qed.

Lemma write_frame (ev : sse_event) (w : world) :
  let w1 := snd (Res.write ev w) in
  untouched w w1 /\ prompts (db w1) = prompts (db w)
  /\ ended (res w1) = ended (res w)
  /\ written (res w1)
     = if ended (res w) then written (res w)
       else (written (res w) ++ [ev])%list.
Proof.
  unfold Res.write, modify, untouched. cbn.
  destruct (ended (res w)) eqn:E; cbn; rewrite ?E; repeat split.
Qed.

Lemma finalized_frame c p (full : string) (w : world) :
  let w1 := finalized c p full w in
  untouched w w1 /\ rewritten p (prompts (db w)) (prompts (db w1))
  /\ ended (res w1) = true
  /\ written (res w1)
     = if ended (res w) then written (res w)
       else (written (res w) ++ [EvEnd (c_id c) (p_id p) full])%list.
Proof.
  unfold finalized, Prompt.update, Res.write, Res.end_, modify, bind,
    untouched, rewritten. cbn.
  destruct (ended (res w)) eqn:E; cbn; rewrite ?E; repeat split; eauto.
Qed.

Lemma on_data_frame c p full chunk (w : world) :
  let w1 := snd (on_data Number_toString c p full chunk w) in
  untouched w w1 /\ rewritten p (prompts (db w)) (prompts (db w1)).
Proof.
  rewrite on_data_any.
  destruct (chunk_fields chunk) as [[r dn]|]; cbn [snd];
    [|split; [apply untouched_refl | apply rewritten_refl]].
  assert (H : let w1 := match carried chunk with
                        | Some v => snd (Res.write (EvChunk (c_id c) (p_id p) v) w)
                        | None => w
                        end in
              untouched w w1 /\ prompts (db w1) = prompts (db w)).
  { destruct (carried chunk) as [v|];
      [|split; [apply untouched_refl | reflexivity]].
    destruct (write_frame (EvChunk (c_id c) (p_id p) v) w) as (A & B & _).
    auto. }
  cbv zeta in *. destruct H as [U Pr].
  destruct (JSON.truthy dn).
  - match goal with
    | |- context [finalized c p ?f ?w0] =>
        destruct (finalized_frame c p f w0) as (A & B & _)
    end.
    split; [eapply untouched_trans; eassumption|]. rewrite Pr in B. exact B.
  - split; [exact U|]. rewrite Pr. apply rewritten_refl.
Qed.

Lemma deliver_events_frame c p (events : list stream_event) :
  forall full w,
  let w1 := deliver_events Number_toString c p full events w in
  untouched w w1 /\ rewritten p (prompts (db w)) (prompts (db w1)).
Proof.
  induction events as [|[chunk|e] events IH]; intros full w; cbn.
  - split; [apply untouched_refl | apply rewritten_refl].
  - pose proof (on_data_frame c p full chunk w) as K.
    destruct (on_data Number_toString c p full chunk w) as [[full'|e] w1];
      cbn in K.
    + destruct K as [K1 K2]. destruct (IH full' w1) as [I1 I2].
      split; [eapply untouched_trans | eapply rewritten_trans]; eassumption.
    + exact K.
  - split; [repeat split | apply rewritten_refl].
Qed.

(** Once the response is finished, the client receives nothing more. *)
Lemma deliver_after_end c p (events : list stream_event) :
  forall full w,
  ended (res w) = true ->
  let w1 := deliver_events Number_toString c p full events w in
  written (res w1) = written (res w) /\ ended (res w1) = true.
Proof.
  induction events as [|[chunk|e] events IH]; intros full w E; cbn.
  - auto.
  - rewrite on_data_any.
    destruct (chunk_fields chunk) as [[r dn]|]; [|cbn; auto].
    cbv zeta.
    set (w0 := match carried chunk with
               | Some v => snd (Res.write (EvChunk (c_id c) (p_id p) v) w)
               | None => w
               end).
    assert (H : written (res w0) = written (res w) /\ ended (res w0) = true).
    { subst w0. destruct (carried chunk) as [v|]; [|auto].
      destruct (write_frame (EvChunk (c_id c) (p_id p) v) w) as (_ & _ & A & B).
      rewrite E in *. auto. }
    destruct H as [H1 H2].
    destruct (JSON.truthy dn).
    + match goal with
      | |- context [finalized c p ?f w0] =>
          destruct (finalized_frame c p f w0) as (_ & _ & A & B);
          destruct (IH f (finalized c p f w0) A) as [I1 I2]
      end.
      rewrite H2 in B. split; [congruence | assumption].
    + destruct (IH (full ++ fragment_text Number_toString chunk) w0 H2)
        as [I1 I2].
      split; [congruence | assumption].
  - auto.
Qed.

(** What the client receives from a stream, whatever it sends. *)
Lemma deliver_shape c p (events : list stream_event) :
  forall full w,
  ended (res w) = false ->
  let w1 := deliver_events Number_toString c p full events w in
  exists n,
    let seen := firstn n (data_chunks events) in
    (written (res w1)
     = (written (res w) ++ chunk_events (c_id c) (p_id p) seen)%list
     /\ ended (res w1) = false)
    \/ (written (res w1)
        = (written (res w) ++ chunk_events (c_id c) (p_id p) seen
             ++ [EvEnd (c_id c) (p_id p)
                   (full ++ relay_text Number_toString seen)])%list
        /\ ended (res w1) = true).
Proof.
  induction events as [|[chunk|e] events IH]; intros full w E.
  - exists O. left. cbn. rewrite app_nil_r. auto.
  - cbn [deliver_events data_chunks].
    destruct (chunk_fields chunk) as [[r dn]|] eqn:H.
    + rewrite (on_data_run Number_toString c p full chunk r dn w H E).
      cbv zeta. destruct (JSON.truthy dn).
      * exists 1%nat. right.
        match goal with
        | |- context [finalized c p ?f ?w0] =>
            destruct (finalized_frame c p f w0) as (_ & _ & A & B);
            destruct (deliver_after_end c p events f (finalized c p f w0) A)
              as [I1 I2]
        end.
        cbv zeta in *. rewrite I1, B. cbn [push_written set_res res ended].
        rewrite E. cbn [written firstn relay_text].
        rewrite append_nil_r, <- app_assoc. auto.
      * match goal with
        | |- context [deliver_events _ c p ?f events ?w0] =>
            destruct (IH f w0) as [n [[I1 I2]|[I1 I2]]]; [exact E| |]
        end; exists (S n); [left | right]; cbv zeta in *;
          rewrite I1; cbn [push_written set_res res written firstn relay_text];
          change (chunk :: firstn n (data_chunks events))
            with ([chunk] ++ firstn n (data_chunks events))%list;
          rewrite chunk_events_app, <- ?app_assoc, ?append_assoc; auto.
    + rewrite on_data_any, H. exists O. left. cbn. rewrite app_nil_r. auto.
  - exists O. left. cbn. rewrite app_nil_r. auto.
Qed.


Lemma rewritten_fresh (l l' : list PromptRow) (p : PromptRow) :
  (fold_right Nat.max O (map p_id l) < p_id p)%nat ->
  rewritten p (l ++ [p]) l' ->
  exists r, l' = (l ++ [Prompt.with_response r p])%list.
Proof.
  intros F [->|[r ->]].
  - exists (p_response p). destruct p; reflexivity.
  - exists r. rewrite map_app. cbn. rewrite Nat.eqb_refl.
    rewrite fresh_id_unused by exact F. reflexivity.
Qed.

(** *** Streaming sessions *)

Lemma handleStreamingResponse_run d t uuids uj us conversation prompt model :
  handleStreamingResponse conversation prompt model (arrival d t uuids uj us)
  = (Return tt,
     match us (stream_request prompt model) with
     | Rejected _ =>
         stream_started d t uuids uj us conversation prompt model
           [EvError msg_stream_error] true
     | Resolved events =>
         set_subscribed
           (Some {| sub_conversation := conversation;
                    sub_prompt := streaming_row d t conversation prompt model
                                    EmptyString;
                    sub_events := events |})
           (stream_started d t uuids uj us conversation prompt model []
              false)
     end).
Proof.
  unfold handleStreamingResponse, processStreamingResponse, try_catch,
    bind, axios_post_stream, Prompt.create, Res.setHeader, Res.write,
    Res.end_, modify, get, ret.
  cbn -[JS.trim Prompt.fresh_id append].
  fold (stream_request prompt model).
  destruct (us (stream_request prompt model)) as [e|events]; reflexivity.
Qed.

Lemma serve_streaming d t uuids uj us conversation prompt model :
  serve Number_toString (handleStreamingResponse conversation prompt model)
    (arrival d t uuids uj us)
  = match us (stream_request prompt model) with
    | Rejected _ =>
        stream_started d t uuids uj us conversation prompt model
          [EvError msg_stream_error] true
    | Resolved events =>
        deliver_events Number_toString conversation
          (streaming_row d t conversation prompt model EmptyString)
          EmptyString events
          (stream_started d t uuids uj us conversation prompt model [] false)
    end.
Proof.
  unfold serve. rewrite handleStreamingResponse_run.
  destruct (us (stream_request prompt model)); reflexivity.
Qed.

Lemma serve_streaming_try d t uuids uj us conversation prompt model :
  serve Number_toString
    (try_catch (handleStreamingResponse conversation prompt model) next)
    (arrival d t uuids uj us)
  = serve Number_toString (handleStreamingResponse conversation prompt model)
      (arrival d t uuids uj us).
Proof.
  apply serve_congr. unfold try_catch. rewrite handleStreamingResponse_run.
  reflexivity.
Qed.

(** A streaming session from start to finish, whatever the upstream
    does. *)
Lemma streaming_any d t uuids uj us conversation prompt model :
  let w' := serve Number_toString
              (try_catch (handleStreamingResponse conversation prompt model)
                 next)
              (arrival d t uuids uj us) in
  let cid := c_id conversation in
  let pid := Prompt.fresh_id d in
  calls w' = [stream_request prompt model]
  /\ conversations (db w') = conversations d
  /\ sentiments (db w') = sentiments d
  /\ sent (res w') = None /\ statusCode (res w') = 200%nat
  /\ forwarded w' = None
  /\ (exists response,
        prompts (db w')
        = (prompts d
             ++ [streaming_row d t conversation prompt model response])%list)
  /\ match us (stream_request prompt model) with
     | Rejected _ =>
         written (res w')
         = [EvStart cid pid (JS.trim prompt); EvError msg_stream_error]
         /\ ended (res w') = true
         /\ prompts (db w')
            = (prompts d
                 ++ [streaming_row d t conversation prompt model
                       EmptyString])%list
         /\ uncaught w' = []
     | Resolved events =>
         exists n,
           let seen := firstn n (data_chunks events) in
           (written (res w')
            = (EvStart cid pid (JS.trim prompt)
                 :: chunk_events cid pid seen)%list
            /\ ended (res w') = false)
           \/ (written (res w')
               = (EvStart cid pid (JS.trim prompt)
                    :: chunk_events cid pid seen
                    ++ [EvEnd cid pid (relay_text Number_toString seen)])%list
               /\ ended (res w') = true)
     end.
Proof.
  intros w' cid pid. subst w'. rewrite serve_streaming_try, serve_streaming.
  destruct (us (stream_request prompt model)) as [e|events].
  - repeat split. exists EmptyString. reflexivity.
  - set (row := streaming_row d t conversation prompt model EmptyString).
    set (w0 := stream_started d t uuids uj us conversation prompt model []
                 false).
    destruct (deliver_events_frame conversation row events EmptyString w0)
      as ((A1 & A2 & A3 & A4 & A5 & A6) & B).
    destruct (deliver_shape conversation row events EmptyString w0 eq_refl)
      as [n S].
    repeat split; try assumption.
    + apply (rewritten_fresh (prompts d) _ row) in B;
        [|cbn; unfold Prompt.fresh_id; lia].
      destruct B as [r B]. exists r. exact B.
    + exists n. exact S.
Qed.


(** *** Prompt requests *)

Lemma resolved_sentiments d t uuids cid :
  sentiments (snd (resolved d t uuids cid)) = sentiments d.
Proof.
  unfold resolved. destruct (if given cid then cid else None); [|reflexivity].
  destruct (find _ _); reflexivity.
Qed.

(** The conversations once the identifier is resolved: as they were, or
    one more whose key was not stored. *)
Lemma resolved_conversations d t uuids cid :
  identifier_accepted validateUUID d uuids cid = true ->
  let c := fst (resolved d t uuids cid) in
  let d1 := snd (resolved d t uuids cid) in
  find (fun x => String.eqb (c_id x) (c_id c)) (conversations d1) = Some c
  /\ (conversations d1 = conversations d
      \/ (conversations d1 = (conversations d ++ [c])%list
          /\ known d (c_id c) = false)).
Proof.
  unfold identifier_accepted, resolved.
  destruct (given cid) eqn:G.
  - destruct cid as [id|]; [|discriminate]. intros _.
    destruct (find (fun c => String.eqb (c_id c) id) (conversations d))
      as [c|] eqn:F; cbn [fst snd].
    + pose proof (find_some _ _ F) as [_ K]. apply String.eqb_eq in K.
      rewrite K. auto.
    + cbn [conversations c_id].
      split; [apply (find_last _ {| c_id := id; c_createdAt := t |}), F|].
      right. split; [reflexivity|]. unfold known.
      destruct (existsb _ _) eqn:X; [|reflexivity].
      apply existsb_exists in X as (x & I & X).
      apply (find_none _ _ F) in I. cbn in I. congruence.
  - intro K. apply negb_true_iff in K. cbn [fst snd conversations c_id].
    split; [|auto].
    apply (find_last _ {| c_id := uuids (seed d); c_createdAt := t |}),
      find_unknown, K.
Qed.

Lemma handleNormalResponse_sentiments conversation prompt model :
  preserves (fun w => sentiments (db w))
    (handleNormalResponse conversation prompt model).
Proof.
  unfold handleNormalResponse, generateResponse, axios_post_json, Res.status,
    Res.json.
  keeps.
Qed.

(** A request that is accepted, from start to finish, in either mode. *)
Lemma accepted_request d t uuids uj us (body : prompt_body) (prompt : string) :
  b_prompt body = Some prompt ->
  JS.is_empty (JS.trim prompt) = false ->
  identifier_accepted validateUUID d uuids (b_conversationId body) = true ->
  let w' := serve Number_toString
              (registerPrompt validateUUID DEFAULT_OLLAMA_MODEL body)
              (arrival d t uuids uj us) in
  let conversation := fst (resolved d t uuids (b_conversationId body)) in
  let model := model_of DEFAULT_OLLAMA_MODEL body in
  calls w' = [upstream_request DEFAULT_OLLAMA_MODEL body prompt]
  /\ conversations (db w')
     = conversations (snd (resolved d t uuids (b_conversationId body)))
  /\ sentiments (db w') = sentiments d
  /\ forwarded w' = None
  /\ exists response,
       prompts (db w')
       = (prompts d
            ++ [request_row DEFAULT_OLLAMA_MODEL d t uuids body prompt
                  response])%list
       /\ (b_stream body = false ->
           response = generated (uj (normal_request prompt model))
           /\ statusCode (res w') = 201%nat
           /\ sent (res w')
              = Some (BPrompt (c_id conversation) (Prompt.fresh_id d)
                        (JS.trim prompt) response msg_registered)).
Proof.
  intros P N A w' conversation model. subst w'.
  rewrite (serve_congr _ _ _ _ _
             (registerPrompt_proceeds validateUUID DEFAULT_OLLAMA_MODEL
                d t uuids uj us body prompt P N A)).
  unfold request_row, upstream_request. fold conversation model.
  pose proof (resolved_prompts d t uuids (b_conversationId body)) as RP.
  pose proof (resolved_sentiments d t uuids (b_conversationId body)) as RS.
  set (d1 := snd (resolved d t uuids (b_conversationId body))) in *.
  pose proof (fresh_id_prompts d1 d RP) as RF.
  destruct (b_stream body) eqn:St.
  - destruct (streaming_any d1 t uuids uj us conversation prompt model)
      as (C & Cv & Se & _ & _ & Fw & (r & Pr) & _).
    repeat split; try assumption; try congruence.
    exists r. split; [|discriminate].
    rewrite Pr. unfold streaming_row. rewrite RP, RF. reflexivity.
  - destruct (handleNormalResponse_run conversation prompt model
                (arrival d1 t uuids uj us))
      as (R & S1 & S2 & Pr & Cv & C & Fw & _ & Sub).
    unfold serve, try_catch.
    pose proof (handleNormalResponse_sentiments conversation prompt model
                  (arrival d1 t uuids uj us)) as Se.
    destruct (handleNormalResponse conversation prompt model
                (arrival d1 t uuids uj us)) as [o w1].
    cbn [fst snd] in *. subst o. rewrite Sub. cbn [subscribed arrival].
    cbn [ollama_json arrival db now calls forwarded] in *.
    unfold normal_row in Pr. rewrite RF, RP in *.
    repeat split; try assumption; try congruence.
    exists (generated (uj (normal_request prompt model))). auto.
Qed.


(** A request that is not accepted touches no table and calls nobody. *)
Lemma refused_request d t uuids uj us (body : prompt_body) :
  (forall prompt, b_prompt body = Some prompt ->
     JS.is_empty (JS.trim prompt) = false ->
     identifier_accepted validateUUID d uuids (b_conversationId body)
     = false) ->
  let w' := serve Number_toString
              (registerPrompt validateUUID DEFAULT_OLLAMA_MODEL body)
              (arrival d t uuids uj us) in
  conversations (db w') = conversations d
  /\ prompts (db w') = prompts d
  /\ sentiments (db w') = sentiments d
  /\ calls w' = [] /\ written (res w') = [].
Proof.
  intro H. destruct body as [cid [p|] m st]; [|cbn; auto].
  cbn [b_prompt b_conversationId] in H. specialize (H p eq_refl).
  unfold serve, registerPrompt, try_catch. cbn [b_prompt].
  destruct (JS.is_empty (JS.trim p)); [cbn; auto|].
  specialize (H eq_refl). unfold identifier_accepted in H.
  cbn [b_conversationId].
  assert (K : known d (uuids (seed d)) = true ->
              exists c, find (fun c => String.eqb (c_id c) (uuids (seed d)))
                          (conversations d) = Some c).
  { intro K. destruct (find _ _) eqn:F; [eauto|].
    unfold known in K. apply existsb_exists in K as (x & I & X).
    apply (find_none _ _ F) in I. cbn in I. congruence. }
  destruct cid as [id|]; cbn [given] in H.
  - destruct (JS.is_empty id); cbn [negb] in *.
    + apply negb_false_iff in H. destruct (K H) as [c F].
      unfold bind, Conversation.create, Conversation.insert,
        Conversation.findByPk, draw_uuid, get, modify, ret, raise, next.
      cbn. rewrite F. cbn. auto.
    + rewrite H. cbn. auto.
  - apply negb_false_iff in H. destruct (K H) as [c F].
    unfold bind, Conversation.create, Conversation.insert,
      Conversation.findByPk, draw_uuid, get, modify, ret, raise, next.
    cbn. rewrite F. cbn. auto.
Qed.

Lemma fresh_id_new (l : list PromptRow) :
  ~ In (S (fold_right Nat.max O (map p_id l))) (map p_id l).
Proof.
  assert (H : forall n, In n (map p_id l) ->
                (n <= fold_right Nat.max O (map p_id l))%nat).
  { induction l as [|x l IH]; cbn; [tauto|]. intros n [<-|I]; [lia|].
    specialize (IH n I). lia. }
  intro I. apply H in I. lia.
Qed.

Lemma unknown_key (d : database) (id : string) :
  known d id = false -> ~ In id (conversation_keys d).
Proof.
  unfold known, conversation_keys. intros K I.
  apply in_map_iff in I as (c & <- & I).
  assert (X : existsb (fun x => String.eqb (c_id x) (c_id c))
                (conversations d) = true).
  { apply existsb_exists. exists c. split; [exact I | apply String.eqb_refl]. }
  congruence.
Qed.

Lemma NoDup_snoc {A : Type} (l : list A) (x : A) :
  NoDup l -> ~ In x l -> NoDup (l ++ [x]).
Proof.
  intros N I. apply NoDup_rev in N. rewrite <- (rev_involutive (l ++ [x])).
  apply NoDup_rev. rewrite rev_app_distr. cbn. constructor; [|exact N].
  rewrite <- in_rev. exact I.
Qed.


(** X4: a prompt request with a non-blank prompt and an accepted
    identifier, streaming or not and whatever the upstream does, makes
    exactly one upstream call, carrying the prompt as it was received
    (not trimmed), the model of the request or the default one, and the
    stream flag of the request; it adds exactly one Prompt, with the
    trimmed prompt, that model and flag, the conversation the request
    resolved to and the time of the request; the sentiment analyses are
    as they were and no error is forwarded. *)
Theorem accepted_request_recorded_once d t uuids uj us (body : prompt_body)
    (prompt : string) :
  b_prompt body = Some prompt ->
  JS.is_empty (JS.trim prompt) = false ->
  identifier_accepted validateUUID d uuids (b_conversationId body) = true ->
  let w' := serve Number_toString
              (registerPrompt validateUUID DEFAULT_OLLAMA_MODEL body)
              (arrival d t uuids uj us) in
  calls w' = [upstream_request DEFAULT_OLLAMA_MODEL body prompt]
  /\ (exists response,
        prompts (db w')
        = (prompts d
             ++ [request_row DEFAULT_OLLAMA_MODEL d t uuids body prompt
                   response])%list)
  /\ sentiments (db w') = sentiments d
  /\ forwarded w' = None.
Proof.
  intros P N A w'.
  destruct (accepted_request d t uuids uj us body prompt P N A)
    as (C & _ & Se & Fw & r & Pr & _).
  repeat split; try assumption. exists r. exact Pr.
Qed.

(** X5: whatever the request body and the upstream, a prompt request
    keeps the keys of the conversations distinct and the keys of the
    prompts distinct; each of the two tables keeps its rows and gains at
    most one, a Prompt that is added has a prompt text that is not
    empty, and the sentiment analyses are as they were. *)
Theorem store_keys_stay_unique d t uuids uj us (body : prompt_body) :
  let w' := serve Number_toString
              (registerPrompt validateUUID DEFAULT_OLLAMA_MODEL body)
              (arrival d t uuids uj us) in
  (NoDup (conversation_keys d) -> NoDup (conversation_keys (db w')))
  /\ (NoDup (map p_id (prompts d)) -> NoDup (map p_id (prompts (db w'))))
  /\ (exists new, conversations (db w') = (conversations d ++ new)%list
                  /\ (List.length new <= 1)%nat)
  /\ (exists new, prompts (db w') = (prompts d ++ new)%list
                  /\ (List.length new <= 1)%nat
                  /\ Forall (fun p => JS.is_empty (p_prompt p) = false) new)
  /\ sentiments (db w') = sentiments d.
Proof.
  intro w'.
  assert (H : (exists prompt, b_prompt body = Some prompt
                 /\ JS.is_empty (JS.trim prompt) = false
                 /\ identifier_accepted validateUUID d uuids
                      (b_conversationId body) = true)
              \/ (forall prompt, b_prompt body = Some prompt ->
                    JS.is_empty (JS.trim prompt) = false ->
                    identifier_accepted validateUUID d uuids
                      (b_conversationId body) = false)).
  { destruct (b_prompt body) as [p|]; [|right; discriminate].
    destruct (JS.is_empty (JS.trim p)) eqn:N;
      [right; intros ? [= <-]; congruence|].
    destruct (identifier_accepted validateUUID d uuids (b_conversationId body))
      eqn:A; [left; eauto | right; auto]. }
  destruct H as [(prompt & P & N & A)|H].
  - destruct (accepted_request d t uuids uj us body prompt P N A)
      as (_ & Cv & Se & _ & r & Pr & _).
    fold w' in Cv, Se, Pr.
    destruct (resolved_conversations d t uuids (b_conversationId body) A)
      as [_ R].
    unfold conversation_keys. rewrite Cv, Pr, Se.
    split; [|split; [|split; [|split]]].
    + destruct R as [-> | [-> K]]; [auto|]. intro ND.
      rewrite map_app. apply NoDup_snoc; [exact ND|].
      apply unknown_key, K.
    + intro ND. rewrite map_app. apply NoDup_snoc; [exact ND|].
      apply fresh_id_new.
    + destruct R as [-> | [-> K]];
        [exists []; rewrite app_nil_r; auto | eexists; split; [reflexivity|]];
        cbn; lia.
    + eexists. split; [reflexivity|]. split; [cbn; lia|].
      constructor; [exact N | constructor].
    + reflexivity.
  - destruct (refused_request d t uuids uj us body H) as (Cv & Pr & Se & _).
    fold w' in Cv, Pr, Se. unfold conversation_keys. rewrite Cv, Pr, Se.
    repeat split; auto; exists []; rewrite app_nil_r; auto.
Qed.

Lemma supplied_accepted d uuids (id : string) :
  JS.is_empty id = false -> validateUUID id = true ->
  identifier_accepted validateUUID d uuids (Some id) = true.
Proof. intros E V. unfold identifier_accepted. cbn. rewrite E. exact V. Qed.

Lemma resolved_key d t uuids (id : string) :
  JS.is_empty id = false ->
  c_id (fst (resolved d t uuids (Some id))) = id.
Proof.
  intro E. unfold resolved. cbn. rewrite E. cbn.
  destruct (find (fun c => String.eqb (c_id c) id) (conversations d))
    as [c|] eqn:F; [|reflexivity].
  apply find_some in F as [_ F]. apply String.eqb_eq in F. exact F.
Qed.

(** X6: two prompt requests, one after the other, that supply the same
    well-formed identifier not stored before: the first creates the
    conversation, the second reuses it.  Afterwards there is exactly one
    conversation of that identifier, created at the time of the first
    request, and the two new prompts, with distinct keys, belong to it in
    the order of the requests. *)
Theorem same_identifier_reuses_conversation d t1 uuids1 uj1 us1 t2 uuids2
    uj2 us2 (body1 body2 : prompt_body) (id prompt1 prompt2 : string) :
  b_conversationId body1 = Some id ->
  b_conversationId body2 = Some id ->
  JS.is_empty id = false ->
  validateUUID id = true ->
  known d id = false ->
  b_prompt body1 = Some prompt1 ->
  JS.is_empty (JS.trim prompt1) = false ->
  b_prompt body2 = Some prompt2 ->
  JS.is_empty (JS.trim prompt2) = false ->
  let w1 := serve Number_toString
              (registerPrompt validateUUID DEFAULT_OLLAMA_MODEL body1)
              (arrival d t1 uuids1 uj1 us1) in
  let w2 := serve Number_toString
              (registerPrompt validateUUID DEFAULT_OLLAMA_MODEL body2)
              (arrival (db w1) t2 uuids2 uj2 us2) in
  conversations (db w2)
  = (conversations d ++ [{| c_id := id; c_createdAt := t1 |}])%list
  /\ count_conversations (db w2) id = 1%nat
  /\ exists p1 p2,
       prompts (db w2) = (prompts d ++ [p1; p2])%list
       /\ p_ConversationId p1 = id /\ p_ConversationId p2 = id
       /\ p_prompt p1 = JS.trim prompt1 /\ p_prompt p2 = JS.trim prompt2
       /\ p_createdAt p1 = t1 /\ p_createdAt p2 = t2
       /\ p_id p1 <> p_id p2.
Proof.
  intros C1 C2 E V K P1 N1 P2 N2 w1 w2.
  pose proof (supplied_accepted d uuids1 id E V) as A1. rewrite <- C1 in A1.
  destruct (accepted_request d t1 uuids1 uj1 us1 body1 prompt1 P1 N1 A1)
    as (_ & Cv1 & _ & _ & r1 & Pr1 & _).
  fold w1 in Cv1, Pr1.
  destruct (resolved_conversations d t1 uuids1 (b_conversationId body1) A1)
    as [F1 _].
  rewrite <- Cv1 in F1.
  assert (R1 : resolved d t1 uuids1 (b_conversationId body1)
               = ({| c_id := id; c_createdAt := t1 |},
                  {| conversations :=
                       (conversations d
                          ++ [{| c_id := id; c_createdAt := t1 |}])%list;
                     prompts := prompts d; sentiments := sentiments d;
                     seed := seed d |})).
  { unfold resolved. rewrite C1. cbn. rewrite E. cbn.
    rewrite (find_unknown _ _ K). reflexivity. }
  rewrite R1 in Cv1, F1. cbn [fst snd conversations c_id] in Cv1, F1.
  pose proof (supplied_accepted (db w1) uuids2 id E V) as A2.
  rewrite <- C2 in A2.
  destruct (accepted_request (db w1) t2 uuids2 uj2 us2 body2 prompt2 P2 N2 A2)
    as (_ & Cv2 & _ & _ & r2 & Pr2 & _).
  fold w2 in Cv2, Pr2.
  assert (R2 : resolved (db w1) t2 uuids2 (b_conversationId body2)
               = ({| c_id := id; c_createdAt := t1 |}, db w1)).
  { unfold resolved. rewrite C2. cbn. rewrite E. cbn. rewrite F1.
    reflexivity. }
  rewrite R2 in Cv2. cbn [snd] in Cv2.
  assert (W : conversations (db w2)
              = (conversations d ++ [{| c_id := id; c_createdAt := t1 |}])%list)
    by congruence.
  split; [exact W|]. split.
  - unfold count_conversations. rewrite W, filter_app, length_app.
    fold (count_conversations d id). rewrite (count_unknown _ _ K).
    cbn. rewrite String.eqb_refl. reflexivity.
  - exists (request_row DEFAULT_OLLAMA_MODEL d t1 uuids1 body1 prompt1 r1),
      (request_row DEFAULT_OLLAMA_MODEL (db w1) t2 uuids2 body2 prompt2 r2).
    split; [rewrite Pr2, Pr1, <- app_assoc; reflexivity|].
    unfold request_row. cbn [p_ConversationId p_prompt p_createdAt p_id].
    rewrite R1, R2. cbn [fst c_id].
    repeat split.
    unfold Prompt.fresh_id at 2. rewrite Pr1, map_app, fold_right_app.
    cbn [map fold_right]. unfold request_row. cbn [p_id].
    unfold Prompt.fresh_id.
    assert (M : forall l a, (a <= fold_right Nat.max a l)%nat).
    { induction l as [|x l IH]; intro a; cbn; [lia|].
      specialize (IH a). lia. }
    match goal with
    | |- S ?a <> S (fold_right Nat.max ?b ?l) =>
        pose proof (M l b)
    end.
    lia.
Qed.


Lemma stored_prompts_snoc (l : list PromptRow) (row : PromptRow)
    (id : string) :
  p_ConversationId row = id ->
  map Conversation.view
    (filter (fun p => String.eqb (p_ConversationId p) id) (l ++ [row]))
  = (map Conversation.view
       (filter (fun p => String.eqb (p_ConversationId p) id) l)
     ++ [Conversation.view row])%list.
Proof.
  intro H. rewrite filter_app, map_app. cbn [filter].
  rewrite H, String.eqb_refl. reflexivity.
Qed.

(** X7: what a prompt request stores, a retrieval returns.  After a
    request with a non-blank prompt and a well-formed identifier, the
    retrieval of that identifier answers 200 with the conversation of
    that identifier and, in ascending order of creation, the prompts the
    conversation had together with the new one: its key, the trimmed
    prompt, its response and the time of the request.  Without streaming
    that response is the one the request was answered with.  The
    retrieval leaves the store as it was. *)
Theorem stored_prompt_is_retrieved d t uuids uj us (body : prompt_body)
    (id prompt : string) :
  b_conversationId body = Some id ->
  JS.is_empty id = false ->
  validateUUID id = true ->
  b_prompt body = Some prompt ->
  JS.is_empty (JS.trim prompt) = false ->
  let w' := serve Number_toString
              (registerPrompt validateUUID DEFAULT_OLLAMA_MODEL body)
              (arrival d t uuids uj us) in
  exists response,
    (b_stream body = false ->
     response = generated (uj (normal_request prompt
                                 (model_of DEFAULT_OLLAMA_MODEL body)))
     /\ sent (res w')
        = Some (BPrompt id (Prompt.fresh_id d) (JS.trim prompt) response
                  msg_registered))
    /\ forall t2 uuids2 uj2 us2,
         let w2 := serve Number_toString (getConversation validateUUID id)
                     (arrival (db w') t2 uuids2 uj2 us2) in
         statusCode (res w2) = 200%nat
         /\ db w2 = db w'
         /\ exists c ps,
              sent (res w2) = Some (BConversation c ps)
              /\ c_id c = id
              /\ ascending ps
              /\ Permutation ps
                   ({| v_id := Prompt.fresh_id d; v_prompt := JS.trim prompt;
                       v_response := response; v_createdAt := t |}
                    :: Conversation.stored_prompts d id).
Proof.
  intros C E V P N w'.
  pose proof (supplied_accepted d uuids id E V) as A. rewrite <- C in A.
  destruct (accepted_request d t uuids uj us body prompt P N A)
    as (_ & Cv & _ & _ & r & Pr & Nm).
  fold w' in Cv, Pr, Nm.
  destruct (resolved_conversations d t uuids (b_conversationId body) A)
    as [F _].
  rewrite <- Cv in F. rewrite C in F, Nm.
  rewrite (resolved_key d t uuids id E) in F, Nm.
  exists r. split.
  - intro St. destruct (Nm St) as (R & _ & S). auto.
  - intros t2 uuids2 uj2 us2 w2.
    destruct (getConversation_run validateUUID Number_toString (db w') t2
                uuids2 uj2 us2 id _ V F) as (S1 & S2 & D).
    fold w2 in S1, S2, D. split; [exact S1|]. split; [exact D|].
    eexists. eexists. split; [exact S2|].
    split; [apply (resolved_key d t uuids id E)|].
    split; [apply order_ascending|].
    eapply perm_trans; [apply order_perm|].
    unfold Conversation.stored_prompts. rewrite Pr.
    rewrite stored_prompts_snoc
      by (unfold request_row; cbn [p_ConversationId];
          rewrite C; apply (resolved_key d t uuids id E)).
    apply Permutation_sym, Permutation_cons_append.
Qed.

Lemma accepted_streaming d t uuids uj us (body : prompt_body)
    (prompt : string) :
  b_stream body = true ->
  b_prompt body = Some prompt ->
  JS.is_empty (JS.trim prompt) = false ->
  identifier_accepted validateUUID d uuids (b_conversationId body) = true ->
  serve Number_toString
    (registerPrompt validateUUID DEFAULT_OLLAMA_MODEL body)
    (arrival d t uuids uj us)
  = serve Number_toString
      (try_catch
         (handleStreamingResponse
            (fst (resolved d t uuids (b_conversationId body))) prompt
            (model_of DEFAULT_OLLAMA_MODEL body))
         next)
      (arrival (snd (resolved d t uuids (b_conversationId body))) t uuids
         uj us).
Proof.
  intros St P N A.
  rewrite (serve_congr _ _ _ _ _
             (registerPrompt_proceeds validateUUID DEFAULT_OLLAMA_MODEL
                d t uuids uj us body prompt P N A)).
  rewrite St. reflexivity.
Qed.

(** X8: in a streaming session whose connection was made, whatever the
    upstream then sends in chunks that the model reads as the code does
    (escapes within the alphabet, [response] and [done] no numbers):
    chunks that do not parse, errors, chunks after the completion.  The
    status stays 200, no JSON body is sent, and the client receives the
    start event, then one chunk event for each fragment of some initial
    run of the chunks, in order, and then either nothing, the response
    being left open, or exactly one end event, which carries the
    concatenation of those fragments, the response being finished.  In
    particular no error event is sent and nothing follows the end
    event. *)
Theorem stream_output_well_formed d t uuids uj us (body : prompt_body)
    (prompt : string) (events : list stream_event) :
  b_stream body = true ->
  b_prompt body = Some prompt ->
  JS.is_empty (JS.trim prompt) = false ->
  identifier_accepted validateUUID d uuids (b_conversationId body) = true ->
  us (stream_request prompt (model_of DEFAULT_OLLAMA_MODEL body))
  = Resolved events ->
  forallb plain_chunk (data_chunks events) = true ->
  let w' := serve Number_toString
              (registerPrompt validateUUID DEFAULT_OLLAMA_MODEL body)
              (arrival d t uuids uj us) in
  let cid := c_id (fst (resolved d t uuids (b_conversationId body))) in
  let pid := Prompt.fresh_id d in
  statusCode (res w') = 200%nat /\ sent (res w') = None
  /\ exists n,
       let seen := firstn n (data_chunks events) in
       (written (res w')
        = (EvStart cid pid (JS.trim prompt) :: chunk_events cid pid seen)%list
        /\ ended (res w') = false)
       \/ (written (res w')
           = (EvStart cid pid (JS.trim prompt) :: chunk_events cid pid seen
                ++ [EvEnd cid pid (relay_text Number_toString seen)])%list
           /\ ended (res w') = true).
Proof.
  intros St P N A U _ w' cid pid. subst w' pid.
  rewrite (accepted_streaming d t uuids uj us body prompt St P N A).
  rewrite <- (fresh_id_prompts _ d
                (resolved_prompts d t uuids (b_conversationId body))).
  destruct (streaming_any (snd (resolved d t uuids (b_conversationId body)))
              t uuids uj us
              (fst (resolved d t uuids (b_conversationId body))) prompt
              (model_of DEFAULT_OLLAMA_MODEL body))
    as (_ & _ & _ & S1 & S2 & _ & _ & W).
  rewrite U in W. auto.
Qed.

(** X9: a streaming prompt request whose connection to the upstream
    fails is answered on the stream: the status stays 200, the client
    receives the start event and one error event with the fixed message,
    the response is finished, the Prompt is stored with an empty
    response, and nothing is forwarded or left uncaught. *)
Theorem streaming_outage_reported_in_band d t uuids uj us
    (body : prompt_body) (prompt e : string) :
  b_stream body = true ->
  b_prompt body = Some prompt ->
  JS.is_empty (JS.trim prompt) = false ->
  identifier_accepted validateUUID d uuids (b_conversationId body) = true ->
  us (stream_request prompt (model_of DEFAULT_OLLAMA_MODEL body))
  = Rejected e ->
  let w' := serve Number_toString
              (registerPrompt validateUUID DEFAULT_OLLAMA_MODEL body)
              (arrival d t uuids uj us) in
  let cid := c_id (fst (resolved d t uuids (b_conversationId body))) in
  statusCode (res w') = 200%nat /\ sent (res w') = None
  /\ written (res w')
     = [EvStart cid (Prompt.fresh_id d) (JS.trim prompt);
        EvError msg_stream_error]
  /\ ended (res w') = true
  /\ prompts (db w')
     = (prompts d
          ++ [request_row DEFAULT_OLLAMA_MODEL d t uuids body prompt
                EmptyString])%list
  /\ forwarded w' = None /\ uncaught w' = [].
Proof.
  intros St P N A U w' cid. subst w'.
  rewrite (accepted_streaming d t uuids uj us body prompt St P N A).
  pose proof (resolved_prompts d t uuids (b_conversationId body)) as RP.
  unfold request_row. rewrite St.
  rewrite <- (fresh_id_prompts _ d RP), <- RP.
  destruct (streaming_any (snd (resolved d t uuids (b_conversationId body)))
              t uuids uj us
              (fst (resolved d t uuids (b_conversationId body))) prompt
              (model_of DEFAULT_OLLAMA_MODEL body))
    as (_ & _ & _ & S1 & S2 & Fw & _ & W).
  rewrite U in W. destruct W as (W1 & W2 & W3 & W4). auto 10.
Qed.

(** X10: a retrieval never changes the store, calls the upstream, writes
    an event or forwards an error, and is answered in one of three ways:
    400 when the identifier is malformed, whether or not it is stored;
    404 when it is well formed and not stored; 200 with the conversation
    of that identifier when it is well formed and stored. *)
Theorem retrieval_reads_only d t uuids uj us (id : string) :
  let w' := serve Number_toString (getConversation validateUUID id)
              (arrival d t uuids uj us) in
  db w' = d /\ calls w' = [] /\ written (res w') = []
  /\ forwarded w' = None /\ uncaught w' = []
  /\ ((validateUUID id = false
       /\ statusCode (res w') = 400%nat
       /\ sent (res w') = Some (BMessage msg_invalid_id))
      \/ (validateUUID id = true /\ known d id = false
          /\ statusCode (res w') = 404%nat
          /\ sent (res w') = Some (BMessage msg_not_found))
      \/ (validateUUID id = true /\ known d id = true
          /\ statusCode (res w') = 200%nat
          /\ exists c ps, sent (res w') = Some (BConversation c ps)
                          /\ c_id c = id)).
Proof.
  unfold serve, getConversation, try_catch, bind, Conversation.findByPk_include,
    Conversation.findByPk, get, ret, Res.json, Res.status, modify.
  destruct (validateUUID id) eqn:V; [|cbn; auto 10].
  cbn -[known].
  destruct (find (fun c => String.eqb (c_id c) id) (conversations d))
    as [c|] eqn:F; cbn -[known]; rewrite ?F; cbn -[known].
  - repeat split. right. right.
    pose proof (find_some _ _ F) as [I K]. apply String.eqb_eq in K.
    repeat split; eauto.
    unfold known. apply existsb_exists. exists c. split; [exact I|].
    rewrite K. apply String.eqb_refl.
  - repeat split. right. left. repeat split.
    unfold known. destruct (existsb _ _) eqn:X; [|reflexivity].
    apply existsb_exists in X as (x & I & X).
    apply (find_none _ _ F) in I. cbn in I. congruence.
Qed.

(** *** Sentiment analyses *)

Lemma parse_analysis_range (response : string) (score : Q)
    (sentiment : JSON.value) :
  parse_analysis response = Some (score, sentiment) ->
  (0 <= score)%Q /\ (score <= 10)%Q.
Proof.
  unfold parse_analysis.
  destruct (JSON.parse (strip_fences response)) as [v|]; [|discriminate].
  destruct (member v "score") as [[[| |raw| | |]|]|]; try discriminate.
  destruct (member v "sentiment") as [[s|]|]; try discriminate.
  destruct (JSON.truthy (Some s)); [|discriminate].
  intros [= <- _]. apply clamp_range.
Qed.

(** The tables after a sentiment analysis, whatever the request and the
    upstream. *)
Lemma analyzeSentiment_tables d t uuids uj us (text : option string) :
  let w' := serve Number_toString
              (analyzeSentiment DEFAULT_OLLAMA_MODEL text)
              (arrival d t uuids uj us) in
  conversations (db w') = conversations d
  /\ prompts (db w') = prompts d
  /\ (sentiments (db w') = sentiments d
      \/ exists row,
           sentiments (db w') = (sentiments d ++ [row])%list
           /\ (0 <= s_score row)%Q /\ (s_score row <= 10)%Q
           /\ existsb (fun s => String.eqb (s_id s) (s_id row)) (sentiments d)
              = false
           /\ Some (s_text row) = text
           /\ JS.is_empty (JS.trim (s_text row)) = false
           /\ statusCode (res w') = 201%nat).
Proof.
  unfold serve, analyzeSentiment, try_catch, bind.
  destruct text as [text|]; [|cbn; auto].
  destruct (JS.is_empty text || JS.is_empty (JS.trim text))%bool eqn:B;
    [cbn; auto|].
  apply orb_false_iff in B as [_ B].
  rewrite generateResponse_run. cbn [ollama_json arrival set_calls].
  destruct (parse_analysis _) as [[score sentiment]|] eqn:A; [|cbn; auto].
  apply parse_analysis_range in A.
  unfold SentimentAnalysis.create, draw_uuid, bind, get, modify, ret,
    Res.status, Res.json, raise, next.
  cbn -[sentiment_prompt generated SentimentAnalysis.string_column].
  destruct (SentimentAnalysis.string_column sentiment);
    cbn -[sentiment_prompt generated]; [|auto].
  destruct (existsb (fun s => String.eqb (s_id s) (uuids (seed d)))
              (sentiments d)) eqn:U;
    cbn -[sentiment_prompt generated]; [auto|].
  split; [reflexivity|]. split; [reflexivity|]. right.
  eexists. split; [reflexivity|]. cbn [s_score s_id s_text].
  destruct A. auto 10.
Qed.

(** X11: whatever the request and the upstream, a sentiment analysis
    keeps every stored score in [0,10] and the keys of the analyses
    distinct; the table keeps its rows and gains at most one, which holds
    the text of the request, a text that is not blank, as the
    [notEmpty] validation of the model requires; conversations and
    prompts are as they were. *)
Theorem sentiment_store_stays_valid d t uuids uj us (text : option string) :
  let w' := serve Number_toString
              (analyzeSentiment DEFAULT_OLLAMA_MODEL text)
              (arrival d t uuids uj us) in
  (scores_in_range d -> scores_in_range (db w'))
  /\ (NoDup (map s_id (sentiments d))
      -> NoDup (map s_id (sentiments (db w'))))
  /\ (exists new, sentiments (db w') = (sentiments d ++ new)%list
                  /\ (List.length new <= 1)%nat
                  /\ Forall (fun row => Some (s_text row) = text
                                        /\ JS.is_empty (JS.trim (s_text row))
                                           = false) new)
  /\ conversations (db w') = conversations d
  /\ prompts (db w') = prompts d.
Proof.
  intro w'.
  destruct (analyzeSentiment_tables d t uuids uj us text)
    as (Cv & Pr & [Se | (row & Se & R1 & R2 & K & Tx & Nb & _)]);
    fold w' in Cv, Pr, Se; unfold scores_in_range; rewrite Se.
  - repeat split; auto. exists []. rewrite app_nil_r. auto.
  - split; [|split; [|split; [|split]]]; auto.
    + intro H. apply Forall_app. split; [exact H|]. constructor; auto.
    + intro ND. rewrite map_app. apply NoDup_snoc; [exact ND|].
      intro I. apply in_map_iff in I as (x & X & I).
      assert (Y : existsb (fun s => String.eqb (s_id s) (s_id row))
                    (sentiments d) = true).
      { apply existsb_exists. exists x. split; [exact I|].
        rewrite X. apply String.eqb_refl. }
      congruence.
    + exists [row]. repeat split; auto.
Qed.

(** X12: a sentiment analysis whose text is absent, empty or only white
    space is answered 400 with the fixed error; the store is as it was,
    the upstream is not called and nothing is forwarded. *)
Theorem sentiment_blank_text_rejected d t uuids uj us (text : option string) :
  blank text = true ->
  let w' := serve Number_toString
              (analyzeSentiment DEFAULT_OLLAMA_MODEL text)
              (arrival d t uuids uj us) in
  statusCode (res w') = 400%nat
  /\ sent (res w') = Some (BError msg_text_required None)
  /\ db w' = d /\ calls w' = [] /\ forwarded w' = None.
Proof.
  intro B. destruct text as [text|]; [|cbn; auto].
  cbn in B. unfold serve, analyzeSentiment, try_catch.
  rewrite (all_ws_trim _ B). cbn [JS.is_empty]. rewrite orb_true_r.
  cbn. auto.
Qed.

Lemma apology_unparsed : parse_analysis apology = None.
Proof. vm_compute. reflexivity. Qed.

(** X13: a sentiment analysis of a non-blank text is answered 500 with
    the fixed error and details, after one upstream call and with the
    store as it was, when the upstream call fails (the apology is no
    JSON), when the answer without its fences is no JSON text, its
    escapes lying within the alphabet, or when the parsed answer has no
    numeric [score] or no truthy [sentiment]. *)
Theorem sentiment_unusable_answer_is_500 d t uuids uj us (text : string) :
  let request := normal_request (sentiment_prompt text) DEFAULT_OLLAMA_MODEL in
  let answer := generated (uj request) in
  JS.is_empty (JS.trim text) = false ->
  (exists e, uj request = Rejected e)
  \/ (JSON.parse (strip_fences answer) = None
      /\ escapes_in_alphabet (strip_fences answer) = true)
  \/ (exists v, JSON.parse (strip_fences answer) = Some v
        /\ ((forall q, member v "score" <> Some (Some (JSON.Num q)))
            \/ (forall s, member v "sentiment" = Some (Some s) ->
                  JSON.truthy (Some s) = false))) ->
  let w' := serve Number_toString
              (analyzeSentiment DEFAULT_OLLAMA_MODEL (Some text))
              (arrival d t uuids uj us) in
  statusCode (res w') = 500%nat
  /\ sent (res w') = Some (BError msg_not_analysed (Some msg_bad_format))
  /\ db w' = d
  /\ calls w' = [request]
  /\ forwarded w' = None.
Proof.
  intros request answer N U.
  assert (A : parse_analysis answer = None).
  { destruct U as [[e U] | [[U _] | (v & U & [S | S])]].
    - subst answer. rewrite U. apply apology_unparsed.
    - unfold parse_analysis. rewrite U. reflexivity.
    - unfold parse_analysis. rewrite U.
      destruct (member v "score") as [[[| |q| | |]|]|]; try reflexivity.
      elim (S q). reflexivity.
    - unfold parse_analysis. rewrite U.
      destruct (member v "score") as [[[| |q| | |]|]|]; try reflexivity.
      destruct (member v "sentiment") as [[s|]|]; try reflexivity.
      rewrite (S s eq_refl). reflexivity. }
  unfold serve, analyzeSentiment, try_catch, bind.
  rewrite (trim_nonempty _ N), N. cbn [orb].
  rewrite generateResponse_run. cbn [ollama_json arrival set_calls].
  fold request. fold answer. rewrite A. cbn. auto.
Qed.

(** *** A stream that ends without signalling completion *)


End coverage.

(** ** The rest of the controller at concrete requests *)


Lemma only_default_model_listed_witness :
  member tags_data "models" = Some (Some (JSON.Arr tags_models))
  /\ Forall (fun v => v <> JSON.Null) tags_models
  /\ listOllamaModels "llama3" (TagsResolved tags_data)
     = ModelsJson 1
         [{| m_name := Some (JSON.Str "llama3"); m_modified_at := None;
             m_size := Some (JSON.Num 5); m_digest := None |}].
Proof.
  assert (N : Forall (fun v => v <> JSON.Null) tags_models)
    by (repeat constructor; discriminate).
  split; [reflexivity|]. split; [exact N|].
  pose proof (proj2 (only_default_model_listed "llama3"
                       (TagsResolved tags_data))
                tags_data tags_models eq_refl eq_refl N) as H.
  cbn in H. destruct H as (e & E & H). injection E as <-. exact H.
Defined.


Lemma stream_failure_escapes_witness :
  let w := arrival empty_db 0 drawn down
             (streams [Data chunk_Hi; Error "ECONNRESET"]) in
  ollama_stream w (stream_request "p" "m")
  = Resolved (map Data [chunk_Hi] ++ [Error "ECONNRESET"])%list
  /\ fst (generateResponse_stream integer_toString "p" "m" w)
     = Raise "ECONNRESET".
Proof.
  split; [reflexivity|].
  exact (proj1 (stream_failure_escapes integer_toString "p" "m"
                  (arrival empty_db 0 drawn down
                     (streams [Data chunk_Hi; Error "ECONNRESET"]))
                  [chunk_Hi] "ECONNRESET" [] eq_refl)).
Defined.



Lemma accepted_request_recorded_once_witness :
  b_prompt (body_hello (Some id_A) true) = Some " hello "
  /\ JS.is_empty (JS.trim " hello ") = false
  /\ identifier_accepted uuid_shape db_A drawn
       (b_conversationId (body_hello (Some id_A) true)) = true
  /\ (let w' := serve integer_toString
                  (registerPrompt uuid_shape "m" (body_hello (Some id_A) true))
                  (arrival db_A 0 drawn down (streams events_late)) in
      calls w' = [stream_request " hello " "m"]
      /\ List.length (prompts (db w')) = 1%nat).
Proof.
  do 3 (split; [reflexivity|]).
  destruct (accepted_request_recorded_once uuid_shape "m" integer_toString
              db_A 0 drawn down (streams events_late)
              (body_hello (Some id_A) true) " hello "
              eq_refl eq_refl eq_refl)
    as (C & (r & P) & _).
  split; [exact C|]. rewrite P. reflexivity.
Defined.

Lemma store_keys_stay_unique_witness :
  NoDup (conversation_keys db_A)
  /\ (let w' := serve integer_toString
                  (registerPrompt uuid_shape "m" (body_hello None false))
                  (arrival db_A 0 drawn (answers "Hi!") down) in
      NoDup (conversation_keys (db w'))).
Proof.
  assert (ND : NoDup (conversation_keys db_A)).
  { repeat constructor. intros []. }
  split; [exact ND|].
  exact (proj1 (store_keys_stay_unique uuid_shape "m" integer_toString
                  db_A 0 drawn (answers "Hi!") down (body_hello None false))
           ND).
Defined.

Lemma same_identifier_reuses_conversation_witness :
  b_conversationId (body_hello (Some id_A) false) = Some id_A
  /\ b_conversationId (body_hello (Some id_A) true) = Some id_A
  /\ JS.is_empty id_A = false
  /\ uuid_shape id_A = true
  /\ known empty_db id_A = false
  /\ b_prompt (body_hello (Some id_A) false) = Some " hello "
  /\ JS.is_empty (JS.trim " hello ") = false
  /\ b_prompt (body_hello (Some id_A) true) = Some " hello "
  /\ (let w1 := serve integer_toString
                  (registerPrompt uuid_shape "m"
                     (body_hello (Some id_A) false))
                  (arrival empty_db 10 drawn (answers "Hi!") down) in
      let w2 := serve integer_toString
                  (registerPrompt uuid_shape "m"
                     (body_hello (Some id_A) true))
                  (arrival (db w1) 20 drawn down (streams events_late)) in
      conversations (db w2) = [{| c_id := id_A; c_createdAt := 10 |}]
      /\ count_conversations (db w2) id_A = 1%nat).
Proof.
  do 8 (split; [reflexivity|]).
  destruct (same_identifier_reuses_conversation uuid_shape "m"
              integer_toString empty_db 10 drawn (answers "Hi!") down
              20 drawn down (streams events_late)
              (body_hello (Some id_A) false) (body_hello (Some id_A) true)
              id_A " hello " " hello "
              eq_refl eq_refl eq_refl eq_refl eq_refl eq_refl eq_refl eq_refl
              eq_refl)
    as (W & N & _).
  split; [exact W | exact N].
Defined.

Lemma stored_prompt_is_retrieved_witness :
  b_conversationId (body_hello (Some id_A) false) = Some id_A
  /\ JS.is_empty id_A = false
  /\ uuid_shape id_A = true
  /\ b_prompt (body_hello (Some id_A) false) = Some " hello "
  /\ JS.is_empty (JS.trim " hello ") = false
  /\ (let w' := serve integer_toString
                  (registerPrompt uuid_shape "m"
                     (body_hello (Some id_A) false))
                  (arrival db_A 10 drawn (answers "Hi!") down) in
      let w2 := serve integer_toString (getConversation uuid_shape id_A)
                  (arrival (db w') 20 drawn down down) in
      statusCode (res w2) = 200%nat
      /\ exists c ps,
           sent (res w2) = Some (BConversation c ps)
           /\ Permutation ps
                [{| v_id := 1; v_prompt := "hello"; v_response := "Hi!";
                    v_createdAt := 10 |}]).
Proof.
  do 5 (split; [reflexivity|]).
  destruct (stored_prompt_is_retrieved uuid_shape "m" integer_toString
              db_A 10 drawn (answers "Hi!") down
              (body_hello (Some id_A) false) id_A " hello "
              eq_refl eq_refl eq_refl eq_refl eq_refl)
    as (r & Nm & G).
  destruct (Nm eq_refl) as [-> _].
  destruct (G 20 drawn down down) as (S1 & _ & c & ps & S2 & _ & _ & P).
  split; [exact S1|]. exists c, ps. split; [exact S2 | exact P].
Defined.

Lemma stream_output_well_formed_witness :
  b_stream (body_hello (Some id_A) true) = true
  /\ b_prompt (body_hello (Some id_A) true) = Some " hello "
  /\ JS.is_empty (JS.trim " hello ") = false
  /\ identifier_accepted uuid_shape db_A drawn
       (b_conversationId (body_hello (Some id_A) true)) = true
  /\ streams events_late (stream_request " hello " "m") = Resolved events_late
  /\ forallb plain_chunk (data_chunks events_late) = true
  /\ (let w' := serve integer_toString
                  (registerPrompt uuid_shape "m" (body_hello (Some id_A) true))
                  (arrival db_A 0 drawn down (streams events_late)) in
      statusCode (res w') = 200%nat /\ sent (res w') = None
      /\ exists n,
           let seen := firstn n [chunk_Hi; chunk_done; chunk_there] in
           (written (res w')
            = (EvStart id_A 1 "hello" :: chunk_events id_A 1 seen)%list
            /\ ended (res w') = false)
           \/ (written (res w')
               = (EvStart id_A 1 "hello" :: chunk_events id_A 1 seen
                    ++ [EvEnd id_A 1 (relay_text integer_toString seen)])%list
               /\ ended (res w') = true)).
Proof.
  do 6 (split; [reflexivity|]).
  exact (stream_output_well_formed uuid_shape "m" integer_toString
           db_A 0 drawn down (streams events_late)
           (body_hello (Some id_A) true) " hello " events_late
           eq_refl eq_refl eq_refl eq_refl eq_refl eq_refl).
Defined.

Lemma streaming_outage_reported_in_band_witness :
  b_stream (body_hello (Some id_A) true) = true
  /\ b_prompt (body_hello (Some id_A) true) = Some " hello "
  /\ JS.is_empty (JS.trim " hello ") = false
  /\ identifier_accepted uuid_shape db_A drawn
       (b_conversationId (body_hello (Some id_A) true)) = true
  /\ @down (list stream_event) (stream_request " hello " "m")
     = Rejected "ECONNREFUSED"
  /\ (let w' := serve integer_toString
                  (registerPrompt uuid_shape "m" (body_hello (Some id_A) true))
                  (arrival db_A 0 drawn down down) in
      statusCode (res w') = 200%nat
      /\ written (res w')
         = [EvStart id_A 1 "hello"; EvError msg_stream_error]
      /\ ended (res w') = true
      /\ map p_response (prompts (db w')) = [EmptyString]).
Proof.
  do 5 (split; [reflexivity|]).
  destruct (streaming_outage_reported_in_band uuid_shape "m" integer_toString
              db_A 0 drawn down down (body_hello (Some id_A) true) " hello "
              "ECONNREFUSED" eq_refl eq_refl eq_refl eq_refl eq_refl)
    as (S1 & _ & W & E & P & _).
  split; [exact S1|]. split; [exact W|]. split; [exact E|].
  rewrite P. reflexivity.
Defined.

Lemma retrieval_reads_only_witness :
  let w' := serve integer_toString (getConversation uuid_shape "nope")
              (arrival db_shuffled 0 drawn down down) in
  db w' = db_shuffled /\ calls w' = [].
Proof.
  destruct (retrieval_reads_only uuid_shape integer_toString db_shuffled 0
              drawn down down "nope") as (D & C & _).
  split; [exact D | exact C].
Defined.

Lemma sentiment_store_stays_valid_witness :
  scores_in_range empty_db
  /\ (let w' := serve integer_toString (analyzeSentiment "m" (Some "bo"))
                  (arrival empty_db 0 drawn (answers answer_15) down) in
      scores_in_range (db w')).
Proof.
  assert (R : scores_in_range empty_db) by constructor.
  split; [exact R|].
  exact (proj1 (sentiment_store_stays_valid "m" integer_toString empty_db 0
                  drawn (answers answer_15) down (Some "bo")) R).
Defined.

Lemma sentiment_blank_text_rejected_witness :
  blank (Some "  ") = true
  /\ (let w' := serve integer_toString (analyzeSentiment "m" (Some "  "))
                  (arrival empty_db 0 drawn (answers answer_7) down) in
      statusCode (res w') = 400%nat /\ db w' = empty_db /\ calls w' = []).
Proof.
  split; [reflexivity|].
  destruct (sentiment_blank_text_rejected "m" integer_toString empty_db 0
              drawn (answers answer_7) down (Some "  ") eq_refl)
    as (S & _ & D & C & _).
  split; [exact S|]. split; [exact D | exact C].
Defined.

Lemma sentiment_unusable_answer_is_500_witness :
  JS.is_empty (JS.trim "bo") = false
  /\ @down JSON.value (normal_request (sentiment_prompt "bo") "m")
     = Rejected "ECONNREFUSED"
  /\ (let w' := serve integer_toString (analyzeSentiment "m" (Some "bo"))
                  (arrival empty_db 0 drawn down down) in
      statusCode (res w') = 500%nat /\ db w' = empty_db).
Proof.
  split; [reflexivity|]. split; [reflexivity|].
  destruct (sentiment_unusable_answer_is_500 "m" integer_toString empty_db 0
              drawn down down "bo" eq_refl
              (or_introl (ex_intro _ "ECONNREFUSED" eq_refl)))
    as (S & _ & D & _).
  split; [exact S | exact D].
Defined.


(** * The batch scripts *)

(** ** The reviews *)

Section reviews_script.

Import Exercici2.

Lemma tally_total (st : statistics) (sentiment : string) :
  total (tally st sentiment) = S (total st).
Proof.
  unfold tally, total.
  destruct (String.eqb sentiment "positive"); [cbn; lia|].
  destruct (String.eqb sentiment "negative"); [cbn; lia|].
  destruct (String.eqb sentiment "neutral"); cbn; lia.
Qed.

Lemma tally_error (st : statistics) :
  tally st "error"
  = {| positive := positive st; negative := negative st;
       neutral := neutral st; error := S (error st) |}.
Proof. reflexivity. Qed.

Variable ollama : nat -> string -> fetched.

Lemma analyse_total (rs : list Review) :
  forall n st st' n',
  analyse ollama n rs st = Some (st', n') ->
  total st' = (total st + List.length rs)%nat.
Proof.
  induction rs as [|r rs IH]; intros n st st' n' H; cbn [analyse] in H.
  - injection H as <- _. cbn. lia.
  - destruct (r_content r) as [text|]; [|discriminate].
    apply IH in H. rewrite tally_total in H. cbn. lia.
Qed.

Lemma analyse_defined (rs : list Review) :
  forall n st,
  (exists r, analyse ollama n rs st = Some r)
  <-> Forall (fun r => r_content r <> None) rs.
Proof.
  induction rs as [|r rs IH]; intros n st; cbn [analyse].
  - split; [constructor | eauto].
  - destruct (r_content r) as [text|] eqn:C.
    + rewrite IH. split.
      * intro F. constructor; [congruence | exact F].
      * intro F. inversion F. assumption.
    + split.
      * intros [x H]. discriminate.
      * intro F. inversion F. congruence.
Qed.

Lemma process_counts (reviews : list Review) (gs : list Game) :
  forall n out,
  process ollama n reviews gs = Some out ->
  map gr_appid out = map g_appid gs
  /\ map gr_name out = map g_name gs
  /\ Forall2 (fun game entry =>
                total (gr_statistics entry) = analysed reviews game)
       gs out.
Proof.
  induction gs as [|game gs IH]; intros n out H; cbn [process] in H.
  - injection H as <-. repeat split. constructor.
  - destruct (analyse ollama n (reviewsToAnalyze reviews game) no_statistics)
      as [[st n']|] eqn:A; [|discriminate].
    destruct (process ollama n' reviews gs) as [rest|] eqn:P; [|discriminate].
    injection H as <-. destruct (IH n' rest P) as (I1 & I2 & I3).
    cbn. rewrite I1, I2. repeat split. constructor; [|exact I3].
    cbn. apply analyse_total in A. rewrite A.
    unfold reviewsToAnalyze, analysed. rewrite length_firstn. reflexivity.
Qed.

Lemma process_defined (reviews : list Review) (gs : list Game) :
  forall n,
  (exists out, process ollama n reviews gs = Some out)
  <-> Forall (fun game =>
                Forall (fun r => r_content r <> None)
                  (reviewsToAnalyze reviews game)) gs.
Proof.
  induction gs as [|game gs IH]; intro n; cbn [process].
  - split; [constructor | eauto].
  - destruct (analyse ollama n (reviewsToAnalyze reviews game) no_statistics)
      as [[st n']|] eqn:A.
    + assert (D : Forall (fun r => r_content r <> None)
                    (reviewsToAnalyze reviews game))
        by (apply (analyse_defined _ n no_statistics); eauto).
      destruct (process ollama n' reviews gs) as [rest|] eqn:P.
      * split; [|eauto]. intros _. constructor; [exact D|].
        apply (IH n'). eauto.
      * split; [intros [x H]; discriminate|].
        intro F. inversion F as [|? ? _ F']. apply (IH n') in F'.
        destruct F' as [y F']. congruence.
    + split; [intros [x H]; discriminate|].
      intro F. inversion F as [|? ? D _].
      apply (analyse_defined _ n no_statistics) in D. destruct D as [y D].
      congruence.
Qed.

Lemma analyse_failed (rs : list Review) :
  (forall n text, analyzeSentiment (ollama n text) = "error") ->
  forall n st st' n',
  analyse ollama n rs st = Some (st', n') ->
  positive st' = positive st /\ negative st' = negative st
  /\ neutral st' = neutral st.
Proof.
  intro O. induction rs as [|r rs IH]; intros n st st' n' H; cbn [analyse] in H.
  - injection H as <- _. auto.
  - destruct (r_content r) as [text|]; [|discriminate].
    rewrite O, tally_error in H. apply IH in H. exact H.
Qed.

Lemma process_failed (reviews : list Review) (gs : list Game) :
  (forall n text, analyzeSentiment (ollama n text) = "error") ->
  forall n out,
  process ollama n reviews gs = Some out ->
  Forall (fun entry =>
            positive (gr_statistics entry) = O
            /\ negative (gr_statistics entry) = O
            /\ neutral (gr_statistics entry) = O) out.
Proof.
  intro O. induction gs as [|game gs IH]; intros n out H; cbn [process] in H.
  - injection H as <-. constructor.
  - destruct (analyse ollama n (reviewsToAnalyze reviews game) no_statistics)
      as [[st n']|] eqn:A; [|discriminate].
    destruct (process ollama n' reviews gs) as [rest|] eqn:P; [|discriminate].
    injection H as <-. constructor; [|apply (IH n'), P].
    apply (analyse_failed _ O) in A. exact A.
Qed.

Lemma main_rows (env : environment) (games_csv : csv Game)
    (reviews_csv : csv Review) (now : string) (out : results) :
  main ollama env games_csv reviews_csv now = Some out ->
  exists games_rows reviews,
    games_csv = Rows games_rows /\ reviews_csv = Rows reviews
    /\ timestamp out = now
    /\ process ollama 0 reviews (firstn 2 games_rows) = Some (games out).
Proof.
  unfold main.
  destruct (given (DATA_PATH env) && given (CHAT_API_OLLAMA_URL env)
            && given (CHAT_API_OLLAMA_MODEL_TEXT env))%bool; [|discriminate].
  destruct games_csv as [|e|games_rows], reviews_csv as [|e'|reviews];
    try discriminate.
  destruct (process ollama 0 reviews (firstn 2 games_rows)) as [o|] eqn:P;
    [|discriminate].
  intros [= <-]. exists games_rows, reviews. repeat split. exact P.
Qed.

(** X15: whenever the review script writes its results, both files were
    read, the results carry the time of the run and one entry for each
    of the first two games (for each game when there are fewer), in
    order, with the game's [appid] and [name]; the four counters of an
    entry add up to the number of reviews analysed for the game, which
    is the number of reviews of that [appid], two at most. *)
Theorem every_analysed_review_is_counted (env : environment)
    (games_csv : csv Game) (reviews_csv : csv Review) (now : string)
    (out : results) :
  main ollama env games_csv reviews_csv now = Some out ->
  exists games_rows reviews,
    games_csv = Rows games_rows /\ reviews_csv = Rows reviews
    /\ timestamp out = now
    /\ List.length (games out) = Nat.min 2 (List.length games_rows)
    /\ map gr_appid (games out) = map g_appid (firstn 2 games_rows)
    /\ map gr_name (games out) = map g_name (firstn 2 games_rows)
    /\ Forall2 (fun game entry =>
                  total (gr_statistics entry) = analysed reviews game
                  /\ (total (gr_statistics entry) <= 2)%nat)
         (firstn 2 games_rows) (games out).
Proof.
  intro H. destruct (main_rows env games_csv reviews_csv now out H)
    as (games_rows & reviews & G & R & T & P).
  exists games_rows, reviews.
  destruct (process_counts reviews _ 0 _ P) as (I1 & I2 & I3).
  repeat split; try assumption.
  - rewrite <- (length_map gr_appid), I1, length_map, length_firstn.
    reflexivity.
  - eapply Forall2_impl; [|exact I3]. cbv beta. intros game entry E.
    split; [exact E|]. rewrite E. apply Nat.le_min_l.
Qed.

(** X16: when no [fetch] of the run is answered with an [ok] response
    (the upstream is unreachable or answers with an HTTP error), the
    results are written all the same, and every entry counts each of its
    analysed reviews as an error and nothing else. *)
Theorem failures_counted_as_errors (env : environment)
    (games_csv : csv Game) (reviews_csv : csv Review) (now : string)
    (out : results) :
  (forall n text,
     match ollama n text with Answered true _ => False | _ => True end) ->
  main ollama env games_csv reviews_csv now = Some out ->
  exists games_rows reviews,
    games_csv = Rows games_rows /\ reviews_csv = Rows reviews
    /\ Forall2 (fun game entry =>
                  gr_statistics entry
                  = {| positive := 0; negative := 0; neutral := 0;
                       error := analysed reviews game |})
         (firstn 2 games_rows) (games out).
Proof.
  intros O H.
  assert (O' : forall n text, analyzeSentiment (ollama n text) = "error").
  { intros n text. specialize (O n text).
    destruct (ollama n text) as [e|[] j]; [reflexivity | elim O | reflexivity]. }
  destruct (main_rows env games_csv reviews_csv now out H)
    as (games_rows & reviews & G & R & T & P).
  exists games_rows, reviews. split; [exact G|]. split; [exact R|].
  destruct (process_counts reviews _ 0 _ P) as (_ & _ & I3).
  pose proof (process_failed reviews _ O' 0 _ P) as F.
  clear P H. revert F. induction I3 as [|game entry gs es E _ IH]; intro F.
  - constructor.
  - inversion F as [|? ? (F1 & F2 & F3) F']; subst.
    constructor; [|apply IH, F'].
    unfold total in E. destruct (gr_statistics entry) as [p ng nt er].
    cbn in *. subst. f_equal. lia.
Qed.

(** X17: the review script writes its results exactly when the three
    environment variables are set and not empty, both files exist and are
    read, and every review to analyse (the first two of each of the first
    two games) has a content; otherwise the exception ends the run and
    nothing is written. *)
Theorem results_written_exactly_when (env : environment)
    (games_csv : csv Game) (reviews_csv : csv Review) (now : string) :
  (exists out, main ollama env games_csv reviews_csv now = Some out)
  <-> (given (DATA_PATH env) = true
       /\ given (CHAT_API_OLLAMA_URL env) = true
       /\ given (CHAT_API_OLLAMA_MODEL_TEXT env) = true
       /\ exists games_rows reviews,
            games_csv = Rows games_rows /\ reviews_csv = Rows reviews
            /\ Forall (fun game =>
                         Forall (fun r => r_content r <> None)
                           (reviewsToAnalyze reviews game))
                 (firstn 2 games_rows)).
Proof.
  unfold main. split.
  - intros [out H].
    destruct (given (DATA_PATH env)); [|discriminate].
    destruct (given (CHAT_API_OLLAMA_URL env)); [|discriminate].
    destruct (given (CHAT_API_OLLAMA_MODEL_TEXT env)); [|discriminate].
    cbn [andb] in H.
    destruct games_csv as [|e|games_rows], reviews_csv as [|e'|reviews];
      try discriminate.
    repeat split. exists games_rows, reviews. repeat split.
    apply (process_defined reviews _ 0).
    destruct (process ollama 0 reviews (firstn 2 games_rows)) as [o|]; eauto.
    discriminate.
  - intros (E1 & E2 & E3 & games_rows & reviews & -> & -> & F).
    rewrite E1, E2, E3. cbn [andb].
    apply (process_defined reviews _ 0) in F. destruct F as [o F].
    rewrite F. eauto.
Qed.

End reviews_script.

(** ** The images *)

Section images_script.

Import Exercici3.

Variable path_join : string -> string -> string.
Variable path_extname : string -> string.
Variable ollama : nat -> string -> fetched.
Variable fs : filesystem.

(** X18: of the files of a directory, the image script analyses exactly
    those whose extension, in lower case, is one of the four image
    types and whose content is read and not empty: it makes one entry
    per such file, in the order of the directory and under the file's
    name, whether or not the upstream answers, and one [fetch] per such
    file; hence never more entries than files. *)
Theorem one_entry_per_readable_image (animalDirPath : string)
    (imageFiles : list string) (n : nat) :
  let taken :=
    filter (fun f => is_image path_join path_extname animalDirPath f
                     && readable path_join fs animalDirPath f) imageFiles in
  let out := images path_join path_extname ollama fs animalDirPath n
               imageFiles in
  map nom_fitxer (fst out) = taken
  /\ snd out = (n + List.length taken)%nat
  /\ (List.length (fst out) <= List.length imageFiles)%nat.
Proof.
  cbv zeta. revert n.
  induction imageFiles as [|f files IH]; intro n; cbn [images filter].
  - cbn. repeat split; lia.
  - change (includes IMAGE_TYPES
              (toLowerCase (path_extname (path_join animalDirPath f))))
      with (is_image path_join path_extname animalDirPath f).
    assert (R : readable path_join fs animalDirPath f
                = match imageToBase64 fs (path_join animalDirPath f) with
                  | Some b => negb (JS.is_empty b)
                  | None => false
                  end) by reflexivity.
    rewrite R. clear R.
    destruct (IH n) as (I1 & I2 & I3). destruct (IH (S n)) as (J1 & J2 & J3).
    destruct (is_image path_join path_extname animalDirPath f);
      cbn [negb andb]; [|repeat split; try assumption; cbn [List.length]; lia].
    destruct (imageToBase64 fs (path_join animalDirPath f)) as [b|];
      [|repeat split; try assumption; cbn [List.length]; lia].
    destruct (JS.is_empty b); cbn [negb];
      [repeat split; try assumption; cbn [List.length]; lia|].
    destruct (images path_join path_extname ollama fs animalDirPath (S n)
                files) as [more n'].
    cbn [fst snd map nom_fitxer List.length] in *.
    rewrite J1, J2. repeat split; lia.
Qed.

(** X19: the image script analyses the first directory only.  Elements
    of the images folder that are no directories, or whose [stat] fails,
    are passed over; when there is no directory at all the empty list is
    written; what is written for a folder whose first directory is
    [animalDir] is what is written when that directory is alone, namely
    the entries of its files (or nothing, when it cannot be listed),
    whatever comes after it. *)
Theorem only_first_directory_analysed (imagesFolderPath : string)
    (skipped : list string) :
  Forall (fun x => stat fs (path_join imagesFolderPath x) <> Some true)
    skipped ->
  directories path_join path_extname ollama fs imagesFolderPath skipped
  = Some []
  /\ forall animalDir rest,
       stat fs (path_join imagesFolderPath animalDir) = Some true ->
       directories path_join path_extname ollama fs imagesFolderPath
         (skipped ++ animalDir :: rest)
       = directories path_join path_extname ollama fs imagesFolderPath
           [animalDir]
       /\ directories path_join path_extname ollama fs imagesFolderPath
            (skipped ++ animalDir :: rest)
          = match readdir fs (path_join imagesFolderPath animalDir) with
            | Some imageFiles =>
                Some (fst (images path_join path_extname ollama fs
                             (path_join imagesFolderPath animalDir) 0
                             imageFiles))
            | None => None
            end.
Proof.
  induction 1 as [|x skipped N _ [IH1 IH2]]; cbn [directories app].
  - split; [reflexivity|]. intros animalDir rest D. rewrite D.
    destruct (readdir fs (path_join imagesFolderPath animalDir)); auto.
  - destruct (stat fs (path_join imagesFolderPath x)) as [[]|] eqn:S;
      try congruence; split; try exact IH1; intros animalDir rest D;
      destruct (IH2 animalDir rest D) as [A B]; rewrite A in *;
      cbn [directories] in *; rewrite D in *; auto.
Qed.

End images_script.

(** X20: what the image script stores for an answer in code fences.  For
    every JSON text that parses and holds no run of three backticks, the
    entry made of the answer holds the parsed value, whether the answer
    is the bare text or the text between code fences, labelled json or
    not and set apart from the text by JSON white space. *)
Theorem fenced_answer_stored_parsed (t w1 w2 : string) (v : JSON.value) :
  JSON.parse t = Some v ->
  JS.occurs fence t = false ->
  separator w1 = true ->
  separator w2 = true ->
  Exercici3.analysis_of (Some (JSON.Str t)) = Exercici3.Parsed v
  /\ Exercici3.analysis_of (Some (JSON.Str (fenced "json" w1 t w2)))
     = Exercici3.Parsed v
  /\ Exercici3.analysis_of (Some (JSON.Str (fenced EmptyString w1 t w2)))
     = Exercici3.Parsed v.
Proof.
  intros P H S1 S2.
  destruct (JS.trimStart t) as [|c r] eqn:T.
  { elim (parse_nonblank _ _ P T). }
  destruct (separator_head _ S2) as (_ & _ & _ & _ & A2).
  unfold Exercici3.analysis_of.
  rewrite (strip_fences_fenced "json" w1 t w2 c r),
    (strip_fences_fenced EmptyString w1 t w2 c r),
    (strip_fences_plain t) by auto.
  rewrite (parse_trimStart_tail _ _ _ A2 P), (parse_trim _ _ P). auto.
Qed.

(** ** The batch scripts at concrete runs *)

Lemma every_analysed_review_is_counted_witness :
  Exercici2.main Exercici2.verbose Exercici2.env_set
    (Exercici2.Rows Exercici2.games_ex) (Exercici2.Rows Exercici2.reviews_ex)
    "2025-01-01T00:00:00.000Z"
  = Some Exercici2.results_ex
  /\ Forall2 (fun game entry =>
                Exercici2.total (Exercici2.gr_statistics entry)
                = Exercici2.analysed Exercici2.reviews_ex game
                /\ (Exercici2.total (Exercici2.gr_statistics entry) <= 2)%nat)
       (firstn 2 Exercici2.games_ex)
       (Exercici2.games Exercici2.results_ex).
Proof.
  assert (H : Exercici2.main Exercici2.verbose Exercici2.env_set
                (Exercici2.Rows Exercici2.games_ex)
                (Exercici2.Rows Exercici2.reviews_ex)
                "2025-01-01T00:00:00.000Z"
              = Some Exercici2.results_ex) by reflexivity.
  split; [exact H|].
  destruct (every_analysed_review_is_counted Exercici2.verbose _ _ _ _ _ H)
    as (games_rows & reviews & G & R & _ & _ & _ & _ & F).
  injection G as <-. injection R as <-. exact F.
Defined.

Lemma failures_counted_as_errors_witness :
  (forall n text,
     match Exercici2.offline n text with
     | Answered true _ => False
     | _ => True
     end)
  /\ Exercici2.main Exercici2.offline Exercici2.env_set
       (Exercici2.Rows Exercici2.games_ex)
       (Exercici2.Rows Exercici2.reviews_ex) "2025-01-01T00:00:00.000Z"
     = Some Exercici2.results_offline
  /\ Forall2 (fun game entry =>
                Exercici2.gr_statistics entry
                = {| Exercici2.positive := 0; Exercici2.negative := 0;
                     Exercici2.neutral := 0;
                     Exercici2.error :=
                       Exercici2.analysed Exercici2.reviews_ex game |})
       (firstn 2 Exercici2.games_ex)
       (Exercici2.games Exercici2.results_offline).
Proof.
  assert (O : forall n text,
            match Exercici2.offline n text with
            | Answered true _ => False
            | _ => True
            end) by (intros n text; exact I).
  assert (H : Exercici2.main Exercici2.offline Exercici2.env_set
                (Exercici2.Rows Exercici2.games_ex)
                (Exercici2.Rows Exercici2.reviews_ex)
                "2025-01-01T00:00:00.000Z"
              = Some Exercici2.results_offline) by reflexivity.
  split; [exact O|]. split; [exact H|].
  destruct (failures_counted_as_errors Exercici2.offline _ _ _ _ _ O H)
    as (games_rows & reviews & G & R & F).
  injection G as <-. injection R as <-. exact F.
Defined.

Lemma results_written_exactly_when_witness :
  Forall (fun game =>
            Forall (fun r => Exercici2.r_content r <> None)
              (Exercici2.reviewsToAnalyze Exercici2.reviews_ex game))
    (firstn 2 Exercici2.games_ex)
  /\ exists out,
       Exercici2.main Exercici2.offline Exercici2.env_set
         (Exercici2.Rows Exercici2.games_ex)
         (Exercici2.Rows Exercici2.reviews_ex) "2025-01-01T00:00:00.000Z"
       = Some out.
Proof.
  assert (F : Forall (fun game =>
                Forall (fun r => Exercici2.r_content r <> None)
                  (Exercici2.reviewsToAnalyze Exercici2.reviews_ex game))
                (firstn 2 Exercici2.games_ex))
    by (repeat constructor; discriminate).
  split; [exact F|].
  apply (proj2 (results_written_exactly_when Exercici2.offline
                  Exercici2.env_set (Exercici2.Rows Exercici2.games_ex)
                  (Exercici2.Rows Exercici2.reviews_ex)
                  "2025-01-01T00:00:00.000Z")).
  repeat split. exists Exercici2.games_ex, Exercici2.reviews_ex.
  repeat split. exact F.
Defined.

Lemma one_entry_per_readable_image_witness :
  map Exercici3.nom_fitxer
    (fst (Exercici3.images Exercici3.join_slash Exercici3.ext_of
            Exercici3.describes Exercici3.fs_ex "img/cat" 0
            ["a.JPG"; "notes.txt"; "empty.png"; "b.png"]))
  = ["a.JPG"; "b.png"].
Proof.
  rewrite (proj1 (one_entry_per_readable_image Exercici3.join_slash
                    Exercici3.ext_of Exercici3.describes Exercici3.fs_ex
                    "img/cat" ["a.JPG"; "notes.txt"; "empty.png"; "b.png"]
                    0)).
  reflexivity.
Defined.

Lemma only_first_directory_analysed_witness :
  Forall (fun x => Exercici3.stat Exercici3.fs_ex
                     (Exercici3.join_slash "img" x) <> Some true)
    ["README"]
  /\ Exercici3.stat Exercici3.fs_ex (Exercici3.join_slash "img" "cat")
     = Some true
  /\ Exercici3.directories Exercici3.join_slash Exercici3.ext_of
       Exercici3.describes Exercici3.fs_ex "img" ["README"; "cat"; "dog"]
     = Exercici3.directories Exercici3.join_slash Exercici3.ext_of
         Exercici3.describes Exercici3.fs_ex "img" ["cat"].
Proof.
  assert (F : Forall (fun x => Exercici3.stat Exercici3.fs_ex
                                 (Exercici3.join_slash "img" x) <> Some true)
                ["README"])
    by (repeat constructor; discriminate).
  split; [exact F|]. split; [reflexivity|].
  exact (proj1 (proj2 (only_first_directory_analysed Exercici3.join_slash
                         Exercici3.ext_of Exercici3.describes
                         Exercici3.fs_ex "img" ["README"] F)
                  "cat" ["dog"] eq_refl)).
Defined.

Lemma fenced_answer_stored_parsed_witness :
  JSON.parse answer_7
  = Some (JSON.Obj [("score", JSON.Num 7); ("sentiment", JSON.Str "positiu")])
  /\ JS.occurs fence answer_7 = false
  /\ separator LF = true
  /\ Exercici3.analysis_of (Some (JSON.Str (fenced "json" LF answer_7 LF)))
     = Exercici3.Parsed
         (JSON.Obj [("score", JSON.Num 7); ("sentiment", JSON.Str "positiu")]).
Proof.
  do 3 (split; [reflexivity|]).
  exact (proj1 (proj2 (fenced_answer_stored_parsed answer_7 LF LF _
                         eq_refl eq_refl eq_refl eq_refl))).
Defined.
